(** * garmin_export.py: a shallow embedding and its verified properties

    The export script downloads activities from Garmin Connect into one
    output directory.  The embedding below follows [garmin_export.py]
    function by function:

    - Python [str] and [bytes] values are Rocq strings, one [ascii] per
      character or byte;
    - the output directory is a finite map from file names to contents;
    - an activity is a record of the keys the script reads; a key may be
      missing, and a key that is there may hold JSON null;
    - code that prints, touches the directory or raises runs in a state and
      exception monad [M] over the [world] (directory and standard output);
    - the garminconnect client and the library routines the script calls
      (zipfile, the UTF-8 codec, json.dumps) are the fields of two
      interfaces, [Client] and [Platform];
    - [datetime.strptime] is modelled for the two formats the script uses,
      after the regular expressions of CPython's [_strptime] module;
    - [load_env] runs over the lines of the [.env] file and the process
      environment, a finite map from names to values. *)

From Stdlib Require Import ZArith Ascii String List Bool Lia.
From stdpp Require Import gmap strings list fin_maps pretty.

Local Open Scope string_scope.
Local Open Scope Z_scope.

(* ================================================================== *)
(** * Strings *)
(* ================================================================== *)

Module Str.

(** [s.replace(old, new)] for one-character [old] and [new]. *)
Fixpoint replace (old new : ascii) (s : string) : string :=
  match s with
  | EmptyString => EmptyString
  | String c s' =>
      String (if Ascii.eqb c old then new else c) (replace old new s')
  end.

(** [s[:n]] *)
Fixpoint take (n : nat) (s : string) : string :=
  match n, s with
  | O, _ => EmptyString
  | _, EmptyString => EmptyString
  | S n', String c s' => String c (take n' s')
  end.

(** [s.split(sep)[0]]: the part of [s] before the first [sep], all of [s]
    when [sep] does not occur. *)
Fixpoint before (sep : ascii) (s : string) : string :=
  match s with
  | EmptyString => EmptyString
  | String c s' =>
      if Ascii.eqb c sep then EmptyString else String c (before sep s')
  end.

(** [c in s] *)
Fixpoint mem (c : ascii) (s : string) : bool :=
  match s with
  | EmptyString => false
  | String c' s' => Ascii.eqb c c' || mem c s'
  end.

(** [s.endswith(suffix)] *)
Definition endswith (s suffix : string) : bool :=
  let n := String.length s in
  let k := String.length suffix in
  (k <=? n)%nat && String.eqb (String.substring (n - k) k s) suffix.

(** Python truthiness of a string. *)
Definition truthy (s : string) : bool :=
  match s with EmptyString => false | String _ _ => true end.

End Str.

(* ================================================================== *)
(** * sanitize_filename *)
(* ================================================================== *)

Definition dquote : ascii := "034"%char.

(** The nine characters of [invalid_chars], in the order of the source:
    less-than, greater-than, colon, double quote, slash, backslash, bar,
    question mark and star. *)
Definition invalid_chars : list ascii :=
  ["<"; ">"; ":"; dquote; "/"; "\"; "|"; "?"; "*"]%char.

Definition sanitize_filename (name : string) : string :=
  let name :=
    fold_left (fun name char => Str.replace char "-" name) invalid_chars name in
  let name := Str.replace " " "_" name in
  if Str.truthy name then Str.take 50 name else "Unnamed".

(* ================================================================== *)
(** * datetime *)
(* ================================================================== *)

(** A naive [datetime] object; the script never produces microseconds. *)
Record datetime : Type := mkDatetime {
  year : Z; month : Z; day : Z;
  hour : Z; minute : Z; second : Z
}.

Definition fields (t : datetime) : list Z :=
  [year t; month t; day t; hour t; minute t; second t].

(** Comparison of datetimes is lexicographic on the fields. *)
Fixpoint lex_compare (a b : list Z) : comparison :=
  match a, b with
  | [], [] => Eq
  | [], _ :: _ => Lt
  | _ :: _, [] => Gt
  | x :: a', y :: b' =>
      match Z.compare x y with
      | Eq => lex_compare a' b'
      | c => c
      end
  end.

Definition datetime_compare (a b : datetime) : comparison :=
  lex_compare (fields a) (fields b).

(** [a > b] *)
Definition datetime_gtb (a b : datetime) : bool :=
  match datetime_compare a b with Gt => true | _ => false end.

(** [max(dates)] on a non-empty list: the first of the greatest items. *)
Definition max_datetime (first : datetime) (rest : list datetime) : datetime :=
  fold_left (fun best t => if datetime_gtb t best then t else best) rest first.

Definition is_leap (y : Z) : bool :=
  (y mod 4 =? 0) && (negb (y mod 100 =? 0) || (y mod 400 =? 0)).

Definition days_in_month (y m : Z) : Z :=
  if m =? 2 then (if is_leap y then 29 else 28)
  else if (m =? 4) || (m =? 6) || (m =? 9) || (m =? 11) then 30
  else 31.

(** The range checks of the [date] and [datetime] constructors. *)
Definition valid_date (y m d : Z) : bool :=
  (1 <=? y) && (y <=? 9999) && (1 <=? m) && (m <=? 12)
  && (1 <=? d) && (d <=? days_in_month y m).

Definition valid_time (h mi s : Z) : bool :=
  (0 <=? h) && (h <=? 23) && (0 <=? mi) && (mi <=? 59)
  && (0 <=? s) && (s <=? 59).

(* ================================================================== *)
(** * datetime.strptime *)
(* ================================================================== *)

Module Strptime.

(** A matcher consumes a prefix of its input and yields a value. *)
Definition matcher (A : Type) : Type := string -> option (A * string).

(** The value of a decimal digit, [None] for any other character. *)
Definition digit (c : ascii) : option Z :=
  let n := nat_of_ascii c in
  if ((48 <=? n) && (n <=? 57))%nat then Some (Z.of_nat n - 48) else None.

(** [\s] in a [str] pattern, on the characters below 256. *)
Definition space (c : ascii) : bool :=
  let n := nat_of_ascii c in
  ((9 <=? n) && (n <=? 13) || (28 <=? n) && (n <=? 32)
   || (n =? 133) || (n =? 160))%nat.

(** Two digits [a b] with [p a b]; the value is [10 a + b]. *)
Definition two (p : Z -> Z -> bool) : matcher Z := fun s =>
  match s with
  | String ca (String cb rest) =>
      match digit ca, digit cb with
      | Some a, Some b => if p a b then Some (10 * a + b, rest) else None
      | _, _ => None
      end
  | _ => None
  end.

(** One digit [a] with [p a]. *)
Definition one (p : Z -> bool) : matcher Z := fun s =>
  match s with
  | String ca rest =>
      match digit ca with
      | Some a => if p a then Some (a, rest) else None
      | None => None
      end
  | _ => None
  end.

(** A space then one digit: the last alternative of [%d]. *)
Definition padded (p : Z -> bool) : matcher Z := fun s =>
  match s with
  | String " " rest => one p rest
  | _ => None
  end.

(** Ordered choice.  In the two formats below every directive is followed
    by a character that is not a digit, or by the end of the pattern, so
    the first alternative that matches is the one the regular expression
    engine settles on. *)
Definition alt {A} (x y : matcher A) : matcher A := fun s =>
  match x s with
  | Some r => Some r
  | None => y s
  end.

Definition lit (c : ascii) : matcher unit := fun s =>
  match s with
  | String c' rest => if Ascii.eqb c' c then Some (tt, rest) else None
  | EmptyString => None
  end.

Fixpoint skip_spaces (s : string) : string :=
  match s with
  | String c rest => if space c then skip_spaces rest else s
  | EmptyString => s
  end.

(** [\s+]: what a run of whitespace in the format turns into. *)
Definition spaces : matcher unit := fun s =>
  match s with
  | String c rest => if space c then Some (tt, skip_spaces rest) else None
  | EmptyString => None
  end.

(** [%Y]: [\d\d\d\d] *)
Definition re_Y : matcher Z := fun s =>
  match s with
  | String c1 (String c2 (String c3 (String c4 rest))) =>
      match digit c1, digit c2, digit c3, digit c4 with
      | Some a, Some b, Some c, Some d =>
          Some (1000 * a + 100 * b + 10 * c + d, rest)
      | _, _, _, _ => None
      end
  | _ => None
  end.

(** [%m]: [1[0-2]|0[1-9]|[1-9]] *)
Definition re_m : matcher Z :=
  alt (two (fun a b => (a =? 1) && (b <=? 2)))
    (alt (two (fun a b => (a =? 0) && (1 <=? b)))
       (one (fun a => 1 <=? a))).

(** [%d]: [3[0-1]|[1-2]\d|0[1-9]|[1-9]| [1-9]] *)
Definition re_d : matcher Z :=
  alt (two (fun a b => (a =? 3) && (b <=? 1)))
    (alt (two (fun a _ => (1 <=? a) && (a <=? 2)))
       (alt (two (fun a b => (a =? 0) && (1 <=? b)))
          (alt (one (fun a => 1 <=? a))
             (padded (fun a => 1 <=? a))))).

(** [%H]: [2[0-3]|[0-1]\d|\d] *)
Definition re_H : matcher Z :=
  alt (two (fun a b => (a =? 2) && (b <=? 3)))
    (alt (two (fun a _ => a <=? 1))
       (one (fun _ => true))).

(** [%M]: [[0-5]\d|\d] *)
Definition re_M : matcher Z :=
  alt (two (fun a _ => a <=? 5)) (one (fun _ => true)).

(** [%S]: [6[0-1]|[0-5]\d|\d] *)
Definition re_S : matcher Z :=
  alt (two (fun a b => (a =? 6) && (b <=? 1)))
    (alt (two (fun a _ => a <=? 5))
       (one (fun _ => true))).

Definition bind {A B} (x : option (A * string)) (k : A -> matcher B)
  : option (B * string) :=
  match x with
  | Some (a, rest) => k a rest
  | None => None
  end.

(** The match of ['%Y-%m-%d'] at the start of the input. *)
Definition match_date : matcher (Z * Z * Z) := fun s =>
  bind (re_Y s) (fun y s =>
  bind (lit "-" s) (fun _ s =>
  bind (re_m s) (fun m s =>
  bind (lit "-" s) (fun _ s =>
  bind (re_d s) (fun d s => Some ((y, m, d), s)))))).

(** The match of ['%H:%M:%S'] at the start of the input. *)
Definition match_time : matcher (Z * Z * Z) := fun s =>
  bind (re_H s) (fun h s =>
  bind (lit ":" s) (fun _ s =>
  bind (re_M s) (fun mi s =>
  bind (lit ":" s) (fun _ s =>
  bind (re_S s) (fun sec s => Some ((h, mi, sec), s)))))).

(** [datetime.strptime(s, '%Y-%m-%d')]; [None] stands for [ValueError].
    The whole input has to be consumed, and the date has to exist. *)
Definition date (s : string) : option datetime :=
  match match_date s with
  | Some ((y, m, d), EmptyString) =>
      if valid_date y m d then Some (mkDatetime y m d 0 0 0) else None
  | _ => None
  end.

(** [datetime.strptime(s, '%Y-%m-%d %H:%M:%S')] *)
Definition date_time (s : string) : option datetime :=
  match bind (match_date s) (fun ymd s =>
        bind (spaces s) (fun _ s =>
        bind (match_time s) (fun hms s => Some ((ymd, hms), s)))) with
  | Some (((y, m, d), (h, mi, sec)), EmptyString) =>
      if valid_date y m d && valid_time h mi sec
      then Some (mkDatetime y m d h mi sec) else None
  | _ => None
  end.

End Strptime.

(** The digits of a number below 100 and below 10000. *)
Definition digit_char (d : Z) : ascii :=
  ascii_of_nat (48 + Z.to_nat d).

Definition pad2 (n : Z) : string :=
  String (digit_char (n / 10)) (String (digit_char (n mod 10)) EmptyString).

Definition pad4 (n : Z) : string :=
  String (digit_char (n / 1000)) (String (digit_char (n / 100 mod 10))
    (pad2 (n mod 100))).

(** [t.strftime('%Y-%m-%d')].  The C library the interpreter hands the
    format to prints the year as a plain decimal number: four digits from
    the year 1000 on, fewer before; month and day have two digits. *)
Definition strftime_date (t : datetime) : string :=
  pretty (year t) +:+ "-" +:+ pad2 (month t) +:+ "-" +:+ pad2 (day t).

(* ================================================================== *)
(** * The file name codec *)
(* ================================================================== *)

Definition get_date_string (start_time : string) : string :=
  match Strptime.date_time start_time with
  | Some date_obj => strftime_date date_obj
  | None => "unknown_date"
  end.

(** [f'{date_str}{name_part}_{activity_id}{suffix}'] with
    [name_part = f'_{activity_name}' if activity_name else ''], the
    expression every downloader builds its file names from; [suffix] is
    ['.gpx'], ['.tcx'], ['.zip'], ['.fit'], ['.json'] or ['_full.json']. *)
Definition name_part (activity_name : string) : string :=
  if Str.truthy activity_name then "_" +:+ activity_name else "".

Definition file_name (date_str activity_name : string) (activity_id : Z)
    (suffix : string) : string :=
  date_str +:+ name_part activity_name +:+ "_" +:+ pretty activity_id
    +:+ suffix.

(** The date a file name carries, as [get_last_activity_date] reads it:
    [datetime.strptime(file.name.split('_')[0], '%Y-%m-%d')]. *)
Definition decode_date (name : string) : option datetime :=
  Strptime.date (Str.before "_" name).

(* ================================================================== *)
(** * Exceptions, the world and the monad *)
(* ================================================================== *)

(** The exception classes the script meets.  All of them derive from
    [Exception], which is what the [except Exception] and bare [except]
    clauses of the script are about; [OSError] stands for its subclasses
    too. *)
Inductive exn_class : Type :=
| GarminConnectAuthenticationError
| GarminConnectConnectionError
| BadZipFile
| ValueError
| OSError
| UnicodeDecodeError
| TypeError
| AttributeError
| OtherException.

Record exn : Type := mkExn { exn_kind : exn_class; exn_msg : string }.

Inductive result (A : Type) : Type :=
| Ok (a : A)
| Raise (e : exn).
Arguments Ok {A} a.
Arguments Raise {A} e.

(** The output directory: absent, or present with its files.  A directory
    that is not [listable] cannot be scanned. *)
Inductive directory : Type :=
| NoDir
| Dir (listable : bool) (files : gmap string string).

Definition files_of (d : directory) : gmap string string :=
  match d with
  | NoDir => ∅
  | Dir _ files => files
  end.

(** What the script prints, one constructor per [print] statement; the
    five lines of hints after a failed authentication are [CommonFixes]. *)
Inductive line : Type :=
| UsernameRequired
| PasswordRequired
| TokenstoreNotFound
| OutputDirectory
| LastActivityDateFound (date : string)
| OnlyAfterThisDate
| NoExistingActivities
| Connecting
| Authenticated
| Fetching (count : Z)
| NoActivitiesFound
| Found (n : nat)
| FilteredOut (n : nat)
| NoNewActivities
| Progress (i n : nat)
| ActivityHeader (name type start : string)
| Saved (file : string)
| ActivityError (msg : string)
| ExportComplete (success total : nat)
| AuthenticationFailed (msg : string)
| CommonFixes
| ConnectionError (msg : string)
| UnexpectedError (msg : string).

Record world : Type := mkWorld {
  outdir : directory;
  stdout : list line
}.

(** State and exceptions: what was written or printed before a [raise]
    stays written and printed. *)
Definition M (A : Type) : Type := world -> result A * world.

Definition ret {A} (a : A) : M A := fun w => (Ok a, w).

Definition bind {A B} (m : M A) (k : A -> M B) : M B := fun w =>
  match m w with
  | (Ok a, w') => k a w'
  | (Raise e, w') => (Raise e, w')
  end.

Definition raise {A} (e : exn) : M A := fun w => (Raise e, w).

(** [try: body / except Exception as e: handler e] *)
Definition try_except {A} (body : M A) (handler : exn -> M A) : M A := fun w =>
  match body w with
  | (Ok a, w') => (Ok a, w')
  | (Raise e, w') => handler e w'
  end.

(** The outcome of a call that does not touch the world. *)
Definition call {A} (r : result A) : M A := fun w => (r, w).

(** The state of the output directory. *)
Definition current_directory : M directory := fun w => (Ok (outdir w), w).

Definition print (l : line) : M unit := fun w =>
  (Ok tt, mkWorld (outdir w) (stdout w ++ [l])).

Declare Scope m_scope.
Delimit Scope m_scope with M.
Notation "'let*' x ':=' m 'in' k" := (bind m (fun x => k))
  (at level 10, x binder, k at level 200) : m_scope.
Notation "m '>>' k" := (bind m (fun _ => k))
  (at level 65, right associativity) : m_scope.
Local Open Scope m_scope.

(* ================================================================== *)
(** * The library routines and the client *)
(* ================================================================== *)

(** The library routines whose results the script only passes on. *)
Class Platform : Type := {
  (** the members (name and content) of an archive, in the order of
      [namelist()]; [None] when [zipfile.ZipFile] raises [BadZipFile].
      Member names are plain file names, so that [extract] writes the member
      where [output_dir / name] points *)
  zip_members : string -> option (list (string * string));
  (** [data.decode('utf-8')]; [None] for [UnicodeDecodeError] *)
  utf8_decode : string -> option string;
  (** the structures [get_activity_details] and [get_activity] return *)
  json_doc : Type;
  (** [json.dumps(doc, indent=2)]; [None] for [TypeError] *)
  json_dumps : json_doc -> option string;
  (** the names a file cannot be created or replaced at *)
  write_denied : string -> bool
}.

Inductive ActivityDownloadFormat : Type := GPX | TCX | ORIGINAL.

(** A value the script reads from an activity: JSON [null], which Python
    has as [None], or a string. *)
Inductive value : Type :=
| Null
| Text (s : string).

(** [str(v)], what an f-string prints for [v]. *)
Definition str (v : value) : string :=
  match v with
  | Null => "None"
  | Text s => s
  end.

(** The entry [activityType]: [null], or an object, with or without the key
    [typeKey]. *)
Inductive type_entry : Type :=
| NullType
| TypeObject (typeKey : option value).

(** An activity as [get_activities] lists it: the identifier is always
    there, the other keys may be missing ([None]); a key that is there holds
    [null] or a value of the expected kind.  [dict.get] returns its default
    only for a missing key: a [null] comes back as it is. *)
Record activity : Type := mkActivity {
  activityId : Z;
  activityName : option value;
  activityType : option type_entry;
  startTimeLocal : option value
}.

(** The garminconnect client, with the state of its token store. *)
Class Client `{Platform} : Type := {
  (** [tokenstore_path.exists()] *)
  tokenstore_exists : bool;
  (** [oauth1_token.exists() or oauth2_token.exists()] *)
  tokens_cached : bool;
  (** [client.login()] *)
  login : result unit;
  (** [client.login(tokenstore=...)] *)
  login_tokenstore : result unit;
  get_activities : Z -> Z -> result (list activity);
  client_download_activity : Z -> ActivityDownloadFormat -> result string;
  get_activity_details : Z -> result json_doc;
  get_activity : Z -> result json_doc
}.

(* ================================================================== *)
(** * File operations on the output directory *)
(* ================================================================== *)

Definition os_error {A} (msg : string) : M A := raise (mkExn OSError msg).

(** [path.write_bytes(data)] and [path.write_text(text)] *)
Definition write_file `{Platform} (name data : string) : M unit := fun w =>
  match outdir w with
  | Dir l files =>
      if write_denied name then os_error "Permission denied" w
      else (Ok tt, mkWorld (Dir l (<[name := data]> files)) (stdout w))
  | NoDir => os_error "No such file or directory" w
  end.

(** [src.rename(dst)]; a file that is at [dst] is replaced, as on POSIX. *)
Definition rename `{Platform} (src dst : string) : M unit := fun w =>
  match files_of (outdir w) !! src, outdir w with
  | Some data, Dir l files =>
      if write_denied dst then os_error "Permission denied" w
      else (Ok tt, mkWorld (Dir l (<[dst := data]> (delete src files))) (stdout w))
  | _, _ => os_error "No such file or directory" w
  end.

(** [path.unlink()] *)
Definition unlink (name : string) : M unit := fun w =>
  match files_of (outdir w) !! name, outdir w with
  | Some _, Dir l files =>
      (Ok tt, mkWorld (Dir l (delete name files)) (stdout w))
  | _, _ => os_error "No such file or directory" w
  end.

(** [zipfile.ZipFile(path, 'r')], as the list of its members *)
Definition zip_open `{Platform} (name : string) : M (list (string * string)) :=
  fun w =>
  match files_of (outdir w) !! name with
  | Some data =>
      match zip_members data with
      | Some members => (Ok members, w)
      | None => raise (mkExn BadZipFile "File is not a zip file") w
      end
  | None => os_error "No such file or directory" w
  end.

(** [output_dir.mkdir(parents=True, exist_ok=True)] *)
Definition mkdir : M unit := fun w =>
  match outdir w with
  | NoDir => (Ok tt, mkWorld (Dir true ∅) (stdout w))
  | Dir _ _ => (Ok tt, w)
  end.

(** [list(output_dir.glob(f'*{format_ext}'))], as file names: the names of
    the directory that end with [format_ext].  A missing directory has no
    match; scanning a directory that cannot be listed raises. *)
Definition glob (d : directory) (format_ext : string) : result (list string) :=
  match d with
  | NoDir => Ok []
  | Dir false _ => Raise (mkExn OSError "Permission denied")
  | Dir true files =>
      Ok (List.filter (fun name => Str.endswith name format_ext)
            (map fst (map_to_list files)))
  end.

(* ================================================================== *)
(** * The downloaders *)
(* ================================================================== *)

(** The [--format] choices. *)
Inductive format : Type := gpx | tcx | fit | json.

Section Downloaders.
Context `{Client}.

Definition download_gpx (activity_id : Z) (date_str activity_name : string)
  : M string :=
  let filename := file_name date_str activity_name activity_id ".gpx" in
  let* data := call (client_download_activity activity_id GPX) in
  write_file filename data >>
  ret filename.

Definition download_tcx (activity_id : Z) (date_str activity_name : string)
  : M string :=
  let filename := file_name date_str activity_name activity_id ".tcx" in
  let* data := call (client_download_activity activity_id TCX) in
  let* text :=
    match utf8_decode data with
    | Some text => ret text
    | None => raise (mkExn UnicodeDecodeError "invalid start byte")
    end in
  write_file filename text >>
  ret filename.

(** The body of the [with zipfile.ZipFile(...)] block and the [unlink]
    after it. *)
Definition extract_first (zip_filename final_filename : string) : M unit :=
  let* zip_ref := zip_open zip_filename in
  match zip_ref with
  | (member, content) :: _ =>
      (* zip_ref.extract(extracted_files[0], output_dir) *)
      write_file member content >>
      rename member final_filename
  | [] => ret tt
  end >>
  unlink zip_filename.

Definition download_fit (activity_id : Z) (date_str activity_name : string)
  : M string :=
  let zip_filename := file_name date_str activity_name activity_id ".zip" in
  let* data := call (client_download_activity activity_id ORIGINAL) in
  write_file zip_filename data >>
  let final_filename := file_name date_str activity_name activity_id ".fit" in
  try_except (extract_first zip_filename final_filename)
    (fun e =>
       match exn_kind e with
       | BadZipFile => rename zip_filename final_filename
       | _ => raise e
       end) >>
  ret final_filename.

Definition dumps (doc : json_doc) : M string :=
  match json_dumps doc with
  | Some text => ret text
  | None => raise (mkExn TypeError "Object is not JSON serializable")
  end.

Definition download_json (activity_id : Z) (date_str activity_name : string)
  : M string :=
  let filename := file_name date_str activity_name activity_id ".json" in
  let* details := call (get_activity_details activity_id) in
  let* text := dumps details in
  write_file filename text >>
  let json_full :=
    file_name date_str activity_name activity_id "_full.json" in
  let* full_activity := call (get_activity activity_id) in
  let* text := dumps full_activity in
  write_file json_full text >>
  ret filename.

Definition downloader (format_type : format)
  : Z -> string -> string -> M string :=
  match format_type with
  | gpx => download_gpx
  | tcx => download_tcx
  | fit => download_fit
  | json => download_json
  end.

(** The lines before the [try] are not protected by it: [None.get] and
    [sanitize_filename(None)], which calls [None.replace], raise
    [AttributeError] out of [download_activity].  A [null] start time is
    harmless here: [strptime] raises [TypeError] on it inside
    [get_date_string], whose bare [except] answers ['unknown_date']. *)
Definition download_activity (a : activity) (format_type : format) : M bool :=
  let activity_id := activityId a in
  let activity_name := default (Text "Unnamed Activity") (activityName a) in
  let* activity_type :=
    match default (TypeObject None) (activityType a) with
    | TypeObject typeKey => ret (default (Text "unknown") typeKey)
    | NullType =>
        raise (mkExn AttributeError
                 "'NoneType' object has no attribute 'get'")
    end in
  let start_time := default (Text "unknown time") (startTimeLocal a) in
  let date_str :=
    match start_time with
    | Text s => get_date_string s
    | Null => "unknown_date"
    end in
  let* safe_name :=
    match activity_name with
    | Text s => ret (sanitize_filename s)
    | Null =>
        raise (mkExn AttributeError
                 "'NoneType' object has no attribute 'replace'")
    end in
  print (ActivityHeader (str activity_name) (str activity_type)
           (str start_time)) >>
  try_except
    (let* filename := downloader format_type activity_id date_str safe_name in
     print (Saved filename) >>
     ret true)
    (fun e => print (ActivityError (exn_msg e)) >> ret false).

End Downloaders.

(* ================================================================== *)
(** * The watermark *)
(* ================================================================== *)

(** The loop over [files]: a name that does not carry a date is skipped. *)
Fixpoint decoded_dates (files : list string) : list datetime :=
  match files with
  | [] => []
  | file :: files' =>
      match decode_date file with
      | Some date_obj => date_obj :: decoded_dates files'
      | None => decoded_dates files'
      end
  end.

Definition get_last_activity_date (output_dir : directory)
    (format_ext : string) : option datetime :=
  match glob output_dir format_ext with
  | Ok files =>
      match files with
      | [] => None
      | _ :: _ =>
          match decoded_dates files with
          | first :: rest => Some (max_datetime first rest)
          | [] => None
          end
      end
  | Raise _ => None
  end.

(** The list comprehension of [main] that keeps the activities started after
    [last_date]; [strptime] raises [ValueError] on a start time it cannot
    parse and [TypeError] on [None]. *)
Fixpoint filter_since (last_date : datetime) (activities : list activity)
  : result (list activity) :=
  match activities with
  | [] => Ok []
  | a :: activities' =>
      match default (Text "1970-01-01 00:00:00") (startTimeLocal a) with
      | Null =>
          Raise (mkExn TypeError "strptime() argument 1 must be str, not None")
      | Text s =>
          match Strptime.date_time s with
          | None => Raise (mkExn ValueError "time data does not match format")
          | Some start =>
              match filter_since last_date activities' with
              | Ok kept =>
                  Ok (if datetime_gtb start last_date then a :: kept else kept)
              | Raise e => Raise e
              end
          end
      end
  end.

(* ================================================================== *)
(** * main *)
(* ================================================================== *)

(** The command line, after [load_env] has filled in the defaults. *)
Record arguments : Type := mkArguments {
  username : option string;
  password : option string;
  count : Z;
  arg_format : format;
  since_last : bool;
  all : bool
}.

Definition format_ext (f : format) : string :=
  match f with
  | gpx => ".gpx" | tcx => ".tcx" | fit => ".fit" | json => ".json"
  end.

(** [not username], [not password] *)
Definition missing (o : option string) : bool :=
  match o with
  | Some s => negb (Str.truthy s)
  | None => true
  end.

Section Main.
Context `{Client}.

(** The [for] loop of [main]; [i] is the index [enumerate] gives the first
    activity of [activities], [total] is [len(activities)]. *)
Fixpoint download_each (activities : list activity) (format_type : format)
    (i total success_count : nat) : M nat :=
  match activities with
  | [] => ret success_count
  | a :: activities' =>
      print (Progress i total) >>
      let* ok := download_activity a format_type in
      download_each activities' format_type (S i) total
        (if ok then S success_count else success_count)
  end.

Definition authenticate : M unit :=
  print Connecting >>
  (if tokens_cached then call login_tokenstore
   else
     call login >>
     try_except (call login_tokenstore) (fun _ => ret tt)) >>
  print Authenticated.

(** The [try] block of [main]. *)
Definition export (args : arguments) (last_date : option datetime) : M Z :=
  authenticate >>
  print (Fetching (count args)) >>
  let* activities := call (get_activities 0 (count args)) in
  match activities with
  | [] => print NoActivitiesFound >> ret 0
  | _ :: _ =>
      print (Found (length activities)) >>
      let* activities :=
        match last_date with
        | Some last_date =>
            let original_count := length activities in
            let* activities := call (filter_since last_date activities) in
            let filtered_count := (original_count - length activities)%nat in
            (if (0 <? filtered_count)%nat
             then print (FilteredOut filtered_count) else ret tt) >>
            ret activities
        | None => ret activities
        end in
      match last_date, activities with
      | Some _, [] => print NoNewActivities >> ret 0
      | _, _ =>
          let* success_count :=
            download_each activities (arg_format args) 1
              (length activities) 0 in
          print (ExportComplete success_count (length activities)) >>
          ret 0
      end
  end.

(** The three [except] clauses of [main]. *)
Definition report (e : exn) : M Z :=
  match exn_kind e with
  | GarminConnectAuthenticationError =>
      print (AuthenticationFailed (exn_msg e)) >>
      print CommonFixes >>
      ret 1
  | GarminConnectConnectionError =>
      print (ConnectionError (exn_msg e)) >> ret 1
  | _ =>
      print (UnexpectedError (exn_msg e)) >> ret 1
  end.

Definition main (args : arguments) : M Z :=
  let since_last := if all args then false else since_last args in
  if missing (username args) && negb tokenstore_exists then
    print UsernameRequired >> print TokenstoreNotFound >> ret 1
  else if negb (missing (username args)) && missing (password args)
          && negb tokenstore_exists then
    print PasswordRequired >> print TokenstoreNotFound >> ret 1
  else
    mkdir >>
    print OutputDirectory >>
    let* last_date :=
      if since_last then
        let* output_dir := current_directory in
        let last_date :=
          get_last_activity_date output_dir (format_ext (arg_format args)) in
        match last_date with
        | Some t =>
            print (LastActivityDateFound (strftime_date t)) >>
            print OnlyAfterThisDate >>
            ret last_date
        | None => print NoExistingActivities >> ret last_date
        end
      else ret None in
    try_except (export args last_date) report.

End Main.

(* ================================================================== *)
(** * Vocabulary of the statements *)
(* ================================================================== *)

(** The characters [sanitize_filename] removes: the invalid ones and the
    space. *)
Definition forbidden (c : ascii) : bool :=
  existsb (Ascii.eqb c) invalid_chars || Ascii.eqb c " ".

(** What the ten replacements of [sanitize_filename] do to one character. *)
Definition clean_char (c : ascii) : ascii :=
  let c :=
    fold_left (fun c char => if Ascii.eqb c char then "-"%char else c)
      invalid_chars c in
  if Ascii.eqb c " " then "_"%char else c.

Fixpoint all_chars (p : ascii -> bool) (s : string) : bool :=
  match s with
  | EmptyString => true
  | String c s' => p c && all_chars p s'
  end.

(** The name after the replacements, before it is cut to 50 characters. *)
Definition clean (name : string) : string :=
  Str.replace " " "_"
    (fold_left (fun name char => Str.replace char "-" name) invalid_chars name).

(** A matcher [keeps] a character when it never consumes it. *)
Definition keeps {A} (c : ascii) (m : Strptime.matcher A) : Prop :=
  forall s v rest, m s = Some (v, rest) -> Str.mem c s = Str.mem c rest.

(** A date [t] is carried by the directory when one of its files with the
    extension [format_ext] has a name that decodes to [t]. *)
Definition carries (output_dir : directory) (format_ext : string)
    (t : datetime) : Prop :=
  exists name,
    is_Some (files_of output_dir !! name)
    /\ Str.endswith name format_ext = true
    /\ decode_date name = Some t.

(** The directory of the example: two exported [.fit] files. *)
Definition two_fit_files : directory :=
  Dir true (<["2024-03-15_y_2.fit" := "fit data"]>
             (<["2024-01-01_x_1.fit" := "fit data"]> ∅)).

(** ** The incremental filter *)

(** The default of the filter for a missing [startTimeLocal]. *)
Definition epoch : datetime := mkDatetime 1970 1 1 0 0 0.

(** The start time [main] gives an activity in the filter. *)
Definition start_of (a : activity) : option datetime :=
  match default (Text "1970-01-01 00:00:00") (startTimeLocal a) with
  | Text s => Strptime.date_time s
  | Null => None
  end.

(** An activity started after [last_date]: its start time when it has one
    that parses, the epoch when it has none. *)
Definition started_after (last_date : datetime) (a : activity) : bool :=
  match startTimeLocal a with
  | Some (Text s) =>
      match Strptime.date_time s with
      | Some t => datetime_gtb t last_date
      | None => false
      end
  | Some Null => false
  | None => datetime_gtb epoch last_date
  end.

(** The start time is missing, or it is a string that parses. *)
Definition well_timed (a : activity) : Prop :=
  match startTimeLocal a with
  | Some (Text s) => is_Some (Strptime.date_time s)
  | Some Null => False
  | None => True
  end.

(** ** Activity records *)

(** The name and the type of the activity are not [null]: what the lines of
    [download_activity] before its [try] need to get through. *)
Definition well_formed (a : activity) : bool :=
  match activityType a with
  | Some NullType => false
  | _ => true
  end
  && match activityName a with
     | Some Null => false
     | _ => true
     end.

(** The exception [download_activity] raises on a record that is not
    [well_formed]; the type is looked at first. *)
Definition prelude_error (a : activity) : exn :=
  match activityType a with
  | Some NullType =>
      mkExn AttributeError "'NoneType' object has no attribute 'get'"
  | _ => mkExn AttributeError "'NoneType' object has no attribute 'replace'"
  end.

(** An outcome that stands for the well-formed records: on the others
    [download_activity] raises [prelude_error] in the world [w] it has
    reached. *)
Definition guarded {A} (a : activity) (w : world)
    (outcome : result A * world) : result A * world :=
  if well_formed a then outcome else (Raise (prelude_error a), w).

(** The activities up to the first record that is not well formed: the ones
    the loop of [main] gets to download. *)
Fixpoint ready (activities : list activity) : list activity :=
  match activities with
  | [] => []
  | a :: activities' =>
      if well_formed a then a :: ready activities' else []
  end.

(** The first record that is not well formed, if any: where the loop of
    [main] stops. *)
Definition malformed (activities : list activity) : option activity :=
  List.find (fun a => negb (well_formed a)) activities.

(** ** The lines of the standard output *)

(** The line [download_activity] prints first. *)
Definition header (a : activity) : line :=
  ActivityHeader (str (default (Text "Unnamed Activity") (activityName a)))
    (str (match default (TypeObject None) (activityType a) with
          | TypeObject typeKey => default (Text "unknown") typeKey
          | NullType => Null
          end))
    (str (default (Text "unknown time") (startTimeLocal a))).

Definition is_header (l : line) : bool :=
  match l with ActivityHeader _ _ _ => true | _ => false end.

Definition is_saved (l : line) : bool :=
  match l with Saved _ => true | _ => false end.

Definition is_error (l : line) : bool :=
  match l with ActivityError _ => true | _ => false end.

(** The activities a run attempted, succeeded in and failed at, as its
    output tells. *)
Definition attempted (out : list line) : list line := List.filter is_header out.
Definition succeeded (out : list line) : nat := length (List.filter is_saved out).
Definition failed (out : list line) : nat := length (List.filter is_error out).

(** A computation that prints nothing. *)
Definition silent {A} (m : M A) : Prop :=
  forall w, stdout (snd (m w)) = stdout w.

(** The world with more output. *)
Definition printed (w : world) (lines : list line) : world :=
  mkWorld (outdir w) (stdout w ++ lines).

(** ** Activities of the examples *)

(** A record with a name, a type and a start time. *)
Definition entry (id : Z) (name type start : string) : activity :=
  mkActivity id (Some (Text name)) (Some (TypeObject (Some (Text type))))
    (Some (Text start)).

Definition run_14 : activity :=
  entry 101 "Morning Run" "running" "2024-03-14 07:30:00".

Definition run_15 : activity :=
  entry 102 "Lunch Run" "running" "2024-03-15 12:05:00".

Definition run_16 : activity :=
  entry 103 "Evening Ride" "cycling" "2024-03-16 18:45:10".

(** An activity with no [startTimeLocal]. *)
Definition untimed : activity :=
  mkActivity 104 (Some (Text "Manual Entry")) None None.

(** An activity whose [startTimeLocal] is not in the expected format. *)
Definition mistimed : activity :=
  entry 105 "Imported" "other" "2024-03-16T18:45:10".

(** An activity whose name is [null]. *)
Definition unnamed : activity :=
  mkActivity 106 (Some Null) (Some (TypeObject (Some (Text "running"))))
    (Some (Text "2024-03-17 09:00:00")).

(** A directory whose only export is older than the epoch. *)
Definition old_export : directory :=
  Dir true (<["1969-06-01_Old_Walk_7.fit" := "fit data"]> ∅).

(** ** The stages of a run *)

(** How [authenticate] ends: a failure of the second login, the one that
    only saves the tokens, is ignored. *)
Definition login_outcome `{Client} : result unit :=
  if tokens_cached then login_tokenstore else login.

(** A user name, and a password or a token store, are there. *)
Definition credentials_ok `{Client} (args : arguments) : bool :=
  negb (missing (username args) && negb tokenstore_exists)
  && negb (negb (missing (username args)) && missing (password args)
           && negb tokenstore_exists).

(** The output directory after [mkdir]. *)
Definition made (d : directory) : directory :=
  match d with
  | NoDir => Dir true ∅
  | Dir _ _ => d
  end.

Definition incremental (args : arguments) : bool :=
  if all args then false else since_last args.

(** The watermark [main] resolves, if any. *)
Definition watermark (args : arguments) (d : directory) : option datetime :=
  if incremental args
  then get_last_activity_date (made d) (format_ext (arg_format args))
  else None.

(** What [main] prints before it connects. *)
Definition preamble (args : arguments) (d : directory) : list line :=
  OutputDirectory ::
  (if incremental args then
     match watermark args d with
     | Some t => [LastActivityDateFound (strftime_date t); OnlyAfterThisDate]
     | None => [NoExistingActivities]
     end
   else []).

(** The activities that reach the loop. *)
Definition to_download (last_date : option datetime)
    (activities : list activity) : list activity :=
  match last_date with
  | Some last_date => List.filter (started_after last_date) activities
  | None => activities
  end.

(** What [main] prints for a fatal error. *)
Definition report_lines (e : exn) : list line :=
  match exn_kind e with
  | GarminConnectAuthenticationError =>
      [AuthenticationFailed (exn_msg e); CommonFixes]
  | GarminConnectConnectionError => [ConnectionError (exn_msg e)]
  | _ => [UnexpectedError (exn_msg e)]
  end.

(** ** A platform and clients for the examples *)

Fixpoint repeat_char (c : ascii) (n : nat) : string :=
  match n with
  | O => EmptyString
  | S n' => String c (repeat_char c n')
  end.

(** The 22 bytes of an archive with no member: the end-of-central-directory
    record alone. *)
Definition empty_zip : string :=
  String "P" (String "K" (String "005" (String "006"
    (repeat_char "000" 18)))).

(** A stand-in for [zipfile] in the examples: it knows the empty archive,
    and takes the bytes after a local file header signature as the content
    of a single member. *)
Definition demo_zip_members (data : string) : option (list (string * string)) :=
  if String.eqb data empty_zip then Some []
  else
    match data with
    | String "P" (String "K" (String "003" (String "004" content))) =>
        Some [("12345_ACTIVITY.fit", content)]
    | _ => None
    end.

Definition demo_platform : Platform := {|
  zip_members := demo_zip_members;
  utf8_decode := fun data =>
    if all_chars (fun c => (nat_of_ascii c <? 128)%nat) data
    then Some data else None;
  json_doc := string;
  json_dumps := fun doc => Some doc;
  write_denied := fun _ => false
|}.

(** An archive of the stand-in format. *)
Definition demo_zip (content : string) : string :=
  String "P" (String "K" (String "003" (String "004" content))).

(** A client that answers the login with [auth] and the request for the
    activities with [listing].  The download of activity 102 times out;
    activity 103 comes as plain bytes, activity 104 as an empty archive, the
    others as an archive. *)
Definition demo_client (auth : result unit)
    (listing : result (list activity)) : @Client demo_platform := {|
  tokenstore_exists := true;
  tokens_cached := true;
  login := auth;
  login_tokenstore := auth;
  get_activities := fun _ _ => listing;
  client_download_activity := fun activity_id _ =>
    if activity_id =? 102
    then Raise (mkExn GarminConnectConnectionError "timed out")
    else if activity_id =? 103 then Ok "plain fit data"
    else if activity_id =? 104 then Ok empty_zip
    else Ok (demo_zip "fit data");
  get_activity_details := fun _ => Ok ("{}" : @json_doc demo_platform);
  get_activity := fun _ => Ok ("{}" : @json_doc demo_platform)
|}.

Definition demo_arguments (f : format) (everything : bool) : arguments :=
  mkArguments (Some "user@example.org") (Some "secret") 10 f true everything.

(** The world before a run: no output yet. *)
Definition start (d : directory) : world := mkWorld d [].

(** The line that tells how many activities the filter dropped. *)
Definition filtered_lines (last_date : option datetime)
    (activities : list activity) : list line :=
  match last_date with
  | Some _ =>
      let filtered_count :=
        (length activities - length (to_download last_date activities))%nat in
      if (0 <? filtered_count)%nat then [FilteredOut filtered_count] else []
  | None => []
  end.

(** The summary is printed when the loop got through. *)
Definition summary (todo : list activity) (new : list line) : list line :=
  match malformed todo with
  | None => [ExportComplete (succeeded new) (length todo)]
  | Some _ => []
  end.

(** How the [try] block ends once it has reached the loop. *)
Definition loop_status (todo : list activity) : result Z :=
  match malformed todo with
  | None => Ok 0
  | Some b => Raise (prelude_error b)
  end.

(** The world in which the loop starts. *)
Definition loop_start (args : arguments) (last_date : option datetime)
    (activities : list activity) (w : world) : world :=
  printed w
    ([Connecting; Authenticated; Fetching (count args);
      Found (length activities)]
     ++ filtered_lines last_date activities).

(** What a run printed: the output of [w'] after the output of [w]. *)
Definition output_of (w w' : world) : list line :=
  skipn (length (stdout w)) (stdout w').

(** ** The files of an activity *)

(** The date and the name [download_activity] files an activity under. *)
Definition date_of (a : activity) : string :=
  match default (Text "unknown time") (startTimeLocal a) with
  | Text s => get_date_string s
  | Null => "unknown_date"
  end.

Definition safe_name_of (a : activity) : string :=
  sanitize_filename (str (default (Text "Unnamed Activity") (activityName a))).

(** The file of an activity with a given suffix. *)
Definition artifact (a : activity) (suffix : string) : string :=
  file_name (date_of a) (safe_name_of a) (activityId a) suffix.

(** ** Clients of the examples *)

(** Three runs are listed; the download of the second one times out. *)
Definition three_runs : @Client demo_platform :=
  demo_client (Ok tt) (Ok [run_16; run_15; run_14]).

(** Nothing is listed. *)
Definition no_runs : @Client demo_platform := demo_client (Ok tt) (Ok []).

(** The login is refused. *)
Definition refused : @Client demo_platform :=
  demo_client (Raise (mkExn GarminConnectAuthenticationError "401 Unauthorized"))
    (Ok [run_14]).

(** The request for the activities fails. *)
Definition unreachable : @Client demo_platform :=
  demo_client (Ok tt)
    (Raise (mkExn GarminConnectConnectionError "Connection reset")).

(** A client whose only listed activity, 104, comes as an empty archive. *)
Definition one_empty_archive : @Client demo_platform :=
  demo_client (Ok tt) (Ok [untimed]).

(* ================================================================== *)
(** * load_env *)
(* ================================================================== *)

(** [c.isspace()], on the characters below 256: the characters [strip]
    removes. *)
Definition isspace (c : ascii) : bool := Strptime.space c.

(** [s.lstrip()] *)
Fixpoint lstrip (s : string) : string :=
  match s with
  | String c rest => if isspace c then lstrip rest else s
  | EmptyString => s
  end.

(** [s.rstrip()] *)
Fixpoint rstrip (s : string) : string :=
  match s with
  | String c rest =>
      match rstrip rest with
      | EmptyString => if isspace c then EmptyString else String c EmptyString
      | String _ _ as rest' => String c rest'
      end
  | EmptyString => s
  end.

(** [s.strip()] *)
Definition strip (s : string) : string := rstrip (lstrip s).

(** [s.split(sep, 1)[1]] when [sep] occurs in [s]: what follows the first
    [sep]. *)
Fixpoint after (sep : ascii) (s : string) : string :=
  match s with
  | EmptyString => EmptyString
  | String c s' => if Ascii.eqb c sep then s' else after sep s'
  end.

(** [s.startswith(c)] for a one-character [c]. *)
Definition startswith (c : ascii) (s : string) : bool :=
  match s with
  | String c' _ => Ascii.eqb c' c
  | EmptyString => false
  end.

Definition NUL : ascii := "000"%char.

(** [os.environ[key] = value], on POSIX, where names keep their case.  The
    conversion of the name and the value for [putenv] comes first and refuses
    a null character with a [ValueError]; then the C library refuses an empty
    name, which comes up as an [OSError] (a name with an equals sign cannot
    come up here). *)
Definition setenv (key value : string) (environ : gmap string string)
  : result unit * gmap string string :=
  if Str.mem NUL key || Str.mem NUL value then
    (Raise (mkExn ValueError "embedded null byte"), environ)
  else if negb (Str.truthy key) then
    (Raise (mkExn OSError "[Errno 22] Invalid argument"), environ)
  else (Ok tt, <[key := value]> environ).

(** The loop of [load_env] over the lines of the file, as the iteration
    over the open file yields them. *)
Fixpoint load_lines (lines : list string) (environ : gmap string string)
  : result unit * gmap string string :=
  match lines with
  | [] => (Ok tt, environ)
  | line :: lines' =>
      let line := strip line in
      if Str.truthy line && negb (startswith "#" line) && Str.mem "=" line
      then
        let key := Str.before "=" line in
        let value := after "=" line in
        match setenv (strip key) (strip value) environ with
        | (Ok _, environ') => load_lines lines' environ'
        | (Raise e, environ') => (Raise e, environ')
        end
      else load_lines lines' environ
  end.

(** [load_env()]: [env_file] holds the lines of the [.env] file, [None]
    when there is no such file. *)
Definition load_env (env_file : option (list string))
    (environ : gmap string string) : result unit * gmap string string :=
  match env_file with
  | Some lines => load_lines lines environ
  | None => (Ok tt, environ)
  end.

(** ** Vocabulary for load_env *)

(** The assignment a line of the file stands for, if any. *)
Definition assignment (line : string) : option (string * string) :=
  let line := strip line in
  if Str.truthy line && negb (startswith "#" line) && Str.mem "=" line
  then Some (strip (Str.before "=" line), strip (after "=" line))
  else None.

(** The value the last assignment to [key] among [lines] gives it. *)
Fixpoint assigned (key : string) (lines : list string) : option string :=
  match lines with
  | [] => None
  | line :: lines' =>
      match assigned key lines' with
      | Some value => Some value
      | None =>
          match assignment line with
          | Some (key', value) =>
              if String.eqb key' key then Some value else None
          | None => None
          end
      end
  end.

(** A name or value [setenv] accepts. *)
Definition settable (key value : string) : bool :=
  Str.truthy key && negb (Str.mem NUL key) && negb (Str.mem NUL value).

(** A string with no whitespace at either end. *)
Definition stripped (s : string) : Prop := lstrip s = s /\ rstrip s = s.

(** A line [load_env] gets through: no assignment, or one [setenv]
    accepts. *)
Definition loadable (line : string) : Prop :=
  match assignment line with
  | Some (key, value) => settable key value = true
  | None => True
  end.

(** A line [load_env] skips: blank, a comment, or without an equals sign. *)
Definition skipped (line : string) : Prop :=
  strip line = "" \/ startswith "#" (strip line) = true
  \/ Str.mem "=" line = false.

(** A character of the decimal notation of an integer. *)
Definition id_char (c : ascii) : bool :=
  match Strptime.digit c with
  | Some _ => true
  | None => Ascii.eqb c "-"
  end.

(** The first request of the downloader of a format fails with [e]. *)
Definition request_fails `{Client} (a : activity) (f : format) (e : exn)
  : Prop :=
  match f with
  | gpx => client_download_activity (activityId a) GPX = Raise e
  | tcx => client_download_activity (activityId a) TCX = Raise e
  | fit => client_download_activity (activityId a) ORIGINAL = Raise e
  | json => get_activity_details (activityId a) = Raise e
  end.

(** A client of the examples whose request for the full record of an
    activity fails, the request for its details succeeding. *)
Definition half_json : @Client demo_platform := {|
  tokenstore_exists := true;
  tokens_cached := true;
  login := Ok tt;
  login_tokenstore := Ok tt;
  get_activities := fun _ _ => Ok [run_14];
  client_download_activity := fun _ _ => Ok "<gpx></gpx>";
  get_activity_details := fun _ => Ok ("{}" : @json_doc demo_platform);
  get_activity := fun _ =>
    Raise (mkExn GarminConnectConnectionError "Connection reset")
|}.

(** The bytes of the examples that are not UTF-8. *)
Definition not_utf8 : string := String "255" (String "254" EmptyString).

(** A client of the examples whose downloads are not UTF-8. *)
Definition garbled : @Client demo_platform := {|
  tokenstore_exists := true;
  tokens_cached := true;
  login := Ok tt;
  login_tokenstore := Ok tt;
  get_activities := fun _ _ => Ok [run_14];
  client_download_activity := fun _ _ => Ok not_utf8;
  get_activity_details := fun _ => Ok ("{}" : @json_doc demo_platform);
  get_activity := fun _ => Ok ("{}" : @json_doc demo_platform)
|}.

(** The names a download of activity [a] in format [f] may write, rename
    or remove: the files of the activity and, for the fit format, the first
    member of the archive the client sends. *)
Definition may_touch `{Client} (a : activity) (f : format) : list string :=
  match f with
  | gpx => [artifact a ".gpx"]
  | tcx => [artifact a ".tcx"]
  | json => [artifact a ".json"; artifact a "_full.json"]
  | fit =>
      artifact a ".zip" :: artifact a ".fit" ::
      match client_download_activity (activityId a) ORIGINAL with
      | Ok data =>
          match zip_members data with
          | Some ((member, _) :: _) => [member]
          | _ => []
          end
      | Raise _ => []
      end
  end.

(** The files with a name outside [names] are in [w'] what they are in
    [w]. *)
Definition keeps_others (names : list string) (w w' : world) : Prop :=
  forall n, ~ In n names ->
            files_of (outdir w') !! n = files_of (outdir w) !! n.

(** A platform of the examples on which the member of the archives cannot be
    written, and a client for it. *)
Definition strict_platform : Platform := {|
  zip_members := demo_zip_members;
  utf8_decode := fun data => Some data;
  json_doc := string;
  json_dumps := fun doc => Some doc;
  write_denied := fun name => String.eqb name "12345_ACTIVITY.fit"
|}.

Definition strict_client : @Client strict_platform := {|
  tokenstore_exists := true;
  tokens_cached := true;
  login := Ok tt;
  login_tokenstore := Ok tt;
  get_activities := fun _ _ => Ok [run_14];
  client_download_activity := fun _ _ => Ok (demo_zip "fit data");
  get_activity_details := fun _ => Ok ("{}" : @json_doc strict_platform);
  get_activity := fun _ => Ok ("{}" : @json_doc strict_platform)
|}.

(** A computation that returns 0 whenever it returns. *)
Definition returns_zero (m : M Z) : Prop :=
  forall w, match m w with
            | (Ok status, _) => status = 0
            | (Raise _, _) => True
            end.

(** Clients of the examples: one without a token store, one that lists an
    old run only, one that lists a run with a start time that does not
    parse. *)
Definition no_store : @Client demo_platform := {|
  tokenstore_exists := false;
  tokens_cached := false;
  login := Ok tt;
  login_tokenstore := Ok tt;
  get_activities := fun _ _ => Ok [run_14];
  client_download_activity := fun _ _ => Ok (demo_zip "fit data");
  get_activity_details := fun _ => Ok ("{}" : @json_doc demo_platform);
  get_activity := fun _ => Ok ("{}" : @json_doc demo_platform)
|}.

Definition old_runs : @Client demo_platform :=
  demo_client (Ok tt) (Ok [run_14]).

Definition mistimed_runs : @Client demo_platform :=
  demo_client (Ok tt) (Ok [run_16; mistimed]).

(** ** A download in the course of a run *)

(** A computation that leaves the output directory in place. *)
Definition keeps_dir {A} (m : M A) : Prop :=
  forall w, outdir w <> NoDir -> outdir (snd (m w)) <> NoDir.

(** What a download of activity [a] in format [f] that returned [ok] has
    made of the directory [d], now [d']: when the first request fails,
    nothing; when the client answers and the files can be written, the file
    of the activity holds what the client has sent this time. *)
Definition fetched `{Client} (a : activity) (f : format) (ok : bool)
    (d d' : directory) : Prop :=
  (forall e, request_fails a f e -> ok = false /\ d' = d)
  /\ match f with
     | gpx =>
         forall data,
           client_download_activity (activityId a) GPX = Ok data ->
           write_denied (artifact a ".gpx") = false ->
           ok = true /\ files_of d' !! artifact a ".gpx" = Some data
     | tcx =>
         forall data text,
           client_download_activity (activityId a) TCX = Ok data ->
           utf8_decode data = Some text ->
           write_denied (artifact a ".tcx") = false ->
           ok = true /\ files_of d' !! artifact a ".tcx" = Some text
     | json =>
         forall details text,
           get_activity_details (activityId a) = Ok details ->
           json_dumps details = Some text ->
           write_denied (artifact a ".json") = false ->
           files_of d' !! artifact a ".json" = Some text
     | fit =>
         forall data,
           client_download_activity (activityId a) ORIGINAL = Ok data ->
           write_denied (artifact a ".zip") = false ->
           write_denied (artifact a ".fit") = false ->
           match zip_members data with
           | None =>
               ok = true /\ files_of d' !! artifact a ".fit" = Some data
           | Some [] => ok = true
           | Some ((member, content) :: _) =>
               write_denied member = false ->
               member <> artifact a ".zip" ->
               ok = true /\ files_of d' !! artifact a ".fit" = Some content
           end
     end.

(** The world in which a run that has activities to download starts its
    loop: the directory is there, the preamble and the lines of the fetch
    are printed. *)
Definition before_loop (args : arguments) (activities : list activity)
    (w : world) : world :=
  loop_start args (watermark args (outdir w)) activities
    (mkWorld (made (outdir w)) (stdout w ++ preamble args (outdir w))).

(** What is left of a run of [main] when the loop has come to the
    activities [todo], the [i]-th of [total], with [success_count] of them
    saved so far. *)
Definition rest_of_run `{Client} (args : arguments) (todo : list activity)
    (i total success_count : nat) : M Z :=
  try_except
    (let* success_count :=
       download_each todo (arg_format args) i total success_count in
     print (ExportComplete success_count total) >>
     ret 0)
    report.

(** An activity of the examples that starts on the day of the newest file
    of [two_fit_files], and a client that lists it. *)
Definition run_15_evening : activity :=
  entry 108 "Evening Run" "running" "2024-03-15 19:30:00".

Definition same_day : @Client demo_platform :=
  demo_client (Ok tt) (Ok [run_16; run_15_evening; run_14]).

(* ================================================================== *)
(** * sanitize_filename is idempotent and bounded *)
(* ================================================================== *)

Ltac each_ascii c :=
  destruct c as [[] [] [] [] [] [] [] []].

Lemma clean_char_allowed (c : ascii) : forbidden (clean_char c) = false.
Proof. each_ascii c; reflexivity. Qed.

Lemma clean_char_fixed (c : ascii) : forbidden c = false -> clean_char c = c.
Proof. each_ascii c; intros Hc; solve [reflexivity | discriminate Hc]. Qed.

(** The replacements act character by character. *)
Lemma replace_all_cons (l : list ascii) (c : ascii) (s : string) :
  fold_left (fun name char => Str.replace char "-" name) l (String c s) =
  String (fold_left (fun c char => if Ascii.eqb c char then "-"%char else c) l c)
         (fold_left (fun name char => Str.replace char "-" name) l s).
Proof.
  revert c s. induction l as [|x l IH]; intros c s; simpl; [reflexivity|].
  apply IH.
Qed.

Lemma replace_all_nil (l : list ascii) :
  fold_left (fun name char => Str.replace char "-" name) l "" = "".
Proof. induction l; simpl; auto. Qed.

Lemma clean_cons (c : ascii) (s : string) :
  clean (String c s) = String (clean_char c) (clean s).
Proof. unfold clean. rewrite replace_all_cons. reflexivity. Qed.

Lemma clean_allowed (s : string) :
  all_chars (fun c => negb (forbidden c)) (clean s) = true.
Proof.
  induction s as [|c s IH]; [reflexivity|].
  rewrite clean_cons. simpl. rewrite clean_char_allowed, IH. reflexivity.
Qed.

Lemma clean_fixed (s : string) :
  all_chars (fun c => negb (forbidden c)) s = true -> clean s = s.
Proof.
  induction s as [|c s IH]; [reflexivity|].
  simpl. intros [Hc Hs]%andb_true_iff. rewrite clean_cons, IH by exact Hs.
  rewrite clean_char_fixed; [reflexivity|]. now apply negb_true_iff.
Qed.

Lemma take_all_chars (p : ascii -> bool) (n : nat) (s : string) :
  all_chars p s = true -> all_chars p (Str.take n s) = true.
Proof.
  revert s. induction n as [|n IH]; intros [|c s]; simpl; auto.
  intros [Hc Hs]%andb_true_iff. rewrite Hc. simpl. auto.
Qed.

Lemma take_length (n : nat) (s : string) :
  (String.length (Str.take n s) <= n)%nat.
Proof.
  revert s. induction n as [|n IH]; intros [|c s]; simpl; try lia.
  specialize (IH s). lia.
Qed.

Lemma take_short (n : nat) (s : string) :
  (String.length s <= n)%nat -> Str.take n s = s.
Proof.
  revert s. induction n as [|n IH]; intros [|c s]; simpl; intros Hn;
    try reflexivity; try lia.
  f_equal. apply IH. lia.
Qed.

Lemma all_chars_mem (p : ascii -> bool) (s : string) (c : ascii) :
  all_chars p s = true -> p c = false -> Str.mem c s = false.
Proof.
  induction s as [|c' s IH]; simpl; [reflexivity|].
  intros [Hc Hs]%andb_true_iff Hp. rewrite IH by assumption.
  destruct (Ascii.eqb_spec c c') as [->|]; [congruence|reflexivity].
Qed.

Lemma sanitize_filename_unfold (name : string) :
  sanitize_filename name =
  if Str.truthy (clean name) then Str.take 50 (clean name) else "Unnamed".
Proof. reflexivity. Qed.

(** C5.  [sanitize_filename] is a total function on strings; sanitizing
    twice is the same as sanitizing once; the result is at most 50
    characters long and holds none of the invalid characters and no
    space. *)
Theorem sanitize_filename_idempotent_bounded (x : string) :
  sanitize_filename (sanitize_filename x) = sanitize_filename x
  /\ (String.length (sanitize_filename x) <= 50)%nat
  /\ (forall c : ascii,
        In c invalid_chars \/ c = " "%char ->
        Str.mem c (sanitize_filename x) = false).
Proof.
  assert (Hok : all_chars (fun c => negb (forbidden c)) (sanitize_filename x)
                = true).
  { rewrite sanitize_filename_unfold.
    destruct (Str.truthy (clean x)); [|reflexivity].
    apply take_all_chars, clean_allowed. }
  assert (Hlen : (String.length (sanitize_filename x) <= 50)%nat).
  { rewrite sanitize_filename_unfold.
    destruct (Str.truthy (clean x)); [apply take_length|simpl; lia]. }
  assert (Hne : Str.truthy (sanitize_filename x) = true).
  { rewrite sanitize_filename_unfold.
    destruct (clean x) as [|c s]; reflexivity. }
  split; [|split].
  - rewrite (sanitize_filename_unfold (sanitize_filename x)).
    rewrite (clean_fixed _ Hok), Hne. apply take_short, Hlen.
  - exact Hlen.
  - intros c Hc. apply (all_chars_mem _ _ _ Hok).
    apply negb_false_iff. unfold forbidden.
    destruct Hc as [Hc| ->].
    + apply orb_true_iff. left. apply existsb_exists. exists c.
      split; [exact Hc|apply Ascii.eqb_refl].
    + reflexivity.
Qed.

(* ================================================================== *)
(** * The file name codec *)
(* ================================================================== *)

Module StrptimeFacts.
Import Strptime.

Lemma mem_cons (c c' : ascii) (s : string) :
  Str.mem c (String c' s) = Ascii.eqb c c' || Str.mem c s.
Proof. reflexivity. Qed.

Lemma digit_not_underscore (c : ascii) (a : Z) :
  digit c = Some a -> Ascii.eqb "_" c = false.
Proof. each_ascii c; intros Hc; solve [reflexivity | discriminate Hc]. Qed.

Lemma keeps_two p : keeps "_" (two p).
Proof.
  intros [|ca [|cb s]] v rest; cbn [two]; try discriminate.
  destruct (digit ca) as [a|] eqn:Ha; [|discriminate].
  destruct (digit cb) as [b|] eqn:Hb; [|discriminate].
  destruct (p a b); [|discriminate]. intros [= _ <-].
  rewrite !mem_cons.
  now rewrite (digit_not_underscore _ _ Ha), (digit_not_underscore _ _ Hb).
Qed.

Lemma keeps_one p : keeps "_" (one p).
Proof.
  intros [|ca s] v rest; cbn [one]; try discriminate.
  destruct (digit ca) as [a|] eqn:Ha; [|discriminate].
  destruct (p a); [|discriminate]. intros [= _ <-].
  rewrite mem_cons.
  now rewrite (digit_not_underscore _ _ Ha).
Qed.

Lemma keeps_padded p : keeps "_" (padded p).
Proof.
  intros [|c s] v rest; [discriminate|].
  unfold padded. intros Hm.
  assert (Hc : c = " "%char) by (each_ascii c; solve [reflexivity | discriminate Hm]).
  subst c. rewrite mem_cons. exact (keeps_one p _ _ _ Hm).
Qed.

Lemma keeps_alt {A} c (x y : matcher A) :
  keeps c x -> keeps c y -> keeps c (alt x y).
Proof.
  intros Hx Hy s v rest. unfold alt.
  destruct (x s) as [[v' rest']|] eqn:Hxs.
  - intros [= <- <-]. eauto.
  - eauto.
Qed.

Lemma keeps_lit (c c' : ascii) : c <> c' -> keeps c (lit c').
Proof.
  intros Hne [|c0 s] v rest; cbn [lit]; [discriminate|].
  destruct (Ascii.eqb_spec c0 c') as [->|]; [|discriminate].
  intros [= _ <-]. rewrite mem_cons.
  destruct (Ascii.eqb_spec c c'); [contradiction|reflexivity].
Qed.

Lemma keeps_re_Y : keeps "_" re_Y.
Proof.
  intros [|c1 [|c2 [|c3 [|c4 s]]]] v rest; cbn [re_Y]; try discriminate.
  destruct (digit c1) eqn:H1; [|discriminate].
  destruct (digit c2) eqn:H2; [|discriminate].
  destruct (digit c3) eqn:H3; [|discriminate].
  destruct (digit c4) eqn:H4; [|discriminate].
  intros [= _ <-]. rewrite !mem_cons.
  now rewrite (digit_not_underscore _ _ H1), (digit_not_underscore _ _ H2),
    (digit_not_underscore _ _ H3), (digit_not_underscore _ _ H4).
Qed.

Lemma keeps_re_m : keeps "_" re_m.
Proof. repeat apply keeps_alt; first [apply keeps_two | apply keeps_one]. Qed.

Lemma keeps_re_d : keeps "_" re_d.
Proof.
  repeat apply keeps_alt;
    first [apply keeps_two | apply keeps_one | apply keeps_padded].
Qed.

Lemma keeps_match_date : keeps "_" match_date.
Proof.
  intros s v rest. unfold match_date, bind.
  destruct (re_Y s) as [[y s1]|] eqn:HY; [|discriminate].
  destruct (lit "-" s1) as [[[] s2]|] eqn:H1; [|discriminate].
  destruct (re_m s2) as [[m s3]|] eqn:Hm; [|discriminate].
  destruct (lit "-" s3) as [[[] s4]|] eqn:H2; [|discriminate].
  destruct (re_d s4) as [[d s5]|] eqn:Hd; [|discriminate].
  intros [= _ <-].
  rewrite (keeps_re_Y _ _ _ HY).
  rewrite (keeps_lit "_" "-" ltac:(discriminate) _ _ _ H1).
  rewrite (keeps_re_m _ _ _ Hm).
  rewrite (keeps_lit "_" "-" ltac:(discriminate) _ _ _ H2).
  exact (keeps_re_d _ _ _ Hd).
Qed.

(** A string that parses as a date holds no underscore. *)
Lemma date_no_underscore (s : string) (t : datetime) :
  date s = Some t -> Str.mem "_" s = false.
Proof.
  unfold date.
  destruct (match_date s) as [[[[y m] d] [|c rest]]|] eqn:Hm; try discriminate.
  intros _. exact (keeps_match_date _ _ _ Hm).
Qed.

(** The date part of a parsed date is at midnight, and in range. *)
Lemma date_midnight (s : string) (t : datetime) :
  date s = Some t -> hour t = 0 /\ minute t = 0 /\ second t = 0.
Proof.
  unfold date.
  destruct (match_date s) as [[[[y m] d] [|c rest]]|]; try discriminate.
  destruct (valid_date y m d); [|discriminate].
  intros [= <-]. auto.
Qed.

Lemma date_time_valid (s : string) (t : datetime) :
  date_time s = Some t ->
  valid_date (year t) (month t) (day t) = true
  /\ valid_time (hour t) (minute t) (second t) = true.
Proof.
  unfold date_time.
  destruct (bind (match_date s) _) as [[[[[y m] d] [[h mi] sec]] [|c rest]]|];
    try discriminate.
  destruct (valid_date y m d) eqn:Hd; [|discriminate].
  destruct (valid_time h mi sec) eqn:Ht; [|discriminate].
  intros [= <-]. auto.
Qed.

End StrptimeFacts.

Lemma append_nil (s : string) : "" +:+ s = s.
Proof. reflexivity. Qed.

Lemma append_cons (c : ascii) (s t : string) :
  String c s +:+ t = String c (s +:+ t).
Proof. reflexivity. Qed.

Lemma before_app (sep : ascii) (d rest : string) :
  Str.mem sep d = false -> Str.before sep (d +:+ String sep rest) = d.
Proof.
  induction d as [|c d IH].
  - intros _. rewrite append_nil. cbn [Str.before].
    now rewrite Ascii.eqb_refl.
  - rewrite append_cons. cbn [Str.mem Str.before].
    intros [Hc Hd]%orb_false_iff. rewrite Ascii.eqb_sym in Hc.
    rewrite Hc, IH by exact Hd. reflexivity.
Qed.

Lemma file_name_shape (d n : string) (i : Z) (suffix : string) :
  exists rest, file_name d n i suffix = d +:+ String "_" rest.
Proof.
  unfold file_name, name_part.
  destruct (Str.truthy n); eexists; reflexivity.
Qed.

Lemma before_file_name (d n : string) (i : Z) (suffix : string) :
  Str.mem "_" d = false -> Str.before "_" (file_name d n i suffix) = d.
Proof.
  intros Hd. destruct (file_name_shape d n i suffix) as [rest ->].
  now apply before_app.
Qed.

(** ** Parsing what [strftime] prints *)

Lemma digit_digit_char (k : Z) :
  0 <= k <= 9 -> Strptime.digit (digit_char k) = Some k.
Proof.
  intros Hk.
  assert (Hcases : k = 0 \/ k = 1 \/ k = 2 \/ k = 3 \/ k = 4 \/ k = 5
                   \/ k = 6 \/ k = 7 \/ k = 8 \/ k = 9) by lia.
  repeat (destruct Hcases as [->|Hcases]; [reflexivity|]).
  subst k. reflexivity.
Qed.

Lemma re_Y_pad4 (y : Z) (rest : string) :
  0 <= y <= 9999 -> Strptime.re_Y (pad4 y +:+ rest) = Some (y, rest).
Proof.
  intros Hy. unfold pad4, pad2. rewrite !append_cons, append_nil.
  cbn [Strptime.re_Y].
  rewrite !digit_digit_char by (Z.div_mod_to_equations; lia).
  do 2 f_equal. Z.div_mod_to_equations. lia.
Qed.

Lemma re_m_pad2 (m : Z) (rest : string) :
  1 <= m <= 12 -> Strptime.re_m (pad2 m +:+ rest) = Some (m, rest).
Proof.
  intros Hm.
  assert (Hcases : m = 1 \/ m = 2 \/ m = 3 \/ m = 4 \/ m = 5 \/ m = 6
                   \/ m = 7 \/ m = 8 \/ m = 9 \/ m = 10 \/ m = 11 \/ m = 12)
    by lia.
  repeat (destruct Hcases as [->|Hcases]; [reflexivity|]).
  subst m. reflexivity.
Qed.

Lemma re_d_pad2 (d : Z) (rest : string) :
  1 <= d <= 31 -> Strptime.re_d (pad2 d +:+ rest) = Some (d, rest).
Proof.
  intros Hd.
  assert (Hcases : exists k : nat, (k < 31)%nat /\ d = 1 + Z.of_nat k).
  { exists (Z.to_nat (d - 1)). lia. }
  destruct Hcases as (k & Hk & ->).
  do 31 (destruct k as [|k]; [reflexivity|]).
  lia.
Qed.

Lemma days_in_month_le (y m : Z) : days_in_month y m <= 31.
Proof.
  unfold days_in_month.
  repeat match goal with |- context [if ?b then _ else _] => destruct b end;
    lia.
Qed.

Lemma valid_date_bounds (y m d : Z) :
  valid_date y m d = true ->
  1 <= y <= 9999 /\ 1 <= m <= 12 /\ 1 <= d <= days_in_month y m.
Proof. unfold valid_date. lia. Qed.

(** ** The year as [strftime] prints it *)

Lemma pretty_N_char_digit_char (d : N) :
  (d < 10)%N -> pretty_N_char d = digit_char (Z.of_N d).
Proof.
  intros Hd.
  assert (Hcases : exists k : nat, (k < 10)%nat /\ d = N.of_nat k).
  { exists (N.to_nat d). lia. }
  destruct Hcases as (k & Hk & ->).
  do 10 (destruct k as [|k]; [reflexivity|]). lia.
Qed.

(** From the year 1000 on the decimal notation of the year has the four
    digits [%Y] reads. *)
Lemma pretty_four_digits (y : Z) :
  1000 <= y <= 9999 -> pretty y = pad4 y.
Proof.
  intros Hy. destruct y as [|p|p]; try lia.
  change (pretty (Z.pos p)) with (pretty (N.pos p)).
  unfold pretty, pretty_N. rewrite decide_False by discriminate.
  set (n := N.pos p). assert (Hn : (1000 <= n <= 9999)%N) by (subst n; lia).
  assert (Hz : Z.pos p = Z.of_N n) by reflexivity. rewrite Hz.
  clearbody n. clear Hz Hy p.
  assert (H1 : (0 < n / 10)%N) by (apply N.div_str_pos; lia).
  assert (H2 : (0 < n / 10 / 10)%N).
  { rewrite N.Div0.div_div. apply N.div_str_pos. lia. }
  assert (H3 : (0 < n / 10 / 10 / 10)%N).
  { rewrite !N.Div0.div_div. apply N.div_str_pos. lia. }
  assert (H4 : (n / 10 / 10 / 10 / 10 = 0)%N).
  { rewrite !N.Div0.div_div. apply N.div_small. lia. }
  rewrite pretty_N_go_step by lia.
  rewrite pretty_N_go_step by exact H1.
  rewrite pretty_N_go_step by exact H2.
  rewrite pretty_N_go_step by exact H3.
  rewrite H4, pretty_N_go_0.
  rewrite !pretty_N_char_digit_char by (apply N.mod_lt; lia).
  unfold pad4, pad2.
  rewrite !N2Z.inj_mod, !N2Z.inj_div.
  change (Z.of_N 10) with 10.
  assert (Hz : 1000 <= Z.of_N n <= 9999) by lia.
  generalize dependent (Z.of_N n). intros z Hz.
  replace (z / 10 / 10 / 10 mod 10) with (z / 1000)
    by (Z.div_mod_to_equations; lia).
  replace (z / 10 / 10 mod 10) with (z / 100 mod 10)
    by (Z.div_mod_to_equations; lia).
  replace (z / 10 mod 10) with (z mod 100 / 10)
    by (Z.div_mod_to_equations; lia).
  replace (z mod 10) with (z mod 100 mod 10)
    by (Z.div_mod_to_equations; lia).
  reflexivity.
Qed.

(** Before the year 1000 it has at most three, and the hyphen that follows
    is where [%Y] wants a digit. *)
Lemma re_Y_short_year (y : Z) (rest : string) :
  1 <= y <= 999 -> Strptime.re_Y (pretty y +:+ String "-" rest) = None.
Proof.
  intros Hy. destruct y as [|p|p]; try lia.
  change (pretty (Z.pos p)) with (pretty (N.pos p)).
  unfold pretty, pretty_N. rewrite decide_False by discriminate.
  set (n := N.pos p). assert (Hn : (1 <= n <= 999)%N) by (subst n; lia).
  clearbody n. clear Hy p.
  rewrite pretty_N_go_step by lia.
  destruct (N.eq_dec (n / 10) 0)%N as [E1|E1].
  { rewrite E1, pretty_N_go_0, append_cons, append_nil.
    cbn [Strptime.re_Y].
    destruct rest as [|c2 [|c3 rest]]; try reflexivity.
    destruct (Strptime.digit (pretty_N_char (n mod 10)%N)); reflexivity. }
  rewrite pretty_N_go_step by (apply N.neq_0_lt_0; exact E1).
  destruct (N.eq_dec (n / 10 / 10) 0)%N as [E2|E2].
  { rewrite E2, pretty_N_go_0, !append_cons, append_nil.
    cbn [Strptime.re_Y].
    destruct rest as [|c3 rest]; try reflexivity.
    destruct (Strptime.digit (pretty_N_char ((n / 10) mod 10)%N));
      [|reflexivity].
    destruct (Strptime.digit (pretty_N_char (n mod 10)%N)); reflexivity. }
  rewrite pretty_N_go_step by (apply N.neq_0_lt_0; exact E2).
  assert (E3 : (n / 10 / 10 / 10 = 0)%N).
  { rewrite !N.Div0.div_div. apply N.div_small. lia. }
  rewrite E3, pretty_N_go_0, !append_cons, append_nil.
  cbn [Strptime.re_Y].
  destruct (Strptime.digit (pretty_N_char ((n / 10 / 10) mod 10)%N));
    [|reflexivity].
  destruct (Strptime.digit (pretty_N_char ((n / 10) mod 10)%N));
    [|reflexivity].
  destruct (Strptime.digit (pretty_N_char (n mod 10)%N)); reflexivity.
Qed.

Lemma match_date_strftime (t : datetime) :
  valid_date (year t) (month t) (day t) = true ->
  1000 <= year t ->
  Strptime.match_date (strftime_date t) = Some ((year t, month t, day t), "").
Proof.
  intros (Hy & Hm & Hd)%valid_date_bounds Hfour.
  pose proof (days_in_month_le (year t) (month t)).
  unfold strftime_date, Strptime.match_date.
  rewrite pretty_four_digits by lia.
  rewrite re_Y_pad4 by lia. cbn [Strptime.bind Strptime.lit].
  rewrite append_cons, append_nil. cbn [Strptime.bind Strptime.lit].
  rewrite Ascii.eqb_refl. cbn [Strptime.bind].
  rewrite re_m_pad2 by lia. cbn [Strptime.bind].
  rewrite append_cons, append_nil. cbn [Strptime.bind Strptime.lit].
  rewrite Ascii.eqb_refl. cbn [Strptime.bind].
  replace (pad2 (day t)) with (pad2 (day t) +:+ "") by reflexivity.
  rewrite re_d_pad2 by lia. reflexivity.
Qed.

(** The date [strftime] prints parses back to the day it was printed from
    when the year has four digits. *)
Lemma date_strftime (t : datetime) :
  valid_date (year t) (month t) (day t) = true ->
  1000 <= year t ->
  Strptime.date (strftime_date t) =
  Some (mkDatetime (year t) (month t) (day t) 0 0 0).
Proof.
  intros Hv Hfour. unfold Strptime.date.
  rewrite (match_date_strftime t Hv Hfour), Hv. reflexivity.
Qed.

(** With fewer digits it does not parse at all. *)
Lemma date_strftime_short_year (t : datetime) :
  valid_date (year t) (month t) (day t) = true ->
  year t < 1000 ->
  Strptime.date (strftime_date t) = None.
Proof.
  intros (Hy & _)%valid_date_bounds Hshort.
  unfold Strptime.date, Strptime.match_date, strftime_date.
  rewrite append_cons, append_nil.
  rewrite re_Y_short_year by lia. reflexivity.
Qed.

(** C6.  Round trip of the file name codec: for every date string [d] that
    [strptime] accepts as [%Y-%m-%d], every name [n], identifier [i] and
    extension [e], the date decoded from the file name [{d}_{n}_{i}.{e}] (or
    [{d}_{i}.{e}] when [n] is empty) is the date [d] denotes.  A date-shaped
    token in the name cannot interfere, since the name comes after the first
    underscore. *)
Theorem decode_date_file_name (d n : string) (i : Z) (e : string)
    (t : datetime) :
  Strptime.date d = Some t ->
  decode_date (file_name d n i ("." +:+ e)) = Some t.
Proof.
  intros Hd. unfold decode_date.
  rewrite before_file_name; [exact Hd|].
  exact (StrptimeFacts.date_no_underscore d t Hd).
Qed.

Lemma decode_date_file_name_witness :
  Strptime.date "2024-03-15" = Some (mkDatetime 2024 3 15 0 0 0)
  /\ decode_date (file_name "2024-03-15" "Morning_Run" 12345 ("." +:+ "fit"))
     = Some (mkDatetime 2024 3 15 0 0 0).
Proof.
  split; [reflexivity|].
  apply (decode_date_file_name "2024-03-15" "Morning_Run" 12345 "fit").
  reflexivity.
Defined.

(** The files the downloaders write for an activity with a parseable start
    time decode to the day of that start time when its year has four
    digits. *)
Lemma decode_date_get_date_string (start n : string) (i : Z) (suffix : string)
    (t : datetime) :
  Strptime.date_time start = Some t ->
  1000 <= year t ->
  decode_date (file_name (get_date_string start) n i suffix) =
  Some (mkDatetime (year t) (month t) (day t) 0 0 0).
Proof.
  intros Ht Hfour. unfold get_date_string, decode_date. rewrite Ht.
  destruct (StrptimeFacts.date_time_valid _ _ Ht) as [Hv _].
  pose proof (date_strftime t Hv Hfour) as Hd.
  rewrite before_file_name; [exact Hd|].
  exact (StrptimeFacts.date_no_underscore _ _ Hd).
Qed.

(* ================================================================== *)
(** * The order on datetimes and the watermark *)
(* ================================================================== *)

Lemma lex_compare_antisym (a b : list Z) :
  lex_compare b a = CompOpp (lex_compare a b).
Proof.
  revert b. induction a as [|x a IH]; intros [|y b]; simpl; try reflexivity.
  rewrite (Z.compare_antisym x y).
  destruct (x ?= y); simpl; auto.
Qed.

Lemma lex_compare_eq (a b : list Z) : lex_compare a b = Eq -> a = b.
Proof.
  revert b. induction a as [|x a IH]; intros [|y b]; simpl;
    try discriminate; [reflexivity|].
  destruct (x ?= y) eqn:Hxy; try discriminate.
  apply Z.compare_eq in Hxy. intros Hab. f_equal; auto.
Qed.

Lemma lex_compare_gt_trans (a b c : list Z) :
  lex_compare a b = Gt -> lex_compare b c <> Lt -> lex_compare a c = Gt.
Proof.
  revert b c. induction a as [|x a IH]; intros [|y b] [|z c]; simpl;
    try discriminate; try congruence.
  destruct (x ?= y) eqn:Hxy; destruct (y ?= z) eqn:Hyz;
    try discriminate; try congruence;
    rewrite ?Z.compare_eq_iff, ?Z.compare_lt_iff, ?Z.compare_gt_iff in *.
  - subst. rewrite Z.compare_refl. eauto.
  - subst. intros. now apply Z.compare_gt_iff in Hyz as ->.
  - subst. intros. now apply Z.compare_gt_iff in Hxy as ->.
  - intros. assert (Hxz : x > z) by lia. now rewrite Hxz.
Qed.

Lemma datetime_gtb_trans (a b c : datetime) :
  datetime_gtb a b = true -> datetime_gtb c b = false ->
  datetime_gtb a c = true.
Proof.
  unfold datetime_gtb, datetime_compare. intros Hab Hcb.
  rewrite (lex_compare_gt_trans (fields a) (fields b) (fields c)); auto.
  - destruct (lex_compare (fields a) (fields b)); congruence.
  - rewrite (lex_compare_antisym (fields c) (fields b)).
    destruct (lex_compare (fields c) (fields b)); simpl; congruence.
Qed.

Lemma datetime_gtb_irrefl (a : datetime) : datetime_gtb a a = false.
Proof.
  unfold datetime_gtb, datetime_compare.
  pose proof (lex_compare_antisym (fields a) (fields a)) as H.
  destruct (lex_compare (fields a) (fields a)); simpl in H; congruence.
Qed.

Lemma datetime_gtb_asym (a b : datetime) :
  datetime_gtb a b = true -> datetime_gtb b a = false.
Proof.
  unfold datetime_gtb, datetime_compare.
  rewrite (lex_compare_antisym (fields a) (fields b)).
  destruct (lex_compare (fields a) (fields b)); simpl; congruence.
Qed.

(** [max] returns an item of the list that no item exceeds. *)
Lemma max_datetime_spec (rest : list datetime) (first : datetime) :
  In (max_datetime first rest) (first :: rest)
  /\ forall t, In t (first :: rest) ->
               datetime_gtb t (max_datetime first rest) = false.
Proof.
  revert first. induction rest as [|t rest IH]; intros first.
  - split; [now left|]. intros t [<-|[]]. apply datetime_gtb_irrefl.
  - unfold max_datetime. cbn [fold_left].
    destruct (IH (if datetime_gtb t first then t else first)) as [Hin Hmax].
    fold (max_datetime (if datetime_gtb t first then t else first) rest) in *.
    set (m := max_datetime _ rest) in *.
    split.
    + destruct Hin as [Hin|Hin]; [|right; right; exact Hin].
      rewrite <- Hin. destruct (datetime_gtb t first); [right|]; now left.
    + assert (Hbest : datetime_gtb (if datetime_gtb t first then t else first) m
                      = false) by (apply Hmax; now left).
      assert (Hfirst : datetime_gtb first m = false).
      { destruct (datetime_gtb t first) eqn:Htf; [|exact Hbest].
        destruct (datetime_gtb first m) eqn:Hfm; [|reflexivity].
        rewrite (datetime_gtb_trans t first m Htf) in Hbest; [discriminate|].
        now apply datetime_gtb_asym. }
      assert (Ht : datetime_gtb t m = false).
      { destruct (datetime_gtb t first) eqn:Htf; [exact Hbest|].
        destruct (datetime_gtb t m) eqn:Htm; [|reflexivity].
        rewrite (datetime_gtb_trans t m first Htm Hbest) in Htf.
        discriminate. }
      intros x [<-|[<-|Hx]]; auto. apply Hmax. now right.
Qed.

Lemma in_decoded_dates (files : list string) (t : datetime) :
  In t (decoded_dates files) <->
  exists name, In name files /\ decode_date name = Some t.
Proof.
  induction files as [|file files IH]; simpl.
  - split; [intros []|intros (? & [] & _)].
  - destruct (decode_date file) as [t0|] eqn:Hfile; simpl; rewrite ?IH.
    + split.
      * intros [<-|(name & Hin & Hname)]; eauto.
      * intros (name & [<-|Hin] & Hname); [left; congruence|right; eauto].
    + split.
      * intros (name & Hin & Hname); eauto.
      * intros (name & [<-|Hin] & Hname); [congruence|eauto].
Qed.

Lemma in_glob (files : gmap string string) (ext name : string) :
  In name (List.filter (fun name => Str.endswith name ext)
             (map fst (map_to_list files))) <->
  is_Some (files !! name) /\ Str.endswith name ext = true.
Proof.
  rewrite filter_In, in_map_iff. split.
  - intros [((name' & data) & <- & Hin%list_elem_of_In) Hend]. split; [|exact Hend].
    apply elem_of_map_to_list in Hin. simpl. eauto.
  - intros [[data Hdata] Hend]. split; [|exact Hend].
    exists (name, data). split; [reflexivity|].
    apply list_elem_of_In. now apply elem_of_map_to_list.
Qed.

Lemma carries_decoded (l : bool) (files : gmap string string) (ext : string)
    (t : datetime) :
  carries (Dir l files) ext t <->
  In t (decoded_dates (List.filter (fun name => Str.endswith name ext)
                         (map fst (map_to_list files)))).
Proof.
  rewrite in_decoded_dates. unfold carries. simpl.
  split; intros (name & H1 & H2).
  - destruct H2. exists name. rewrite in_glob. auto.
  - apply in_glob in H1 as []. eauto.
Qed.

(** The watermark of a directory that can be listed. *)
Lemma get_last_activity_date_listable (files : gmap string string)
    (ext : string) :
  match get_last_activity_date (Dir true files) ext with
  | Some t =>
      carries (Dir true files) ext t
      /\ forall t', carries (Dir true files) ext t' -> datetime_gtb t' t = false
  | None => forall t', ~ carries (Dir true files) ext t'
  end.
Proof.
  unfold get_last_activity_date. cbn [glob].
  set (names := List.filter _ _).
  assert (Hc : forall t, carries (Dir true files) ext t
                         <-> In t (decoded_dates names))
    by (intros t; apply carries_decoded).
  destruct names as [|name names'] eqn:Hnames.
  - intros t' Ht'. apply Hc in Ht'. exact Ht'.
  - rewrite <- Hnames in *. clear Hnames.
    destruct (decoded_dates names) as [|first rest] eqn:Hdates.
    + intros t' Ht'. apply Hc in Ht'. exact Ht'.
    + destruct (max_datetime_spec rest first) as [Hin Hmax].
      split; [now apply Hc|].
      intros t' Ht'. apply Hmax. now apply Hc.
Qed.

(** A watermark is the date of some file, at midnight. *)
Lemma get_last_activity_date_midnight (output_dir : directory) (ext : string)
    (t : datetime) :
  get_last_activity_date output_dir ext = Some t ->
  hour t = 0 /\ minute t = 0 /\ second t = 0.
Proof.
  destruct output_dir as [|[] files]; try discriminate.
  intros Ht. pose proof (get_last_activity_date_listable files ext) as H.
  rewrite Ht in H. destruct H as [(name & _ & _ & Hname) _].
  exact (StrptimeFacts.date_midnight _ _ Hname).
Qed.

(** C3.  On a directory that can be listed, [get_last_activity_date] returns
    the greatest of the dates decoded from the names of the files with the
    given extension, and [None] when no such name decodes to a date (an empty
    directory included); on a missing or unreadable directory it returns
    [None].  It is a total function: no case raises.  With the files
    [2024-01-01_x_1.fit] and [2024-03-15_y_2.fit] the result is
    2024-03-15. *)
Theorem get_last_activity_date_max (output_dir : directory) (ext : string) :
  match output_dir with
  | Dir true _ =>
      match get_last_activity_date output_dir ext with
      | Some t =>
          carries output_dir ext t
          /\ forall t', carries output_dir ext t' -> datetime_gtb t' t = false
      | None => forall t', ~ carries output_dir ext t'
      end
  | _ => get_last_activity_date output_dir ext = None
  end
  /\ get_last_activity_date (Dir true ∅) ext = None
  /\ get_last_activity_date two_fit_files ".fit"
     = Some (mkDatetime 2024 3 15 0 0 0).
Proof.
  split; [|split; [reflexivity|vm_compute; reflexivity]].
  destruct output_dir as [|[] files]; try reflexivity.
  apply get_last_activity_date_listable.
Qed.

(* ================================================================== *)
(** * The incremental filter *)
(* ================================================================== *)

Lemma start_of_well_timed (a : activity) :
  well_timed a -> exists t, start_of a = Some t.
Proof.
  unfold well_timed, start_of.
  destruct (startTimeLocal a) as [[|s]|]; simpl.
  - intros [].
  - intros [t Ht]. eauto.
  - intros _. eexists. reflexivity.
Qed.

Lemma started_after_start_of (last_date : datetime) (a : activity) :
  started_after last_date a =
  match start_of a with
  | Some t => datetime_gtb t last_date
  | None => false
  end.
Proof.
  unfold started_after, start_of.
  destruct (startTimeLocal a) as [[|s]|]; reflexivity.
Qed.

Lemma filter_since_cons (last_date : datetime) (a : activity)
    (activities : list activity) :
  filter_since last_date (a :: activities) =
  match start_of a with
  | Some start =>
      match filter_since last_date activities with
      | Ok kept => Ok (if datetime_gtb start last_date then a :: kept else kept)
      | Raise e => Raise e
      end
  | None =>
      Raise (match default (Text "1970-01-01 00:00:00") (startTimeLocal a) with
             | Null =>
                 mkExn TypeError "strptime() argument 1 must be str, not None"
             | Text _ => mkExn ValueError "time data does not match format"
             end)
  end.
Proof.
  cbn [filter_since]. unfold start_of.
  destruct (default (Text "1970-01-01 00:00:00") (startTimeLocal a)) as [|s];
    [reflexivity|].
  destruct (Strptime.date_time s); reflexivity.
Qed.

(** When every start time is missing or parses, the comprehension is a plain
    [filter]. *)
Lemma filter_since_filter (last_date : datetime) (activities : list activity) :
  Forall well_timed activities ->
  filter_since last_date activities
  = Ok (List.filter (started_after last_date) activities).
Proof.
  induction 1 as [|a activities Ha _ IH]; [reflexivity|].
  rewrite filter_since_cons. cbn [List.filter].
  rewrite started_after_start_of.
  destruct (start_of_well_timed a Ha) as [t ->].
  rewrite IH. reflexivity.
Qed.

(** A start time that is there and does not parse makes the comprehension
    raise [ValueError], or [TypeError] when it is [null]. *)
Lemma filter_since_raises (last_date : datetime) (activities : list activity) :
  Exists (fun a => start_of a = None) activities ->
  exists e, filter_since last_date activities = Raise e
            /\ (exn_kind e = ValueError \/ exn_kind e = TypeError).
Proof.
  assert (Hkind : forall v,
    let e := match v with
             | Null =>
                 mkExn TypeError "strptime() argument 1 must be str, not None"
             | Text _ => mkExn ValueError "time data does not match format"
             end in
    exn_kind e = ValueError \/ exn_kind e = TypeError).
  { intros [|s]; [right|left]; reflexivity. }
  induction 1 as [a activities Ha|a activities _ IH];
    rewrite filter_since_cons.
  - rewrite Ha. eexists. split; [reflexivity|apply Hkind].
  - destruct (start_of a); [|eexists; split; [reflexivity|apply Hkind]].
    destruct IH as (e & -> & He). eauto.
Qed.

(** C2, as the code has it.  When a watermark was resolved and every
    activity's [startTimeLocal] is missing or parses as
    [YYYY-MM-DD HH:MM:SS], the filter keeps exactly the activities, in
    order, whose start time is strictly later than the watermark, the start
    time of an activity without [startTimeLocal] being 1970-01-01 00:00:00;
    such an activity is filtered out whenever the watermark is not earlier
    than that. *)
Theorem filter_since_keeps_later (last_date : datetime)
    (activities : list activity) :
  Forall well_timed activities ->
  filter_since last_date activities
  = Ok (List.filter (started_after last_date) activities)
  /\ (datetime_gtb epoch last_date = false ->
      forall a, In a activities -> startTimeLocal a = None ->
                ~ In a (List.filter (started_after last_date) activities)).
Proof.
  intros Hall. split; [now apply filter_since_filter|].
  intros Hepoch a _ Ha [_ Hafter]%filter_In.
  unfold started_after in Hafter. rewrite Ha in Hafter. congruence.
Qed.

Lemma filter_since_keeps_later_witness :
  Forall well_timed [run_14; run_16; untimed]
  /\ filter_since (mkDatetime 2024 3 15 0 0 0) [run_14; run_16; untimed]
     = Ok [run_16].
Proof.
  assert (H : Forall well_timed [run_14; run_16; untimed]).
  { repeat constructor; simpl; eexists; reflexivity. }
  split; [exact H|].
  exact (proj1 (filter_since_keeps_later (mkDatetime 2024 3 15 0 0 0)
                  [run_14; run_16; untimed] H)).
Defined.

(** C2 as stated fails in two ways.  A [startTimeLocal] that is there but
    does not parse is not mapped to the epoch: the filter raises
    [ValueError].  And an activity without [startTimeLocal] passes the filter
    when the watermark, here the one resolved from [old_export], is earlier
    than the epoch. *)
Lemma filter_since_counterexample :
  filter_since (mkDatetime 2024 3 15 0 0 0) [run_16; mistimed]
  = Raise (mkExn ValueError "time data does not match format")
  /\ get_last_activity_date old_export ".fit"
     = Some (mkDatetime 1969 6 1 0 0 0)
  /\ filter_since (mkDatetime 1969 6 1 0 0 0) [untimed] = Ok [untimed].
Proof. split; [|split]; vm_compute; reflexivity. Qed.

(** A start time on the day of the watermark and after midnight is later than
    the watermark. *)
Lemma same_day_later (t last_date : datetime) :
  year t = year last_date -> month t = month last_date ->
  day t = day last_date ->
  hour last_date = 0 -> minute last_date = 0 -> second last_date = 0 ->
  valid_time (hour t) (minute t) (second t) = true ->
  (hour t, minute t, second t) <> (0, 0, 0) ->
  datetime_gtb t last_date = true.
Proof.
  intros Hy Hm Hd Hh Hmi Hs Hv Hne.
  unfold datetime_gtb, datetime_compare, fields. cbn [lex_compare].
  rewrite Hy, Hm, Hd, Hh, Hmi, Hs, !Z.compare_refl.
  unfold valid_time in Hv.
  destruct (Z.compare_spec (hour t) 0) as [Hh0| |]; [|lia|reflexivity].
  destruct (Z.compare_spec (minute t) 0) as [Hm0| |]; [|lia|reflexivity].
  destruct (Z.compare_spec (second t) 0) as [Hs0| |]; [|lia|reflexivity].
  exfalso. apply Hne. congruence.
Qed.

(** An activity that starts on the day of the watermark, after midnight,
    passes the filter. *)
Lemma same_day_passes_filter (last_date : datetime)
    (activities : list activity) (a : activity) (s : string) (t : datetime) :
  (hour last_date, minute last_date, second last_date) = (0, 0, 0) ->
  In a activities ->
  startTimeLocal a = Some (Text s) ->
  Strptime.date_time s = Some t ->
  year t = year last_date -> month t = month last_date ->
  day t = day last_date ->
  (hour t, minute t, second t) <> (0, 0, 0) ->
  In a (List.filter (started_after last_date) activities).
Proof.
  intros [= Hh0 Hm0 Hs0] Hin Hs Ht Hy Hm Hd Hne.
  apply filter_In. split; [exact Hin|].
  unfold started_after. rewrite Hs, Ht.
  apply same_day_later; auto.
  now destruct (StrptimeFacts.date_time_valid _ _ Ht).
Qed.

(* ================================================================== *)
(** * Running monadic code *)
(* ================================================================== *)

Lemma bind_Ok {A B} (m : M A) (k : A -> M B) (w w' : world) (a : A) :
  m w = (Ok a, w') -> bind m k w = k a w'.
Proof. unfold bind. now intros ->. Qed.

Lemma bind_Raise {A B} (m : M A) (k : A -> M B) (w w' : world) (e : exn) :
  m w = (Raise e, w') -> bind m k w = (Raise e, w').
Proof. unfold bind. now intros ->. Qed.

Lemma try_except_Ok {A} (m : M A) (h : exn -> M A) (w w' : world) (a : A) :
  m w = (Ok a, w') -> try_except m h w = (Ok a, w').
Proof. unfold try_except. now intros ->. Qed.

Lemma try_except_Raise {A} (m : M A) (h : exn -> M A) (w w' : world) (e : exn) :
  m w = (Raise e, w') -> try_except m h w = h e w'.
Proof. unfold try_except. now intros ->. Qed.

Lemma print_run (l : line) (w : world) : print l w = (Ok tt, printed w [l]).
Proof. reflexivity. Qed.

Lemma printed_printed (w : world) (l1 l2 : list line) :
  printed (printed w l1) l2 = printed w (l1 ++ l2).
Proof. unfold printed. simpl. now rewrite <- app_assoc. Qed.

Lemma printed_nil (w : world) : printed w [] = w.
Proof. destruct w. unfold printed. simpl. now rewrite app_nil_r. Qed.

(** ** Computations that print nothing *)

Lemma silent_ret {A} (a : A) : silent (ret a).
Proof. now intros w. Qed.

Lemma silent_raise {A} (e : exn) : silent (@raise A e).
Proof. now intros w. Qed.

Lemma silent_call {A} (r : result A) : silent (call r).
Proof. now intros w. Qed.

Lemma silent_bind {A B} (m : M A) (k : A -> M B) :
  silent m -> (forall a, silent (k a)) -> silent (bind m k).
Proof.
  intros Hm Hk w. unfold bind. specialize (Hm w).
  destruct (m w) as [[a|e] w']; simpl in *; [|exact Hm].
  now rewrite Hk.
Qed.

Lemma silent_try_except {A} (m : M A) (h : exn -> M A) :
  silent m -> (forall e, silent (h e)) -> silent (try_except m h).
Proof.
  intros Hm Hh w. unfold try_except. specialize (Hm w).
  destruct (m w) as [[a|e] w']; simpl in *; [exact Hm|].
  now rewrite Hh.
Qed.

Lemma silent_write_file `{Platform} (name data : string) :
  silent (write_file name data).
Proof.
  intros w. unfold write_file.
  destruct (outdir w); [reflexivity|]. now destruct (write_denied name).
Qed.

Lemma silent_rename `{Platform} (src dst : string) : silent (rename src dst).
Proof.
  intros w. unfold rename.
  destruct (files_of (outdir w) !! src); [|reflexivity].
  destruct (outdir w); [reflexivity|]. now destruct (write_denied dst).
Qed.

Lemma silent_unlink (name : string) : silent (unlink name).
Proof.
  intros w. unfold unlink.
  destruct (files_of (outdir w) !! name); [|reflexivity].
  now destruct (outdir w).
Qed.

Lemma silent_zip_open `{Platform} (name : string) : silent (zip_open name).
Proof.
  intros w. unfold zip_open.
  destruct (files_of (outdir w) !! name) as [data|]; [|reflexivity].
  now destruct (zip_members data).
Qed.

Create HintDb silent discriminated.
#[export] Hint Resolve silent_ret silent_raise silent_call silent_write_file
  silent_rename silent_unlink silent_zip_open : silent.
#[export] Hint Extern 2 (silent (bind _ _)) =>
  apply silent_bind; [|intros ?] : silent.
#[export] Hint Extern 2 (silent (try_except _ _)) =>
  apply silent_try_except; [|intros ?] : silent.
#[export] Hint Extern 3 (silent (match ?x with _ => _ end)) =>
  destruct x : silent.

Section DownloaderFacts.
Context `{Client}.

Lemma silent_downloader (format_type : format) (activity_id : Z)
    (date_str activity_name : string) :
  silent (downloader format_type activity_id date_str activity_name).
Proof.
  destruct format_type; cbn [downloader];
    unfold download_gpx, download_tcx, download_fit, download_json,
      extract_first, dumps, os_error;
    auto 20 with silent.
Qed.

(** On a well-formed record [download_activity] never raises: it prints the
    header, runs the downloader, and turns its outcome into a line and a
    boolean.  On the others it raises before it prints anything. *)
Lemma download_activity_run (a : activity) (format_type : format)
    (w : world) :
  download_activity a format_type w =
  guarded a w
    match downloader format_type (activityId a) (date_of a) (safe_name_of a)
            (printed w [header a]) with
    | (Ok filename, w') => (Ok true, printed w' [Saved filename])
    | (Raise e, w') => (Ok false, printed w' [ActivityError (exn_msg e)])
    end.
Proof.
  unfold download_activity, guarded, well_formed, prelude_error, header,
    date_of, safe_name_of.
  destruct (activityType a) as [[|typeKey]|];
    destruct (activityName a) as [[|name]|];
    cbn [from_option id andb]; try reflexivity;
    unfold bind, ret, try_except, print, printed; cbn [outdir stdout];
    destruct (downloader _ _ _ _ _) as [[filename|e] w']; reflexivity.
Qed.

Lemma download_activity_well_formed (a : activity) (format_type : format)
    (w : world) :
  well_formed a = true ->
  download_activity a format_type w =
  match downloader format_type (activityId a) (date_of a) (safe_name_of a)
          (printed w [header a]) with
  | (Ok filename, w') => (Ok true, printed w' [Saved filename])
  | (Raise e, w') => (Ok false, printed w' [ActivityError (exn_msg e)])
  end.
Proof.
  intros Hwf. rewrite download_activity_run. unfold guarded. now rewrite Hwf.
Qed.

Lemma download_activity_malformed (a : activity) (format_type : format)
    (w : world) :
  well_formed a = false ->
  download_activity a format_type w = (Raise (prelude_error a), w).
Proof.
  intros Hwf. rewrite download_activity_run. unfold guarded. now rewrite Hwf.
Qed.

(** What one activity adds to the output: its header, then one line that
    tells how it went. *)
Lemma download_activity_lines (a : activity) (format_type : format)
    (w : world) :
  well_formed a = true ->
  exists (ok : bool) (w' : world) (outcome : line),
    download_activity a format_type w = (Ok ok, w')
    /\ stdout w' = (stdout w ++ [header a; outcome])%list
    /\ (if ok then is_saved outcome = true else is_error outcome = true).
Proof.
  intros Hwf. rewrite (download_activity_well_formed _ _ _ Hwf).
  pose proof (silent_downloader format_type (activityId a)
    (date_of a) (safe_name_of a) (printed w [header a])) as Hs.
  destruct (downloader _ _ _ _ _) as [[filename|e] w']; simpl in Hs.
  - exists true, (printed w' [Saved filename]), (Saved filename).
    split; [reflexivity|]. split; [|reflexivity].
    simpl. rewrite Hs, <- app_assoc. reflexivity.
  - exists false, (printed w' [ActivityError (exn_msg e)]),
      (ActivityError (exn_msg e)).
    split; [reflexivity|]. split; [|reflexivity].
    simpl. rewrite Hs, <- app_assoc. reflexivity.
Qed.

End DownloaderFacts.

(* ================================================================== *)
(** * The loop over the activities *)
(* ================================================================== *)

Lemma attempted_app (l1 l2 : list line) :
  attempted (l1 ++ l2) = (attempted l1 ++ attempted l2)%list.
Proof. apply List.filter_app. Qed.

Lemma succeeded_app (l1 l2 : list line) :
  succeeded (l1 ++ l2) = (succeeded l1 + succeeded l2)%nat.
Proof. unfold succeeded. now rewrite List.filter_app, length_app. Qed.

Lemma failed_app (l1 l2 : list line) :
  failed (l1 ++ l2) = (failed l1 + failed l2)%nat.
Proof. unfold failed. now rewrite List.filter_app, length_app. Qed.

Section LoopFacts.
Context `{Client}.

(** A failed download never stops the loop, and the loop raises on a
    malformed record only: every activity before the first such record gets
    its header, in order, and then either a [Saved] line, counted, or an
    [ActivityError] line, not counted. *)
Lemma download_each_run (activities : list activity) (format_type : format)
    (i total success_count : nat) (w : world) :
  exists (w' : world) (new : list line),
    download_each activities format_type i total success_count w
    = (match malformed activities with
       | None => Ok (success_count + succeeded new)%nat
       | Some b => Raise (prelude_error b)
       end, w')
    /\ stdout w' = (stdout w ++ new)%list
    /\ attempted new = map header (ready activities)
    /\ (succeeded new + failed new = length (ready activities))%nat.
Proof.
  revert i success_count w.
  induction activities as [|a activities IH]; intros i success_count w.
  - exists w, []. cbn. rewrite Nat.add_0_r, app_nil_r. auto.
  - cbn [download_each]. unfold malformed. cbn [List.find ready].
    fold (malformed activities).
    rewrite (bind_Ok _ _ _ _ _ (print_run (Progress i total) w)).
    destruct (well_formed a) eqn:Hwf; cbn [negb].
    + destruct (download_activity_lines a format_type
                  (printed w [Progress i total]) Hwf)
        as (ok & w1 & outcome & Hrun & Hout & Hok).
      rewrite (bind_Ok _ _ _ _ _ Hrun).
      destruct (IH (S i) (if ok then S success_count else success_count) w1)
        as (w' & new & Hloop & Hout' & Hatt & Hcount).
      exists w', ([Progress i total; header a; outcome] ++ new)%list.
      rewrite Hloop, Hout', Hout. cbn [printed stdout].
      rewrite attempted_app, succeeded_app, failed_app, Hatt.
      repeat split.
      * destruct (malformed activities); [reflexivity|].
        do 2 f_equal. unfold succeeded at 2. cbn.
        destruct ok, outcome; try discriminate Hok; cbn; lia.
      * now rewrite <- !app_assoc.
      * unfold attempted, header.
        destruct ok, outcome; try discriminate Hok; reflexivity.
      * unfold succeeded at 1, failed at 1. cbn [length].
        destruct ok, outcome; try discriminate Hok; cbn; lia.
    + exists (printed w [Progress i total]), [Progress i total].
      rewrite (bind_Raise _ _ _ _ _
                 (download_activity_malformed a format_type _ Hwf)).
      repeat split.
Qed.

(** The loop over a list in two parts. *)
Lemma download_each_app (before rest : list activity) (format_type : format)
    (i total success_count : nat) (w : world) :
  download_each (before ++ rest) format_type i total success_count w =
  bind (download_each before format_type i total success_count)
    (fun n => download_each rest format_type (i + length before) total n) w.
Proof.
  revert i success_count w.
  induction before as [|a before IH]; intros i success_count w.
  - cbn [app download_each length]. unfold bind, ret.
    now rewrite Nat.add_0_r.
  - cbn [app download_each length]. unfold bind, print. cbv beta iota.
    destruct (download_activity a format_type _) as [[ok|e] w2];
      [|reflexivity].
    rewrite IH. unfold bind. now rewrite Nat.add_succ_r.
Qed.

Lemma malformed_ready (activities : list activity) :
  malformed activities = None -> ready activities = activities.
Proof.
  unfold malformed.
  induction activities as [|a activities IH]; [reflexivity|].
  cbn [List.find ready]. destruct (well_formed a); [|discriminate].
  cbn [negb]. intros Hnone. now rewrite IH.
Qed.

Lemma malformed_Forall (activities : list activity) :
  Forall (fun a => well_formed a = true) activities ->
  malformed activities = None.
Proof.
  unfold malformed. induction 1 as [|a activities Ha _ IH]; [reflexivity|].
  cbn [List.find]. now rewrite Ha.
Qed.

End LoopFacts.

(* ================================================================== *)
(** * The stages of main *)
(* ================================================================== *)

Lemma files_of_made (d : directory) : files_of (made d) = files_of d.
Proof. now destruct d. Qed.

Lemma report_run `{Client} (e : exn) (w : world) :
  report e w = (Ok 1, printed w (report_lines e)).
Proof.
  unfold report, report_lines, bind, print, ret, printed.
  destruct (exn_kind e); cbn [outdir stdout]; rewrite <- ?app_assoc;
    reflexivity.
Qed.

Lemma attempted_report_lines (e : exn) : attempted (report_lines e) = [].
Proof. unfold report_lines. now destruct (exn_kind e). Qed.

Lemma succeeded_report_lines (e : exn) : succeeded (report_lines e) = 0%nat.
Proof. unfold report_lines. now destruct (exn_kind e). Qed.

Section MainFacts.
Context `{Client}.

Lemma authenticate_run (w : world) :
  authenticate w =
  match login_outcome with
  | Ok _ => (Ok tt, printed w [Connecting; Authenticated])
  | Raise e => (Raise e, printed w [Connecting])
  end.
Proof.
  unfold authenticate, login_outcome, bind, try_except, call, print, ret,
    printed.
  cbn [outdir stdout].
  destruct tokens_cached.
  - destruct login_tokenstore as [[]|e]; [|reflexivity].
    cbn [outdir stdout]. now rewrite <- app_assoc.
  - destruct login as [[]|e]; [|reflexivity].
    destruct login_tokenstore as [[]|e]; cbn [outdir stdout];
      now rewrite <- app_assoc.
Qed.

(** The login fails: [export] raises before it fetches anything. *)
Lemma export_login_fails (args : arguments) (last_date : option datetime)
    (w : world) (e : exn) :
  login_outcome = Raise e ->
  export args last_date w = (Raise e, printed w [Connecting]).
Proof.
  intros He. unfold export.
  apply bind_Raise. rewrite authenticate_run, He. reflexivity.
Qed.

Lemma export_fetch (args : arguments) (last_date : option datetime)
    (w : world) (k : list activity -> M Z) :
  login_outcome = Ok tt ->
  bind authenticate
    (fun _ => bind (print (Fetching (count args)))
       (fun _ => bind (call (get_activities 0 (count args))) k)) w
  = bind (call (get_activities 0 (count args))) k
      (printed w [Connecting; Authenticated; Fetching (count args)]).
Proof.
  intros Hlogin.
  erewrite bind_Ok by (rewrite authenticate_run, Hlogin; reflexivity).
  erewrite bind_Ok by apply print_run.
  now rewrite printed_printed.
Qed.

(** The request for the activities fails: [export] raises. *)
Lemma export_fetch_fails (args : arguments) (last_date : option datetime)
    (w : world) (e : exn) :
  login_outcome = Ok tt ->
  get_activities 0 (count args) = Raise e ->
  export args last_date w
  = (Raise e, printed w [Connecting; Authenticated; Fetching (count args)]).
Proof.
  intros Hlogin He. unfold export.
  rewrite (export_fetch args last_date w _ Hlogin).
  apply bind_Raise. unfold call. now rewrite He.
Qed.

(** No activity: [export] returns 0 at once. *)
Lemma export_no_activities (args : arguments) (last_date : option datetime)
    (w : world) :
  login_outcome = Ok tt ->
  get_activities 0 (count args) = Ok [] ->
  export args last_date w
  = (Ok 0, printed w [Connecting; Authenticated; Fetching (count args);
                      NoActivitiesFound]).
Proof.
  intros Hlogin Hacts. unfold export.
  rewrite (export_fetch args last_date w _ Hlogin).
  erewrite bind_Ok by (unfold call; rewrite Hacts; reflexivity).
  cbv beta iota.
  erewrite bind_Ok by apply print_run.
  unfold ret. now rewrite printed_printed.
Qed.

(** The start of [main], up to the [try] block. *)
Lemma main_run (args : arguments) (w : world) :
  credentials_ok args = true ->
  main args w
  = try_except (export args (watermark args (outdir w))) report
      (mkWorld (made (outdir w))
               (stdout w ++ preamble args (outdir w))).
Proof.
  unfold credentials_ok. intros [H1 H2]%andb_true_iff.
  apply negb_true_iff in H1, H2.
  unfold main. rewrite H1, H2.
  unfold preamble, watermark. fold (incremental args).
  assert (Hmk : mkdir w = (Ok tt, mkWorld (made (outdir w)) (stdout w))).
  { unfold mkdir, made. destruct w as [[|l files] out]; reflexivity. }
  rewrite (bind_Ok _ _ _ _ _ Hmk).
  rewrite (bind_Ok _ _ _ _ _ (print_run _ _)).
  destruct (incremental args).
  - unfold bind at 1. unfold bind at 1. unfold current_directory.
    cbn [printed outdir stdout].
    destruct (get_last_activity_date (made (outdir w)) _) as [t|].
    + unfold bind, print, ret, printed. cbn [outdir stdout].
      now rewrite <- !app_assoc.
    + unfold bind, print, ret, printed. cbn [outdir stdout].
      now rewrite <- !app_assoc.
  - unfold bind at 1, ret, printed. cbn [outdir stdout]. reflexivity.
Qed.

End MainFacts.

Section ExportFacts.
Context `{Client}.

(** The loop and the summary, once the activities to download are known. *)
Lemma export_loop (args : arguments) (todo : list activity) (w : world) :
  exists (w' : world) (new : list line),
    bind (download_each todo (arg_format args) 1 (length todo) 0)
      (fun success_count =>
         bind (print (ExportComplete success_count (length todo)))
           (fun _ => ret 0)) w
    = (loop_status todo, w')
    /\ stdout w' = (stdout w ++ new ++ summary todo new)%list
    /\ attempted new = map header (ready todo)
    /\ (succeeded new + failed new = length (ready todo))%nat.
Proof.
  destruct (download_each_run todo (arg_format args) 1 (length todo) 0 w)
    as (w1 & new & Hloop & Hout & Hatt & Hcount).
  unfold loop_status, summary.
  destruct (malformed todo) as [b|].
  - exists w1, new. split; [|split; [|split]]; auto.
    + now rewrite (bind_Raise _ _ _ _ _ Hloop).
    + now rewrite Hout, app_nil_r.
  - exists (printed w1 [ExportComplete (succeeded new) (length todo)]), new.
    split; [|split; [|split]]; auto.
    + rewrite (bind_Ok _ _ _ _ _ Hloop).
      rewrite (bind_Ok _ _ _ _ _ (print_run _ _)). reflexivity.
    + cbn [printed stdout]. now rewrite Hout, <- app_assoc.
Qed.

(** There are activities to download: [export] fetches, filters when there
    is a watermark, and comes to the loop and the summary. *)
Lemma export_reaches_loop (args : arguments) (last_date : option datetime)
    (w : world) (activities : list activity) :
  login_outcome = Ok tt ->
  get_activities 0 (count args) = Ok activities ->
  (is_Some last_date -> Forall well_timed activities) ->
  to_download last_date activities <> [] ->
  export args last_date w
  = bind (download_each (to_download last_date activities) (arg_format args)
            1 (length (to_download last_date activities)) 0)
      (fun success_count =>
         bind (print (ExportComplete success_count
                        (length (to_download last_date activities))))
           (fun _ => ret 0))
      (loop_start args last_date activities w).
Proof.
  intros Hlogin Hacts Hwt Htodo. unfold export, loop_start.
  rewrite (export_fetch args last_date w _ Hlogin).
  erewrite bind_Ok by (unfold call; rewrite Hacts; reflexivity).
  destruct activities as [|a0 rest] eqn:Hlist.
  { destruct last_date; contradiction Htodo; reflexivity. }
  rewrite <- Hlist in *. cbv beta iota.
  erewrite bind_Ok by apply print_run. rewrite printed_printed.
  destruct last_date as [last_date|].
  - specialize (Hwt ltac:(eauto)).
    cbn [to_download filtered_lines] in *.
    set (kept := List.filter (started_after last_date) activities) in *.
    set (w1 := printed w _).
    erewrite bind_Ok; cycle 1.
    { erewrite bind_Ok
        by (unfold call; rewrite (filter_since_filter _ _ Hwt); reflexivity).
      fold kept.
      instantiate (1 := printed w1 (if (0 <? length activities - length kept)%nat
                                    then [FilteredOut (length activities - length kept)]
                                    else [])).
      instantiate (1 := kept).
      destruct (0 <? length activities - length kept)%nat.
      - erewrite bind_Ok by apply print_run. reflexivity.
      - unfold bind, ret. now rewrite printed_nil. }
    destruct kept as [|b kept'] eqn:Hkept; [contradiction|].
    rewrite <- Hkept in *. cbv beta iota.
    unfold w1. rewrite printed_printed.
    change ([Connecting; Authenticated; Fetching (count args)]
            ++ [Found (length activities)])%list
      with [Connecting; Authenticated; Fetching (count args);
            Found (length activities)].
    reflexivity.
  - cbn [to_download filtered_lines] in *.
    erewrite bind_Ok by reflexivity.
    rewrite app_nil_r. reflexivity.
Qed.

Lemma export_downloads (args : arguments) (last_date : option datetime)
    (w : world) (activities : list activity) :
  login_outcome = Ok tt ->
  get_activities 0 (count args) = Ok activities ->
  (is_Some last_date -> Forall well_timed activities) ->
  to_download last_date activities <> [] ->
  exists (w' : world) (new : list line),
    export args last_date w
    = (loop_status (to_download last_date activities), w')
    /\ stdout w'
       = (stdout w
            ++ [Connecting; Authenticated; Fetching (count args);
                Found (length activities)]
            ++ filtered_lines last_date activities
            ++ new
            ++ summary (to_download last_date activities) new)%list
    /\ attempted new = map header (ready (to_download last_date activities))
    /\ (succeeded new + failed new
        = length (ready (to_download last_date activities)))%nat.
Proof.
  intros Hlogin Hacts Hwt Htodo.
  rewrite (export_reaches_loop args last_date w activities
             Hlogin Hacts Hwt Htodo).
  destruct (export_loop args (to_download last_date activities)
              (loop_start args last_date activities w))
    as (w' & new & Hrun & Hout & Hatt & Hcount).
  exists w', new. split; [exact Hrun|]. split; [|auto].
  rewrite Hout. unfold loop_start. cbn [printed stdout].
  now rewrite <- !app_assoc.
Qed.

End ExportFacts.

(* ================================================================== *)
(** * Whole runs *)
(* ================================================================== *)

Lemma output_of_app (w w' : world) (new : list line) :
  stdout w' = (stdout w ++ new)%list -> output_of w w' = new.
Proof. unfold output_of. intros ->. apply drop_app_length. Qed.

Section RunFacts.
Context `{Client}.

Lemma prelude_error_kind (a : activity) :
  exn_kind (prelude_error a) = AttributeError.
Proof. unfold prelude_error. now destruct (activityType a) as [[]|]. Qed.

Lemma report_lines_prelude_error (a : activity) :
  report_lines (prelude_error a) = [UnexpectedError (exn_msg (prelude_error a))].
Proof. unfold report_lines. now rewrite prelude_error_kind. Qed.

(** A run that has activities to download dispatches them in order up to
    the first malformed record, whatever the downloads do.  Without such a
    record it ends with status 0 and the summary; with one, it ends with
    status 1 and the report of the [AttributeError]. *)
Lemma main_downloads (args : arguments) (w : world)
    (activities : list activity) :
  credentials_ok args = true ->
  login_outcome = Ok tt ->
  get_activities 0 (count args) = Ok activities ->
  (is_Some (watermark args (outdir w)) -> Forall well_timed activities) ->
  to_download (watermark args (outdir w)) activities <> [] ->
  fst (main args w)
  = Ok match malformed (to_download (watermark args (outdir w)) activities)
       with
       | None => 0
       | Some _ => 1
       end
  /\ attempted (output_of w (snd (main args w)))
     = map header
         (ready (to_download (watermark args (outdir w)) activities))
  /\ (succeeded (output_of w (snd (main args w)))
      + failed (output_of w (snd (main args w)))
      = length (ready (to_download (watermark args (outdir w)) activities)))%nat
  /\ last (output_of w (snd (main args w)))
     = Some match malformed
                   (to_download (watermark args (outdir w)) activities) with
            | None =>
                ExportComplete
                  (succeeded (output_of w (snd (main args w))))
                  (length (to_download (watermark args (outdir w))
                             activities))
            | Some b => UnexpectedError (exn_msg (prelude_error b))
            end.
Proof.
  intros Hcred Hlogin Hacts Hwt Htodo.
  rewrite (main_run args w Hcred).
  set (w0 := mkWorld _ _).
  destruct (export_downloads args (watermark args (outdir w)) w0 activities
              Hlogin Hacts Hwt Htodo)
    as (w' & new & Hrun & Hout & Hatt & Hcount).
  set (todo := to_download _ _) in *.
  assert (Hfilt : attempted (filtered_lines (watermark args (outdir w))
                               activities) = []
                  /\ succeeded (filtered_lines (watermark args (outdir w))
                                  activities) = 0%nat
                  /\ failed (filtered_lines (watermark args (outdir w))
                               activities) = 0%nat).
  { unfold filtered_lines. destruct (watermark args (outdir w)); auto.
    cbv zeta. destruct (0 <? _)%nat; auto. }
  destruct Hfilt as (Hf1 & Hf2 & Hf3).
  assert (Hpre : attempted (preamble args (outdir w)) = []
                 /\ succeeded (preamble args (outdir w)) = 0%nat
                 /\ failed (preamble args (outdir w)) = 0%nat).
  { unfold preamble. destruct (incremental args); auto.
    destruct (watermark args (outdir w)); auto. }
  destruct Hpre as (Hp1 & Hp2 & Hp3).
  set (tail := match malformed todo with
               | None => [ExportComplete (succeeded new) (length todo)]
               | Some b => [UnexpectedError (exn_msg (prelude_error b))]
               end).
  assert (Htail : attempted tail = [] /\ succeeded tail = 0%nat
                  /\ failed tail = 0%nat).
  { unfold tail. destruct (malformed todo); auto. }
  destruct Htail as (Ht1 & Ht2 & Ht3).
  assert (Hmain : fst (try_except
                         (export args (watermark args (outdir w))) report w0)
                  = Ok match malformed todo with None => 0 | Some _ => 1 end
                  /\ stdout (snd (try_except
                         (export args (watermark args (outdir w))) report w0))
                     = (stdout w
                        ++ preamble args (outdir w)
                        ++ [Connecting; Authenticated; Fetching (count args);
                            Found (length activities)]
                        ++ filtered_lines (watermark args (outdir w))
                             activities
                        ++ new ++ tail)%list).
  { unfold loop_status, summary, tail in *.
    destruct (malformed todo) as [b|].
    - rewrite (try_except_Raise _ _ _ _ _ Hrun), report_run.
      rewrite report_lines_prelude_error.
      cbn [fst snd printed stdout]. split; [reflexivity|].
      rewrite Hout. unfold w0. cbn [stdout].
      now rewrite app_nil_r, <- !app_assoc.
    - rewrite (try_except_Ok _ _ _ _ _ Hrun). cbn [fst snd].
      split; [reflexivity|].
      rewrite Hout. unfold w0. cbn [stdout]. now rewrite <- !app_assoc. }
  destruct Hmain as (Hstatus & Hlines).
  rewrite Hstatus, (output_of_app _ _ _ Hlines).
  assert (Hsucc : succeeded
            (preamble args (outdir w)
             ++ [Connecting; Authenticated; Fetching (count args);
                 Found (length activities)]
             ++ filtered_lines (watermark args (outdir w)) activities
             ++ new ++ tail)
          = succeeded new).
  { rewrite !succeeded_app, Hp2, Hf2, Ht2. cbn. lia. }
  rewrite Hsucc.
  split; [reflexivity|]. split; [|split].
  - rewrite !attempted_app, Hp1, Hf1, Ht1, Hatt. cbn. now rewrite app_nil_r.
  - rewrite !failed_app, Hp3, Hf3, Ht3. cbn. lia.
  - unfold tail. destruct (malformed todo); rewrite !app_assoc;
      apply last_snoc.
Qed.

(** C1.  An exception of the downloader of one activity is caught in
    [download_activity], which prints one error line and returns [False];
    the loop of [main] goes on with the next activity.  [download_activity]
    raises only on a record whose name or type is [null], before it has
    called a downloader.  So a run that has activities to download
    dispatches every one of them, in order, up to the first such record if
    there is one, and each of them is saved or has its error line; without
    such a record the run ends with status 0 and its last line, the summary,
    counts the activities that were saved out of all those dispatched. *)
Theorem failures_do_not_stop_the_run (args : arguments) (w : world)
    (activities : list activity) :
  credentials_ok args = true ->
  login_outcome = Ok tt ->
  get_activities 0 (count args) = Ok activities ->
  (is_Some (watermark args (outdir w)) -> Forall well_timed activities) ->
  to_download (watermark args (outdir w)) activities <> [] ->
  (forall (a : activity) (w0 : world),
     download_activity a (arg_format args) w0 =
     guarded a w0
       match downloader (arg_format args) (activityId a) (date_of a)
               (safe_name_of a) (printed w0 [header a]) with
       | (Ok filename, w1) => (Ok true, printed w1 [Saved filename])
       | (Raise e, w1) => (Ok false, printed w1 [ActivityError (exn_msg e)])
       end)
  /\ fst (main args w)
     = Ok match malformed (to_download (watermark args (outdir w)) activities)
          with
          | None => 0
          | Some _ => 1
          end
  /\ attempted (output_of w (snd (main args w)))
     = map header
         (ready (to_download (watermark args (outdir w)) activities))
  /\ (succeeded (output_of w (snd (main args w)))
      + failed (output_of w (snd (main args w)))
      = length (ready (to_download (watermark args (outdir w)) activities)))%nat
  /\ (malformed (to_download (watermark args (outdir w)) activities) = None ->
      ready (to_download (watermark args (outdir w)) activities)
      = to_download (watermark args (outdir w)) activities
      /\ last (output_of w (snd (main args w)))
         = Some (ExportComplete
                   (succeeded (output_of w (snd (main args w))))
                   (length (to_download (watermark args (outdir w))
                              activities)))).
Proof.
  intros Hcred Hlogin Hacts Hwt Htodo.
  split; [intros a w0; apply download_activity_run|].
  destruct (main_downloads args w activities Hcred Hlogin Hacts Hwt Htodo)
    as (Hstatus & Hattempted & Hcount & Hlast).
  split; [exact Hstatus|]. split; [exact Hattempted|].
  split; [exact Hcount|].
  intros Hnone. split; [now apply malformed_ready|].
  rewrite Hlast, Hnone. reflexivity.
Qed.

(** C7, as the code has it.  When the client lists no activity, [main]
    ends with status 0 and has dispatched and saved nothing: the files of
    the output directory are what they were.  The directory itself has been
    created when it was not there. *)
Theorem no_activities_no_download (args : arguments) (w : world) :
  credentials_ok args = true ->
  login_outcome = Ok tt ->
  get_activities 0 (count args) = Ok [] ->
  fst (main args w) = Ok 0
  /\ outdir (snd (main args w)) = made (outdir w)
  /\ files_of (outdir (snd (main args w))) = files_of (outdir w)
  /\ attempted (output_of w (snd (main args w))) = []
  /\ succeeded (output_of w (snd (main args w))) = 0%nat
  /\ last (output_of w (snd (main args w))) = Some NoActivitiesFound.
Proof.
  intros Hcred Hlogin Hacts.
  rewrite (main_run args w Hcred).
  rewrite (try_except_Ok _ _ _ _ _
             (export_no_activities args _ _ Hlogin Hacts)).
  cbn [fst snd printed outdir stdout].
  rewrite files_of_made.
  rewrite (output_of_app w _
             (preamble args (outdir w)
              ++ [Connecting; Authenticated; Fetching (count args);
                  NoActivitiesFound]))
    by (unfold printed; cbn [stdout]; now rewrite <- app_assoc).
  repeat split.
  - rewrite attempted_app. unfold preamble.
    destruct (incremental args); [destruct (watermark _ _)|]; reflexivity.
  - rewrite succeeded_app. unfold preamble.
    destruct (incremental args); [destruct (watermark _ _)|]; reflexivity.
  - change [Connecting; Authenticated; Fetching (count args);
            NoActivitiesFound]
      with ([Connecting; Authenticated; Fetching (count args)]
            ++ [NoActivitiesFound])%list.
    rewrite app_assoc. apply last_snoc.
Qed.

(** C8.  When the login fails, or the request for the activities does,
    whatever the exception, [main] ends with status 1 and its output ends
    with the lines that report the exception, with its message; no activity
    was dispatched or saved, and the files of the output directory are what
    they were. *)
Theorem fatal_error_aborts (args : arguments) (w : world) (e : exn) :
  credentials_ok args = true ->
  login_outcome = Raise e
  \/ (login_outcome = Ok tt /\ get_activities 0 (count args) = Raise e) ->
  fst (main args w) = Ok 1
  /\ outdir (snd (main args w)) = made (outdir w)
  /\ files_of (outdir (snd (main args w))) = files_of (outdir w)
  /\ attempted (output_of w (snd (main args w))) = []
  /\ succeeded (output_of w (snd (main args w))) = 0%nat
  /\ exists before,
       output_of w (snd (main args w)) = (before ++ report_lines e)%list.
Proof.
  intros Hcred Hfatal.
  rewrite (main_run args w Hcred).
  set (w0 := mkWorld _ _).
  assert (Hrun : exists lines,
             export args (watermark args (outdir w)) w0
             = (Raise e, printed w0 lines)
             /\ attempted lines = [] /\ succeeded lines = 0%nat).
  { destruct Hfatal as [Hlogin|[Hlogin Hfetch]].
    - exists [Connecting]. split; [|auto].
      now apply export_login_fails.
    - exists [Connecting; Authenticated; Fetching (count args)].
      split; [|auto]. now apply export_fetch_fails. }
  destruct Hrun as (lines & Hrun & Hatt & Hsucc).
  rewrite (try_except_Raise _ _ _ _ _ Hrun), report_run.
  cbn [fst snd printed outdir stdout]. unfold w0. cbn [outdir stdout].
  rewrite files_of_made.
  assert (Hpre : attempted (preamble args (outdir w)) = []
                 /\ succeeded (preamble args (outdir w)) = 0%nat).
  { unfold preamble. destruct (incremental args); auto.
    destruct (watermark args (outdir w)); auto. }
  destruct Hpre as (Hp1 & Hp2).
  rewrite (output_of_app w _
             (preamble args (outdir w) ++ lines ++ report_lines e))
    by (unfold printed; cbn [stdout]; now rewrite <- !app_assoc).
  repeat split.
  - now rewrite !attempted_app, Hp1, Hatt, attempted_report_lines.
  - now rewrite !succeeded_app, Hp2, Hsucc, succeeded_report_lines.
  - exists (preamble args (outdir w) ++ lines)%list.
    now rewrite <- app_assoc.
Qed.

End RunFacts.

(** The second of three downloads fails, and the third is made. *)
Lemma failures_do_not_stop_the_run_witness :
  @credentials_ok _ three_runs (demo_arguments fit true) = true
  /\ to_download (watermark (demo_arguments fit true) two_fit_files)
       [run_16; run_15; run_14] = [run_16; run_15; run_14]
  /\ @request_fails _ three_runs run_15 fit
       (mkExn GarminConnectConnectionError "timed out")
  /\ fst (@main _ three_runs (demo_arguments fit true) (start two_fit_files))
     = Ok 0
  /\ attempted
       (output_of (start two_fit_files)
          (snd (@main _ three_runs (demo_arguments fit true)
                  (start two_fit_files))))
     = [header run_16; header run_15; header run_14]
  /\ last (output_of (start two_fit_files)
             (snd (@main _ three_runs (demo_arguments fit true)
                     (start two_fit_files))))
     = Some (ExportComplete
               (succeeded
                  (output_of (start two_fit_files)
                     (snd (@main _ three_runs (demo_arguments fit true)
                             (start two_fit_files)))))
               3)
  /\ output_of (start two_fit_files)
       (snd (@main _ three_runs (demo_arguments fit true)
               (start two_fit_files)))
     = [OutputDirectory; Connecting; Authenticated; Fetching 10; Found 3;
        Progress 1 3; header run_16; Saved (artifact run_16 ".fit");
        Progress 2 3; header run_15; ActivityError "timed out";
        Progress 3 3; header run_14; Saved (artifact run_14 ".fit");
        ExportComplete 2 3].
Proof.
  split; [reflexivity|]. split; [reflexivity|]. split; [reflexivity|].
  pose proof (@failures_do_not_stop_the_run _ three_runs
                (demo_arguments fit true) (start two_fit_files)
                [run_16; run_15; run_14]) as Hrun.
  destruct Hrun as (_ & Hstatus & Hattempted & _ & Hlast).
  - reflexivity.
  - reflexivity.
  - reflexivity.
  - intros [t Ht]. discriminate Ht.
  - discriminate.
  - split; [exact Hstatus|]. split; [exact Hattempted|].
    split; [exact (proj2 (Hlast eq_refl))|].
    vm_compute. reflexivity.
Defined.

Lemma no_activities_no_download_witness :
  @credentials_ok _ no_runs (demo_arguments fit false) = true
  /\ fst (@main _ no_runs (demo_arguments fit false) (start two_fit_files))
     = Ok 0
  /\ outdir (snd (@main _ no_runs (demo_arguments fit false)
                    (start two_fit_files)))
     = two_fit_files.
Proof.
  split; [reflexivity|].
  pose proof (@no_activities_no_download _ no_runs
                (demo_arguments fit false) (start two_fit_files)) as Hrun.
  destruct Hrun as (Hstatus & Hdir & _).
  - reflexivity.
  - reflexivity.
  - reflexivity.
  - split; [exact Hstatus|exact Hdir].
Defined.

(** C7 as stated fails: when the output directory is not there, a run that
    finds no activity has created it. *)
Lemma no_activities_counterexample :
  fst (@main _ no_runs (demo_arguments fit false) (start NoDir)) = Ok 0
  /\ outdir (snd (@main _ no_runs (demo_arguments fit false) (start NoDir)))
     = Dir true ∅
  /\ outdir (snd (@main _ no_runs (demo_arguments fit false) (start NoDir)))
     <> outdir (start NoDir).
Proof. split; [reflexivity|]. split; [reflexivity|discriminate]. Qed.

Lemma fatal_error_aborts_witness :
  @credentials_ok _ refused (demo_arguments fit false) = true
  /\ @login_outcome _ refused
     = Raise (mkExn GarminConnectAuthenticationError "401 Unauthorized")
  /\ fst (@main _ refused (demo_arguments fit false) (start two_fit_files))
     = Ok 1
  /\ @login_outcome _ unreachable = Ok tt
  /\ fst (@main _ unreachable (demo_arguments fit false)
            (start two_fit_files))
     = Ok 1.
Proof.
  split; [reflexivity|]. split; [reflexivity|].
  split; [|split; [reflexivity|]].
  - refine (proj1 (@fatal_error_aborts _ refused (demo_arguments fit false)
                     (start two_fit_files)
                     (mkExn GarminConnectAuthenticationError
                        "401 Unauthorized") _ _)).
    + reflexivity.
    + left. reflexivity.
  - refine (proj1 (@fatal_error_aborts _ unreachable
                     (demo_arguments fit false) (start two_fit_files)
                     (mkExn GarminConnectConnectionError "Connection reset")
                     _ _)).
    + reflexivity.
    + right. split; reflexivity.
Defined.

(* ================================================================== *)
(** * The fit downloader *)
(* ================================================================== *)

Lemma file_name_suffix_inj (d n : string) (i : Z) (s1 s2 : string) :
  file_name d n i s1 = file_name d n i s2 -> s1 = s2.
Proof.
  unfold file_name. intros Heq.
  repeat apply String.app_inj in Heq. exact Heq.
Qed.

Lemma zip_is_not_fit (d n : string) (i : Z) :
  file_name d n i ".zip" <> file_name d n i ".fit".
Proof. intros Heq%file_name_suffix_inj. discriminate. Qed.

Section FileFacts.
Context `{Platform}.

Lemma write_file_run (name data : string) (l : bool)
    (files : gmap string string) (out : list line) :
  write_denied name = false ->
  write_file name data (mkWorld (Dir l files) out)
  = (Ok tt, mkWorld (Dir l (<[name := data]> files)) out).
Proof. intros Hw. unfold write_file. cbn [outdir stdout]. now rewrite Hw. Qed.

Lemma rename_run (src dst data : string) (l : bool)
    (files : gmap string string) (out : list line) :
  files !! src = Some data ->
  write_denied dst = false ->
  rename src dst (mkWorld (Dir l files) out)
  = (Ok tt, mkWorld (Dir l (<[dst := data]> (delete src files))) out).
Proof.
  intros Hsrc Hw. unfold rename. cbn [outdir stdout files_of].
  now rewrite Hsrc, Hw.
Qed.

Lemma unlink_run (name data : string) (l : bool)
    (files : gmap string string) (out : list line) :
  files !! name = Some data ->
  unlink name (mkWorld (Dir l files) out)
  = (Ok tt, mkWorld (Dir l (delete name files)) out).
Proof.
  intros Hname. unfold unlink. cbn [outdir stdout files_of].
  now rewrite Hname.
Qed.

Lemma zip_open_run (name data : string) (l : bool)
    (files : gmap string string) (out : list line) :
  files !! name = Some data ->
  zip_open name (mkWorld (Dir l files) out)
  = match zip_members data with
    | Some members => (Ok members, mkWorld (Dir l files) out)
    | None => (Raise (mkExn BadZipFile "File is not a zip file"),
               mkWorld (Dir l files) out)
    end.
Proof.
  intros Hname. unfold zip_open, raise. cbn [outdir stdout files_of].
  rewrite Hname. now destruct (zip_members data).
Qed.

End FileFacts.

Section FitFacts.
Context `{Client}.

(** The archive has a first member: it is extracted, renamed, and the
    archive is removed. *)
Lemma download_fit_archive (activity_id : Z) (date_str activity_name : string)
    (data member content : string) (rest : list (string * string))
    (l : bool) (files : gmap string string) (out : list line) :
  client_download_activity activity_id ORIGINAL = Ok data ->
  zip_members data = Some ((member, content) :: rest) ->
  write_denied (file_name date_str activity_name activity_id ".zip") = false ->
  write_denied (file_name date_str activity_name activity_id ".fit") = false ->
  write_denied member = false ->
  member <> file_name date_str activity_name activity_id ".zip" ->
  download_fit activity_id date_str activity_name (mkWorld (Dir l files) out)
  = (Ok (file_name date_str activity_name activity_id ".fit"),
     mkWorld
       (Dir l
          (delete (file_name date_str activity_name activity_id ".zip")
             (<[file_name date_str activity_name activity_id ".fit" := content]>
                (delete member
                   (<[member := content]>
                      (<[file_name date_str activity_name activity_id ".zip"
                         := data]> files))))))
       out).
Proof.
  intros Hdata Hzip Hwz Hwf Hwm Hne.
  unfold download_fit.
  set (zip := file_name date_str activity_name activity_id ".zip") in *.
  set (final := file_name date_str activity_name activity_id ".fit") in *.
  erewrite bind_Ok by (unfold call; rewrite Hdata; reflexivity).
  erewrite bind_Ok by (apply write_file_run; exact Hwz).
  erewrite bind_Ok; [reflexivity|].
  apply try_except_Ok. unfold extract_first.
  erewrite bind_Ok
    by (erewrite zip_open_run by apply lookup_insert_eq;
        rewrite Hzip; reflexivity).
  erewrite bind_Ok; cycle 1.
  { erewrite bind_Ok by (apply write_file_run; exact Hwm).
    apply rename_run; [apply lookup_insert_eq|exact Hwf]. }
  eapply unlink_run.
  assert (Hfz : final <> zip).
  { intros Heq. symmetry in Heq. now apply zip_is_not_fit in Heq. }
  rewrite lookup_insert_ne by exact Hfz.
  rewrite lookup_delete_ne by exact Hne.
  rewrite lookup_insert_ne by exact Hne.
  apply lookup_insert_eq.
Qed.

(** The bytes are no archive: the file is renamed. *)
Lemma download_fit_plain (activity_id : Z) (date_str activity_name : string)
    (data : string) (l : bool) (files : gmap string string)
    (out : list line) :
  client_download_activity activity_id ORIGINAL = Ok data ->
  zip_members data = None ->
  write_denied (file_name date_str activity_name activity_id ".zip") = false ->
  write_denied (file_name date_str activity_name activity_id ".fit") = false ->
  download_fit activity_id date_str activity_name (mkWorld (Dir l files) out)
  = (Ok (file_name date_str activity_name activity_id ".fit"),
     mkWorld
       (Dir l
          (<[file_name date_str activity_name activity_id ".fit" := data]>
             (delete (file_name date_str activity_name activity_id ".zip")
                files)))
       out).
Proof.
  intros Hdata Hzip Hwz Hwf.
  unfold download_fit.
  set (zip := file_name date_str activity_name activity_id ".zip") in *.
  set (final := file_name date_str activity_name activity_id ".fit") in *.
  erewrite bind_Ok by (unfold call; rewrite Hdata; reflexivity).
  erewrite bind_Ok by (apply write_file_run; exact Hwz).
  erewrite bind_Ok; [reflexivity|].
  erewrite try_except_Raise; cycle 1.
  { unfold extract_first. apply bind_Raise.
    erewrite zip_open_run by apply lookup_insert_eq.
    rewrite Hzip. reflexivity. }
  cbn [exn_kind].
  erewrite rename_run; [|apply lookup_insert_eq|exact Hwf].
  now rewrite delete_insert_eq.
Qed.

(** The archive has no member: it is removed, and nothing else happens. *)
Lemma download_fit_empty (activity_id : Z) (date_str activity_name : string)
    (data : string) (l : bool) (files : gmap string string)
    (out : list line) :
  client_download_activity activity_id ORIGINAL = Ok data ->
  zip_members data = Some [] ->
  write_denied (file_name date_str activity_name activity_id ".zip") = false ->
  download_fit activity_id date_str activity_name (mkWorld (Dir l files) out)
  = (Ok (file_name date_str activity_name activity_id ".fit"),
     mkWorld
       (Dir l (delete (file_name date_str activity_name activity_id ".zip")
                 files))
       out).
Proof.
  intros Hdata Hzip Hwz.
  unfold download_fit.
  set (zip := file_name date_str activity_name activity_id ".zip") in *.
  set (final := file_name date_str activity_name activity_id ".fit") in *.
  erewrite bind_Ok by (unfold call; rewrite Hdata; reflexivity).
  erewrite bind_Ok by (apply write_file_run; exact Hwz).
  erewrite bind_Ok; [reflexivity|].
  apply try_except_Ok. unfold extract_first.
  erewrite bind_Ok
    by (erewrite zip_open_run by apply lookup_insert_eq;
        rewrite Hzip; reflexivity).
  erewrite bind_Ok by reflexivity.
  erewrite unlink_run by apply lookup_insert_eq.
  now rewrite delete_insert_eq.
Qed.

End FitFacts.

Section FitClaims.
Context `{Client}.


(** C9.  When the bytes are an archive with no member (and the archive
    file can be written), nothing is extracted and no [.fit] file is
    written: the archive file is removed and the directory is otherwise what
    it was, so the [.fit] file is not there unless it was there before.  Yet
    [download_activity] prints the [.fit] name as saved and returns [True]:
    the activity counts as a success.  This is the outcome on
    a record whose name and type are not [null]; on the others
    [download_activity] raises before any request ([guarded]). *)
Theorem fit_empty_archive_counts (a : activity) (data : string) (l : bool)
    (files : gmap string string) (out : list line) :
  client_download_activity (activityId a) ORIGINAL = Ok data ->
  zip_members data = Some [] ->
  write_denied (artifact a ".zip") = false ->
  download_activity a fit (mkWorld (Dir l files) out)
  = guarded a (mkWorld (Dir l files) out)
      (Ok true,
       mkWorld (Dir l (delete (artifact a ".zip") files))
         (out ++ [header a; Saved (artifact a ".fit")]))
  /\ delete (artifact a ".zip") files !! artifact a ".zip" = None
  /\ delete (artifact a ".zip") files !! artifact a ".fit"
     = files !! artifact a ".fit"
  /\ (files !! artifact a ".fit" = None ->
      delete (artifact a ".zip") files !! artifact a ".fit" = None)
  /\ download_each [a] fit 1 1 0 (mkWorld (Dir l files) out)
     = guarded a (mkWorld (Dir l files) (out ++ [Progress 1 1]))
         (Ok 1%nat,
          mkWorld (Dir l (delete (artifact a ".zip") files))
            (out ++ [Progress 1 1; header a; Saved (artifact a ".fit")])).
Proof.
  intros Hdata Hzip Hwz.
  assert (Hrun : forall out',
            download_activity a fit (mkWorld (Dir l files) out')
            = guarded a (mkWorld (Dir l files) out')
                (Ok true,
                 mkWorld (Dir l (delete (artifact a ".zip") files))
                   (out' ++ [header a; Saved (artifact a ".fit")]))).
  { intros out'. rewrite download_activity_run.
    apply (f_equal (guarded a _)).
    unfold printed, artifact in *.
    cbn [downloader outdir stdout].
    rewrite (download_fit_empty _ _ _ _ _ _ _ Hdata Hzip Hwz).
    cbn [outdir stdout]. rewrite <- app_assoc. reflexivity. }
  assert (Hfit : delete (artifact a ".zip") files !! artifact a ".fit"
                 = files !! artifact a ".fit")
    by (apply lookup_delete_ne, zip_is_not_fit).
  split; [apply Hrun|]. split; [apply lookup_delete_eq|].
  split; [exact Hfit|]. split; [now rewrite Hfit|].
  cbn [download_each].
  erewrite bind_Ok by apply print_run.
  unfold printed. cbn [outdir stdout].
  unfold bind. rewrite Hrun. unfold guarded, ret.
  destruct (well_formed a); [|reflexivity].
  now rewrite <- app_assoc.
Qed.

End FitClaims.



Lemma fit_empty_archive_counts_witness :
  @zip_members demo_platform empty_zip = Some []
  /\ @download_activity _ one_empty_archive untimed fit (start (Dir true ∅))
     = (Ok true,
        mkWorld (Dir true (delete (artifact untimed ".zip") ∅))
          ([] ++ [header untimed; Saved (artifact untimed ".fit")])).
Proof.
  split; [reflexivity|].
  exact (proj1 (@fit_empty_archive_counts _ one_empty_archive untimed
                  empty_zip true ∅ [] eq_refl eq_refl eq_refl)).
Defined.

(* ================================================================== *)
(** * load_env *)
(* ================================================================== *)

Lemma load_lines_cons (line : string) (lines : list string)
    (environ : gmap string string) :
  load_lines (line :: lines) environ =
  match assignment line with
  | Some (key, value) =>
      match setenv key value environ with
      | (Ok _, environ') => load_lines lines environ'
      | (Raise e, environ') => (Raise e, environ')
      end
  | None => load_lines lines environ
  end.
Proof.
  cbn [load_lines]. unfold assignment.
  destruct (Str.truthy (strip line) && negb (startswith "#" (strip line))
            && Str.mem "=" (strip line)); reflexivity.
Qed.

Lemma setenv_settable (key value : string) (environ : gmap string string) :
  settable key value = true ->
  setenv key value environ = (Ok tt, <[key := value]> environ).
Proof.
  unfold settable, setenv.
  intros [[Hk Hnk]%andb_true_iff Hnv]%andb_true_iff.
  rewrite Hk. apply negb_true_iff in Hnk, Hnv. now rewrite Hnk, Hnv.
Qed.

(** What [setenv] raises on what it refuses: the null character is found
    first. *)
Lemma setenv_refused (key value : string) (environ : gmap string string) :
  settable key value = false ->
  exists e, setenv key value environ = (Raise e, environ)
            /\ exn_kind e
               = if Str.mem NUL key || Str.mem NUL value
                 then ValueError else OSError.
Proof.
  unfold settable, setenv. intros Hs.
  destruct (Str.mem NUL key || Str.mem NUL value) eqn:Hnul.
  - eexists. split; reflexivity.
  - apply orb_false_iff in Hnul as [Hk Hv]. rewrite Hk, Hv in Hs.
    cbn [negb] in Hs. rewrite !andb_true_r in Hs. rewrite Hs.
    eexists. split; reflexivity.
Qed.

(** X1.  When every assignment of the file is one [os.environ] accepts,
    [load_env] succeeds, and afterwards a variable has the value of the last
    line that assigns it, whatever it was before; a variable no line assigns
    is what it was.  Without a file the environment is unchanged. *)
Theorem load_env_last_assignment_wins (lines : list string)
    (environ : gmap string string) :
  Forall loadable lines ->
  load_env None environ = (Ok tt, environ)
  /\ exists environ',
       load_env (Some lines) environ = (Ok tt, environ')
       /\ forall key,
            environ' !! key =
            match assigned key lines with
            | Some value => Some value
            | None => environ !! key
            end.
Proof.
  intros Hall. split; [reflexivity|]. cbn [load_env].
  revert environ.
  induction Hall as [|line lines Hline _ IH]; intros environ.
  - exists environ. split; [reflexivity|]. intros key. reflexivity.
  - rewrite load_lines_cons. cbn [assigned].
    unfold loadable in Hline.
    destruct (assignment line) as [[key' value']|].
    + rewrite (setenv_settable _ _ _ Hline).
      destruct (IH (<[key' := value']> environ)) as (environ' & Hrun & Hget).
      exists environ'. split; [exact Hrun|].
      intros key. rewrite Hget.
      destruct (assigned key lines); [reflexivity|].
      destruct (String.eqb_spec key' key) as [->|Hne].
      * apply lookup_insert_eq.
      * now apply lookup_insert_ne.
    + destruct (IH environ) as (environ' & Hrun & Hget).
      exists environ'. split; [exact Hrun|].
      intros key. rewrite Hget. now destruct (assigned key lines).
Qed.

Lemma load_env_last_assignment_wins_witness :
  Forall loadable ["GARMIN_USERNAME=old"; "# comment"; "GARMIN_USERNAME = me"]
  /\ exists environ',
       load_env (Some ["GARMIN_USERNAME=old"; "# comment";
                       "GARMIN_USERNAME = me"])
         (<["GARMIN_USERNAME" := "inherited"]> ∅)
       = (Ok tt, environ')
       /\ environ' !! "GARMIN_USERNAME" = Some "me".
Proof.
  assert (H : Forall loadable
                ["GARMIN_USERNAME=old"; "# comment"; "GARMIN_USERNAME = me"]).
  { repeat (apply List.Forall_cons; [exact eq_refl || exact I|]).
    apply List.Forall_nil. }
  split; [exact H|].
  destruct (proj2 (load_env_last_assignment_wins _
                     (<["GARMIN_USERNAME" := "inherited"]> ∅) H))
    as (environ' & Hrun & Hget).
  exists environ'. split; [exact Hrun|]. exact (Hget "GARMIN_USERNAME").
Defined.

(** ** Lines that are skipped *)

Lemma mem_lstrip (c : ascii) (s : string) :
  Str.mem c (lstrip s) = true -> Str.mem c s = true.
Proof.
  induction s as [|c' s IH]; cbn [lstrip Str.mem]; [easy|].
  destruct (isspace c'); [|easy].
  intros H. rewrite (IH H). apply orb_true_r.
Qed.

Lemma mem_rstrip (c : ascii) (s : string) :
  Str.mem c (rstrip s) = true -> Str.mem c s = true.
Proof.
  induction s as [|c' s IH]; cbn [rstrip Str.mem]; [easy|].
  destruct (rstrip s) as [|c'' r].
  - destruct (isspace c'); cbn [Str.mem]; [easy|].
    rewrite orb_false_r. now intros ->.
  - cbn [Str.mem] in *. intros [->|H]%orb_true_iff; [reflexivity|].
    rewrite (IH H). apply orb_true_r.
Qed.

Lemma assignment_skipped (line : string) :
  skipped line -> assignment line = None.
Proof.
  unfold skipped, assignment. intros [Hblank|[Hcomment|Hequals]].
  - now rewrite Hblank.
  - rewrite Hcomment. now rewrite andb_false_r.
  - destruct (Str.mem "=" (strip line)) eqn:Hmem;
      [|now rewrite andb_false_r].
    apply mem_rstrip, mem_lstrip in Hmem. congruence.
Qed.

(** X2.  A file that holds only blank lines, comment lines (a [#] first,
    after the whitespace) and lines without an equals sign never fails and
    leaves the environment as it was. *)
Theorem load_env_skips (lines : list string) (environ : gmap string string) :
  Forall skipped lines ->
  load_env (Some lines) environ = (Ok tt, environ).
Proof.
  cbn [load_env]. induction 1 as [|line lines Hline _ IH]; [reflexivity|].
  now rewrite load_lines_cons, (assignment_skipped _ Hline).
Qed.

Lemma load_env_skips_witness :
  Forall skipped [""; "   "; "  # GARMIN_PASSWORD=secret"; "no equals sign"]
  /\ load_env (Some [""; "   "; "  # GARMIN_PASSWORD=secret";
                     "no equals sign"])
       (<["GARMIN_USERNAME" := "inherited"]> ∅)
     = (Ok tt, <["GARMIN_USERNAME" := "inherited"]> ∅).
Proof.
  assert (H : Forall skipped
                [""; "   "; "  # GARMIN_PASSWORD=secret"; "no equals sign"]).
  { apply List.Forall_cons; [left; reflexivity|].
    apply List.Forall_cons; [left; reflexivity|].
    apply List.Forall_cons; [right; left; reflexivity|].
    apply List.Forall_cons; [right; right; reflexivity|].
    apply List.Forall_nil. }
  split; [exact H|]. exact (load_env_skips _ _ H).
Defined.

(** X3.  A line whose name is empty, or whose name or value holds a null
    character, stops [load_env] with an exception, a [ValueError] for a null
    character and else an [OSError] for the empty name: the lines before it
    have been applied, the lines after it are not read. *)
Theorem load_env_stops_at_refused (before after_it : list string)
    (line key value : string) (environ environ1 : gmap string string) :
  load_env (Some before) environ = (Ok tt, environ1) ->
  assignment line = Some (key, value) ->
  settable key value = false ->
  exists e,
    load_env (Some (before ++ line :: after_it)%list) environ
    = (Raise e, environ1)
    /\ exn_kind e
       = if Str.mem NUL key || Str.mem NUL value then ValueError else OSError.
Proof.
  cbn [load_env]. revert environ.
  induction before as [|l before IH]; intros environ Hrun Hline Hset.
  - cbn [load_lines] in Hrun. injection Hrun as <-.
    cbn [app]. rewrite load_lines_cons, Hline.
    destruct (setenv_refused key value environ Hset) as (e & -> & He).
    eauto.
  - cbn [app]. rewrite load_lines_cons in *.
    destruct (assignment l) as [[k v]|]; [|eauto].
    destruct (setenv k v environ) as [[[]|e] environ']; [eauto|discriminate].
Qed.

Lemma load_env_stops_at_refused_witness :
  assignment "= secret" = Some ("", "secret")
  /\ exists e,
       load_env (Some (["GARMIN_USERNAME=me"]
                       ++ "= secret" :: ["GARMIN_OUTPUT_DIR=out"])%list) ∅
       = (Raise e, <["GARMIN_USERNAME" := "me"]> ∅)
       /\ exn_kind e = OSError.
Proof.
  split; [reflexivity|].
  exact (load_env_stops_at_refused ["GARMIN_USERNAME=me"]
           ["GARMIN_OUTPUT_DIR=out"] "= secret" "" "secret" ∅
           (<["GARMIN_USERNAME" := "me"]> ∅) eq_refl eq_refl eq_refl).
Defined.

(** ** Reading an assignment back *)

Lemma append_assoc (a b c : string) : (a +:+ b) +:+ c = a +:+ (b +:+ c).
Proof.
  induction a as [|x a IH]; [reflexivity|].
  rewrite !append_cons. now rewrite IH.
Qed.

Lemma mem_append (c : ascii) (a b : string) :
  Str.mem c (a +:+ b) = Str.mem c a || Str.mem c b.
Proof.
  induction a as [|x a IH]; [reflexivity|].
  rewrite append_cons. cbn [Str.mem]. now rewrite IH, orb_assoc.
Qed.

Lemma after_app (sep : ascii) (d rest : string) :
  Str.mem sep d = false -> after sep (d +:+ String sep rest) = rest.
Proof.
  induction d as [|c d IH].
  - intros _. rewrite append_nil. cbn [after]. now rewrite Ascii.eqb_refl.
  - rewrite append_cons. cbn [Str.mem after].
    intros [Hc Hd]%orb_false_iff. rewrite Ascii.eqb_sym in Hc.
    now rewrite Hc, IH.
Qed.

Lemma lstrip_spaces (ws s : string) :
  all_chars isspace ws = true -> lstrip (ws +:+ s) = lstrip s.
Proof.
  induction ws as [|c ws IH]; [reflexivity|].
  cbn [all_chars]. intros [Hc Hws]%andb_true_iff.
  rewrite append_cons. cbn [lstrip]. now rewrite Hc, IH.
Qed.

Lemma all_chars_append (p : ascii -> bool) (a b : string) :
  all_chars p (a +:+ b) = all_chars p a && all_chars p b.
Proof.
  induction a as [|x a IH]; [reflexivity|].
  rewrite append_cons. cbn [all_chars]. now rewrite IH, andb_assoc.
Qed.

Lemma lstrip_all_spaces (ws : string) :
  all_chars isspace ws = true -> lstrip ws = "".
Proof.
  induction ws as [|c ws IH]; [reflexivity|].
  cbn [all_chars lstrip]. intros [Hc Hws]%andb_true_iff.
  now rewrite Hc, IH.
Qed.

Lemma rstrip_all_spaces (ws : string) :
  all_chars isspace ws = true -> rstrip ws = "".
Proof.
  induction ws as [|c ws IH]; [reflexivity|].
  cbn [all_chars rstrip]. intros [Hc Hws]%andb_true_iff.
  now rewrite IH, Hc.
Qed.

Lemma rstrip_spaces (s ws : string) :
  all_chars isspace ws = true -> rstrip (s +:+ ws) = rstrip s.
Proof.
  intros Hws. induction s as [|c s IH].
  - rewrite append_nil. now apply rstrip_all_spaces.
  - rewrite append_cons. cbn [rstrip]. now rewrite IH.
Qed.

Lemma rstrip_cons (c : ascii) (s : string) :
  isspace c = false -> rstrip (String c s) = String c (rstrip s).
Proof. intros Hc. cbn [rstrip]. rewrite Hc. now destruct (rstrip s). Qed.

Lemma rstrip_through (a : string) (c : ascii) (s : string) :
  isspace c = false ->
  rstrip (a +:+ String c s) = a +:+ String c (rstrip s).
Proof.
  intros Hc. induction a as [|x a IH].
  - rewrite !append_nil. now apply rstrip_cons.
  - rewrite !append_cons. cbn [rstrip]. rewrite IH.
    destruct a; reflexivity.
Qed.

Lemma lstrip_length (s : string) :
  (String.length (lstrip s) <= String.length s)%nat.
Proof.
  induction s as [|c s IH]; cbn [lstrip]; [lia|].
  destruct (isspace c); cbn [String.length] in *; lia.
Qed.

(** A stripped string that is not empty starts with a character that is no
    whitespace. *)
Lemma stripped_head (s : string) :
  stripped s -> s <> "" ->
  exists c s', s = String c s' /\ isspace c = false.
Proof.
  intros [Hl _] Hne. destruct s as [|c s']; [contradiction|].
  exists c, s'. split; [reflexivity|].
  cbn [lstrip] in Hl. destruct (isspace c); [|reflexivity].
  pose proof (lstrip_length s') as Hlen. rewrite Hl in Hlen.
  cbn [String.length] in Hlen. lia.
Qed.

Lemma spaces_no_equals (ws : string) :
  all_chars isspace ws = true -> Str.mem "=" ws = false.
Proof.
  intros Hws. apply (all_chars_mem isspace _ _ Hws). reflexivity.
Qed.

Lemma strip_padded (ws1 s ws2 : string) :
  all_chars isspace ws1 = true -> all_chars isspace ws2 = true ->
  stripped s -> strip (ws1 +:+ s +:+ ws2) = s.
Proof.
  intros H1 H2 Hs. unfold strip. rewrite (lstrip_spaces _ _ H1).
  destruct s as [|c s'] eqn:Heq.
  - rewrite append_nil. now rewrite (lstrip_all_spaces _ H2).
  - rewrite <- Heq in *.
    destruct (stripped_head s Hs) as (c0 & s0 & Hshape & Hc0);
      [now rewrite Heq|].
    destruct Hs as [Hl Hr].
    rewrite Hshape at 1. rewrite append_cons. cbn [lstrip]. rewrite Hc0.
    rewrite <- append_cons, <- Hshape.
    now rewrite (rstrip_spaces _ _ H2).
Qed.

(** X4.  A line [name = value], with any whitespace before the name, around
    the equals sign and after the value, is read as the assignment of
    [value] to [name]: the whitespace is dropped, and only the first equals
    sign separates, so that the value may hold more of them.  The name is
    not empty, has no equals sign and does not start with [#]. *)
Theorem assignment_of_padded_line (ws1 ws2 ws3 ws4 key value : string) :
  all_chars isspace ws1 = true -> all_chars isspace ws2 = true ->
  all_chars isspace ws3 = true -> all_chars isspace ws4 = true ->
  stripped key -> key <> "" ->
  Str.mem "=" key = false -> startswith "#" key = false ->
  stripped value ->
  assignment (ws1 +:+ key +:+ ws2 +:+ "=" +:+ ws3 +:+ value +:+ ws4)
  = Some (key, value).
Proof.
  intros H1 H2 H3 H4 Hkey Hne Hequals Hhash Hvalue.
  destruct (stripped_head key Hkey Hne) as (c & k' & Hshape & Hc).
  set (r := ws3 +:+ value +:+ ws4).
  assert (Hline : strip (ws1 +:+ key +:+ ws2 +:+ "=" +:+ r)
                  = (key +:+ ws2) +:+ String "=" (rstrip r)).
  { unfold strip. rewrite (lstrip_spaces _ _ H1).
    rewrite Hshape at 1. rewrite append_cons. cbn [lstrip]. rewrite Hc.
    rewrite <- append_cons, <- Hshape.
    rewrite <- append_assoc.
    change ("=" +:+ r) with (String "=" r).
    now apply rstrip_through. }
  assert (Hleft : Str.mem "=" (key +:+ ws2) = false).
  { now rewrite mem_append, Hequals, (spaces_no_equals _ H2). }
  assert (Hr : strip (rstrip r) = value).
  { unfold r. rewrite <- append_assoc, (rstrip_spaces _ _ H4).
    destruct value as [|d v'] eqn:Hv.
    - rewrite (rstrip_all_spaces (ws3 +:+ ""))
        by now rewrite all_chars_append, H3.
      reflexivity.
    - rewrite <- Hv in *.
      destruct (stripped_head value Hvalue) as (d0 & v0 & Hvshape & Hd0);
        [now rewrite Hv|].
      destruct Hvalue as [Hvl Hvr].
      assert (Hkeep : rstrip (ws3 +:+ value) = ws3 +:+ value).
      { rewrite Hvshape. rewrite (rstrip_through _ _ _ Hd0).
        rewrite Hvshape in Hvr. rewrite (rstrip_cons _ _ Hd0) in Hvr.
        now injection Hvr as ->. }
      rewrite Hkeep. unfold strip.
      now rewrite (lstrip_spaces _ _ H3), Hvl. }
  unfold assignment. fold r. rewrite Hline.
  rewrite (before_app "=" _ _ Hleft), (after_app "=" _ _ Hleft), Hr.
  replace (strip (key +:+ ws2)) with key.
  2: { symmetry. apply (strip_padded "" key ws2); auto. }
  rewrite mem_append. cbn [Str.mem]. rewrite Ascii.eqb_refl.
  rewrite orb_true_r, andb_true_r.
  rewrite Hshape, !append_cons. cbn [Str.truthy startswith].
  rewrite Hshape in Hhash. cbn [startswith] in Hhash. now rewrite Hhash.
Qed.

Lemma assignment_of_padded_line_witness :
  assignment ("  " +:+ "GARMIN_PASSWORD" +:+ " " +:+ "=" +:+ " "
              +:+ "pa=ss word" +:+ "  ")
  = Some ("GARMIN_PASSWORD", "pa=ss word").
Proof.
  apply (assignment_of_padded_line "  " " " " " "  "
           "GARMIN_PASSWORD" "pa=ss word");
    try reflexivity; try discriminate; split; reflexivity.
Defined.

(* ================================================================== *)
(** * The names of the files of an activity *)
(* ================================================================== *)

Lemma sanitize_filename_truthy (x : string) :
  Str.truthy (sanitize_filename x) = true.
Proof.
  rewrite sanitize_filename_unfold.
  destruct (clean x) as [|c s]; reflexivity.
Qed.

(** X5.  The name [download_activity] passes to a downloader is never
    empty, so the files of an activity always have the long form
    [{date}_{name}_{id}{suffix}]: the short form without a name does not
    come up. *)
Theorem artifact_has_name (a : activity) (suffix : string) :
  safe_name_of a <> ""
  /\ artifact a suffix
     = date_of a +:+ "_" +:+ safe_name_of a +:+ "_"
       +:+ pretty (activityId a) +:+ suffix.
Proof.
  pose proof (sanitize_filename_truthy
                (str (default (Text "Unnamed Activity") (activityName a))))
    as Hne.
  fold (safe_name_of a) in Hne.
  split; [intros Heq; now rewrite Heq in Hne|].
  unfold artifact, file_name, name_part. rewrite Hne.
  now rewrite !append_assoc.
Qed.

(** X7.  An activity whose start time is missing, is [null], or does not
    parse, is filed under [unknown_date], and the names of its files decode
    to no date: they never count for the watermark. *)
Theorem artifact_of_unknown_date (a : activity) (suffix : string) :
  match startTimeLocal a with
  | Some (Text s) => Strptime.date_time s = None
  | Some Null => True
  | None => True
  end ->
  date_of a = "unknown_date" /\ decode_date (artifact a suffix) = None.
Proof.
  intros Hs.
  assert (Hdate : date_of a = "unknown_date").
  { unfold date_of, get_date_string.
    destruct (startTimeLocal a) as [[|s]|]; cbn [from_option id];
      [reflexivity|now rewrite Hs|reflexivity]. }
  split; [exact Hdate|].
  unfold artifact. rewrite Hdate.
  destruct (file_name_shape "unknown_date" (safe_name_of a) (activityId a)
              suffix) as [rest ->].
  reflexivity.
Qed.

Lemma artifact_of_unknown_date_witness :
  Strptime.date_time "2024-03-16T18:45:10" = None
  /\ decode_date (artifact mistimed ".fit") = None
  /\ decode_date (artifact untimed ".fit") = None.
Proof.
  split; [reflexivity|]. split.
  - exact (proj2 (artifact_of_unknown_date mistimed ".fit" eq_refl)).
  - exact (proj2 (artifact_of_unknown_date untimed ".fit" I)).
Defined.

(** ** One identifier, one file name *)

Lemma pretty_N_char_id (x : N) : id_char (pretty_N_char x) = true.
Proof. unfold pretty_N_char. repeat case_match; reflexivity. Qed.

Lemma pretty_N_go_id_chars (x : N) (s : string) :
  all_chars id_char s = true -> all_chars id_char (pretty_N_go x s) = true.
Proof.
  revert s. induction (N.lt_wf_0 x) as [x _ IH]; intros s Hs.
  destruct (N.eq_dec x 0%N) as [->|Hx].
  - now rewrite pretty_N_go_0.
  - rewrite pretty_N_go_step by lia. apply IH.
    + apply N.div_lt; lia.
    + cbn [all_chars]. now rewrite pretty_N_char_id, Hs.
Qed.

Lemma pretty_N_id_chars (x : N) : all_chars id_char (pretty x) = true.
Proof.
  unfold pretty, pretty_N. case_decide; [reflexivity|].
  now apply pretty_N_go_id_chars.
Qed.

(** The decimal notation of an identifier holds digits and a dash only. *)
Lemma pretty_Z_id_chars (i : Z) : all_chars id_char (pretty i) = true.
Proof.
  destruct i as [|p|p]; [reflexivity| |].
  - apply pretty_N_id_chars.
  - change (pretty (Z.neg p)) with ("-" +:+ pretty (N.pos p)).
    rewrite all_chars_append. now rewrite (pretty_N_id_chars (N.pos p)).
Qed.

Lemma pretty_Z_no_underscore (i : Z) : Str.mem "_" (pretty i) = false.
Proof. apply (all_chars_mem id_char _ _ (pretty_Z_id_chars i)). reflexivity. Qed.

(** ** The day a file name carries *)

Lemma pad2_no_underscore (n : Z) :
  0 <= n <= 99 -> Str.mem "_" (pad2 n) = false.
Proof.
  intros Hn. unfold pad2. cbn [Str.mem].
  rewrite (StrptimeFacts.digit_not_underscore _ (n / 10))
    by (apply digit_digit_char; Z.div_mod_to_equations; lia).
  rewrite (StrptimeFacts.digit_not_underscore _ (n mod 10))
    by (apply digit_digit_char; Z.div_mod_to_equations; lia).
  reflexivity.
Qed.

(** Before the year 1000 the files of an activity do not decode. *)
Lemma decode_date_short_year (start n : string) (i : Z) (suffix : string)
    (t : datetime) :
  Strptime.date_time start = Some t ->
  year t < 1000 ->
  decode_date (file_name (get_date_string start) n i suffix) = None.
Proof.
  intros Ht Hshort. unfold get_date_string, decode_date. rewrite Ht.
  destruct (StrptimeFacts.date_time_valid _ _ Ht) as [Hv _].
  rewrite before_file_name; [exact (date_strftime_short_year t Hv Hshort)|].
  apply valid_date_bounds in Hv as (Hy & Hm & Hd).
  pose proof (days_in_month_le (year t) (month t)).
  unfold strftime_date. rewrite !mem_append.
  rewrite pretty_Z_no_underscore, !pad2_no_underscore by lia.
  reflexivity.
Qed.

(** X6.  The files written for an activity whose start time parses are
    filed under the date [strftime] prints for it.  From the year 1000 on
    their names decode to the day of the start time, at midnight; before,
    the year is printed with fewer than four digits and the names decode to
    no date. *)
Theorem artifact_decodes_to_start_day (a : activity) (s suffix : string)
    (t : datetime) :
  startTimeLocal a = Some (Text s) ->
  Strptime.date_time s = Some t ->
  date_of a = strftime_date t
  /\ decode_date (artifact a suffix)
     = if 1000 <=? year t
       then Some (mkDatetime (year t) (month t) (day t) 0 0 0)
       else None.
Proof.
  intros Hs Ht. unfold artifact, date_of. rewrite Hs.
  cbn [from_option id].
  split; [unfold get_date_string; now rewrite Ht|].
  destruct (Z.leb_spec 1000 (year t)).
  - now apply decode_date_get_date_string.
  - now apply decode_date_short_year with (t := t).
Qed.

Lemma artifact_decodes_to_start_day_witness :
  Strptime.date_time "2024-03-16 18:45:10"
  = Some (mkDatetime 2024 3 16 18 45 10)
  /\ decode_date (artifact run_16 ".fit")
     = Some (mkDatetime 2024 3 16 0 0 0)
  /\ Strptime.date_time "0999-01-01 10:00:00"
     = Some (mkDatetime 999 1 1 10 0 0)
  /\ artifact (entry 107 "Old" "walking" "0999-01-01 10:00:00") ".fit"
     = "999-01-01_Old_107.fit"
  /\ decode_date (artifact (entry 107 "Old" "walking" "0999-01-01 10:00:00")
                    ".fit")
     = None.
Proof.
  split; [reflexivity|]. split; [|split; [reflexivity|split; [reflexivity|]]].
  - exact (proj2 (artifact_decodes_to_start_day run_16 "2024-03-16 18:45:10"
                    ".fit" (mkDatetime 2024 3 16 18 45 10) eq_refl eq_refl)).
  - exact (proj2 (artifact_decodes_to_start_day
                    (entry 107 "Old" "walking" "0999-01-01 10:00:00")
                    "0999-01-01 10:00:00" ".fit"
                    (mkDatetime 999 1 1 10 0 0) eq_refl eq_refl)).
Defined.

Lemma length_append (a b : string) :
  String.length (a +:+ b) = (String.length a + String.length b)%nat.
Proof.
  induction a as [|c a IH]; [reflexivity|].
  rewrite append_cons. cbn [String.length]. now rewrite IH.
Qed.

Lemma append_cancel_r (a b s : string) : a +:+ s = b +:+ s -> a = b.
Proof.
  revert b. induction a as [|c a IH]; intros [|c' b] Heq.
  - reflexivity.
  - apply (f_equal String.length) in Heq.
    rewrite append_nil, append_cons in Heq. cbn [String.length] in Heq.
    rewrite length_append in Heq. lia.
  - apply (f_equal String.length) in Heq.
    rewrite append_nil, append_cons in Heq. cbn [String.length] in Heq.
    rewrite length_append in Heq. lia.
  - rewrite !append_cons in Heq. injection Heq as -> Heq.
    f_equal. now apply IH.
Qed.

(** What follows the last underscore is determined by the whole. *)
Lemma last_segment (a1 a2 p1 p2 : string) :
  Str.mem "_" p1 = false -> Str.mem "_" p2 = false ->
  a1 +:+ String "_" p1 = a2 +:+ String "_" p2 -> p1 = p2.
Proof.
  intros H1 H2. revert a2. induction a1 as [|c a1 IH]; intros [|c' a2] Heq.
  - rewrite !append_nil in Heq. now injection Heq.
  - rewrite append_nil, append_cons in Heq. injection Heq as _ Heq.
    rewrite Heq, mem_append in H1. cbn [Str.mem] in H1.
    rewrite Ascii.eqb_refl, orb_true_r in H1. discriminate.
  - rewrite append_nil, append_cons in Heq. injection Heq as _ Heq.
    rewrite <- Heq, mem_append in H2. cbn [Str.mem] in H2.
    rewrite Ascii.eqb_refl, orb_true_r in H2. discriminate.
  - rewrite !append_cons in Heq. injection Heq as _ Heq. now apply (IH a2).
Qed.

Lemma file_name_last_segment (d n : string) (i : Z) (suffix : string) :
  file_name d n i suffix
  = ((d +:+ name_part n) +:+ String "_" (pretty i)) +:+ suffix.
Proof. unfold file_name. now rewrite !append_assoc. Qed.

(** X8.  The identifier makes the file name: whatever their dates and
    names, two activities with different identifiers never get the same file
    name for one suffix, and the [.json] file of one is never the
    [_full.json] file of another. *)
Theorem file_name_determines_id (d1 n1 d2 n2 : string) (i1 i2 : Z)
    (suffix : string) :
  (file_name d1 n1 i1 suffix = file_name d2 n2 i2 suffix -> i1 = i2)
  /\ file_name d1 n1 i1 "_full.json" <> file_name d2 n2 i2 ".json".
Proof.
  split.
  - rewrite !file_name_last_segment. intros Heq%append_cancel_r.
    apply last_segment in Heq; auto using pretty_Z_no_underscore.
    now apply (inj pretty) in Heq.
  - rewrite !file_name_last_segment.
    change "_full.json" with ("_full" +:+ ".json").
    rewrite <- append_assoc. intros Heq%append_cancel_r.
    change "_full" with (String "_" "full") in Heq.
    apply last_segment in Heq; auto using pretty_Z_no_underscore.
    pose proof (pretty_Z_id_chars i2) as Hchars.
    rewrite <- Heq in Hchars. discriminate Hchars.
Qed.

Lemma file_name_determines_id_witness :
  file_name "unknown" "date_Ride" 103 ".fit"
  = file_name "unknown_date" "Ride" 103 ".fit"
  /\ 103 = 103.
Proof.
  split; [reflexivity|].
  exact (proj1 (file_name_determines_id "unknown" "date_Ride"
                  "unknown_date" "Ride" 103 103 ".fit") eq_refl).
Defined.

(* ================================================================== *)
(** * How the watermark moves *)
(* ================================================================== *)

Lemma fields_inj (a b : datetime) : fields a = fields b -> a = b.
Proof. destruct a, b. unfold fields. cbn. now intros [= -> -> -> -> -> ->]. Qed.

Lemma datetime_gtb_antisym (a b : datetime) :
  datetime_gtb a b = false -> datetime_gtb b a = false -> a = b.
Proof.
  unfold datetime_gtb, datetime_compare.
  rewrite (lex_compare_antisym (fields a) (fields b)).
  destruct (lex_compare (fields a) (fields b)) eqn:Hcmp; cbn;
    try discriminate.
  intros _ _. now apply fields_inj, lex_compare_eq.
Qed.

(** Two directories that carry the same dates have the same watermark. *)
Lemma watermark_determined (files1 files2 : gmap string string)
    (ext : string) :
  (forall t, carries (Dir true files1) ext t
             <-> carries (Dir true files2) ext t) ->
  get_last_activity_date (Dir true files1) ext
  = get_last_activity_date (Dir true files2) ext.
Proof.
  intros Hsame.
  pose proof (get_last_activity_date_listable files1 ext) as H1.
  pose proof (get_last_activity_date_listable files2 ext) as H2.
  destruct (get_last_activity_date (Dir true files1) ext) as [m1|];
    destruct (get_last_activity_date (Dir true files2) ext) as [m2|].
  - destruct H1 as [Hc1 Hmax1], H2 as [Hc2 Hmax2]. f_equal.
    apply datetime_gtb_antisym.
    + apply Hmax2. now apply Hsame.
    + apply Hmax1. now apply Hsame.
  - destruct H1 as [Hc1 _]. now apply Hsame, H2 in Hc1.
  - destruct H2 as [Hc2 _]. now apply Hsame, H1 in Hc2.
  - reflexivity.
Qed.

Lemma carries_insert (files : gmap string string) (name data ext : string)
    (t : datetime) :
  carries (Dir true (<[name := data]> files)) ext t
  <-> (Str.endswith name ext = true /\ decode_date name = Some t)
      \/ carries (Dir true files) ext t.
Proof.
  unfold carries. cbn [files_of]. split.
  - intros (n & Hn & Hend & Hdec).
    destruct (decide (name = n)) as [->|Hne]; [left; auto|].
    right. exists n. rewrite lookup_insert_ne in Hn by exact Hne. auto.
  - intros [[Hend Hdec]|(n & Hn & Hend & Hdec)].
    + exists name. rewrite lookup_insert_eq. eauto.
    + exists n. split; [|auto].
      destruct (decide (name = n)) as [->|Hne].
      * rewrite lookup_insert_eq. eauto.
      * now rewrite lookup_insert_ne.
Qed.

(** X9.  The watermark of one format looks at the files of that format
    only: writing a file whose name has another extension, or carries no
    date, leaves it as it was. *)
Theorem watermark_ignores_other_files (files : gmap string string)
    (name data ext : string) :
  Str.endswith name ext = false \/ decode_date name = None ->
  get_last_activity_date (Dir true (<[name := data]> files)) ext
  = get_last_activity_date (Dir true files) ext.
Proof.
  intros Hother. apply watermark_determined. intros t.
  rewrite carries_insert. split; [|auto].
  intros [[Hend Hdec]|Hc]; [|exact Hc].
  destruct Hother; congruence.
Qed.

Lemma watermark_ignores_other_files_witness :
  Str.endswith "2024-12-31_Ride_9.gpx" ".fit" = false
  /\ get_last_activity_date
       (Dir true (<["2024-12-31_Ride_9.gpx" := "gpx data"]>
                    (files_of two_fit_files))) ".fit"
     = get_last_activity_date (Dir true (files_of two_fit_files)) ".fit".
Proof.
  split; [reflexivity|].
  apply (watermark_ignores_other_files (files_of two_fit_files)
           "2024-12-31_Ride_9.gpx" "gpx data" ".fit").
  left. reflexivity.
Defined.

(** The watermark after a file that carries no date is written. *)
Lemma get_last_activity_date_insert_undated (files : gmap string string)
    (name data ext : string) :
  decode_date name = None ->
  get_last_activity_date (Dir true (<[name := data]> files)) ext
  = get_last_activity_date (Dir true files) ext.
Proof.
  intros Hnone. apply watermark_determined. intros t.
  rewrite carries_insert. split; [|auto].
  intros [[Hend Hdec]|Hc]; [congruence|exact Hc].
Qed.

(** The watermark after a dated file of the format is written. *)
Lemma get_last_activity_date_insert (files : gmap string string)
    (name data ext : string) (t : datetime) :
  Str.endswith name ext = true ->
  decode_date name = Some t ->
  get_last_activity_date (Dir true (<[name := data]> files)) ext
  = Some match get_last_activity_date (Dir true files) ext with
         | Some old => if datetime_gtb t old then t else old
         | None => t
         end.
Proof.
  intros Hend Hdec.
  pose proof (get_last_activity_date_listable (<[name := data]> files) ext)
    as Hnew.
  pose proof (get_last_activity_date_listable files ext) as Hold.
  assert (Ht : carries (Dir true (<[name := data]> files)) ext t)
    by (apply carries_insert; auto).
  destruct (get_last_activity_date (Dir true (<[name := data]> files)) ext)
    as [m|]; [|now apply Hnew in Ht].
  destruct Hnew as [Hm Hmax]. f_equal.
  destruct (get_last_activity_date (Dir true files) ext) as [old|].
  - destruct Hold as [Hc Holdmax].
    apply datetime_gtb_antisym.
    + apply carries_insert in Hm as [[_ Hm]|Hm].
      * assert (m = t) by congruence. subst m.
        destruct (datetime_gtb t old) eqn:Hto;
          [apply datetime_gtb_irrefl|exact Hto].
      * destruct (datetime_gtb t old) eqn:Hto; [|now apply Holdmax].
        destruct (datetime_gtb m t) eqn:Hmt; [|reflexivity].
        assert (Hmo : datetime_gtb m old = true)
          by (apply (datetime_gtb_trans m t old Hmt);
              now apply datetime_gtb_asym).
        rewrite (Holdmax m Hm) in Hmo. discriminate.
    + destruct (datetime_gtb t old); apply Hmax; [exact Ht|].
      apply carries_insert. now right.
  - apply datetime_gtb_antisym; [|now apply Hmax].
    apply carries_insert in Hm as [[_ Hm]|Hm]; [|now apply Hold in Hm].
    assert (m = t) by congruence. subst m. apply datetime_gtb_irrefl.
Qed.

(** X10.  Writing a file of the format whose name carries the date [t]
    moves the watermark to the later of [t] and the watermark there was. *)
Theorem watermark_after_export (files : gmap string string)
    (name data ext : string) (t : datetime) :
  Str.endswith name ext = true ->
  decode_date name = Some t ->
  get_last_activity_date (Dir true (<[name := data]> files)) ext
  = Some match get_last_activity_date (Dir true files) ext with
         | Some old => if datetime_gtb t old then t else old
         | None => t
         end.
Proof.
  intros Hend Hdec.
  pose proof (get_last_activity_date_listable (<[name := data]> files) ext)
    as Hnew.
  pose proof (get_last_activity_date_listable files ext) as Hold.
  assert (Ht : carries (Dir true (<[name := data]> files)) ext t)
    by (apply carries_insert; auto).
  destruct (get_last_activity_date (Dir true (<[name := data]> files)) ext)
    as [m|]; [|now apply Hnew in Ht].
  destruct Hnew as [Hm Hmax]. f_equal.
  destruct (get_last_activity_date (Dir true files) ext) as [old|].
  - destruct Hold as [Hc Holdmax].
    apply datetime_gtb_antisym.
    + apply carries_insert in Hm as [[_ Hm]|Hm].
      * assert (m = t) by congruence. subst m.
        destruct (datetime_gtb t old) eqn:Hto;
          [apply datetime_gtb_irrefl|exact Hto].
      * destruct (datetime_gtb t old) eqn:Hto; [|now apply Holdmax].
        destruct (datetime_gtb m t) eqn:Hmt; [|reflexivity].
        assert (Hmo : datetime_gtb m old = true)
          by (apply (datetime_gtb_trans m t old Hmt);
              now apply datetime_gtb_asym).
        rewrite (Holdmax m Hm) in Hmo. discriminate.
    + destruct (datetime_gtb t old); apply Hmax; [exact Ht|].
      apply carries_insert. now right.
  - apply datetime_gtb_antisym; [|now apply Hmax].
    apply carries_insert in Hm as [[_ Hm]|Hm]; [|now apply Hold in Hm].
    assert (m = t) by congruence. subst m. apply datetime_gtb_irrefl.
Qed.

Lemma watermark_after_export_witness :
  decode_date "2024-02-10_Walk_5.fit" = Some (mkDatetime 2024 2 10 0 0 0)
  /\ get_last_activity_date
       (Dir true (<["2024-02-10_Walk_5.fit" := "fit data"]>
                    (files_of two_fit_files))) ".fit"
     = Some match get_last_activity_date
                   (Dir true (files_of two_fit_files)) ".fit" with
            | Some old =>
                if datetime_gtb (mkDatetime 2024 2 10 0 0 0) old
                then mkDatetime 2024 2 10 0 0 0 else old
            | None => mkDatetime 2024 2 10 0 0 0
            end.
Proof.
  split; [reflexivity|].
  apply (watermark_after_export (files_of two_fit_files)
           "2024-02-10_Walk_5.fit" "fit data" ".fit"
           (mkDatetime 2024 2 10 0 0 0)); reflexivity.
Defined.

(* ================================================================== *)
(** * The downloaders, one by one *)
(* ================================================================== *)

Lemma substring_suffix (p suffix : string) :
  String.substring (String.length p) (String.length suffix) (p +:+ suffix)
  = suffix.
Proof.
  induction p as [|c p IH].
  - rewrite append_nil. cbn [String.length].
    induction suffix as [|c s IH]; [reflexivity|].
    cbn [String.length String.substring]. now rewrite IH.
  - rewrite append_cons. cbn [String.length String.substring]. exact IH.
Qed.

Lemma endswith_append (p suffix : string) :
  Str.endswith (p +:+ suffix) suffix = true.
Proof.
  unfold Str.endswith. rewrite length_append.
  replace (String.length p + String.length suffix - String.length suffix)%nat
    with (String.length p) by lia.
  rewrite substring_suffix, String.eqb_refl, andb_true_r.
  apply Nat.leb_le. lia.
Qed.

Lemma endswith_file_name (d n : string) (i : Z) (suffix : string) :
  Str.endswith (file_name d n i suffix) suffix = true.
Proof. rewrite file_name_last_segment. apply endswith_append. Qed.

Section DownloadRuns.
Context `{Client}.

Lemma download_activity_saved (a : activity) (f : format) (w w' : world)
    (filename : string) :
  downloader f (activityId a) (date_of a) (safe_name_of a)
    (printed w [header a]) = (Ok filename, w') ->
  download_activity a f w = guarded a w (Ok true, printed w' [Saved filename]).
Proof. intros Hrun. rewrite download_activity_run. now rewrite Hrun. Qed.

Lemma download_activity_failed (a : activity) (f : format) (w w' : world)
    (e : exn) :
  downloader f (activityId a) (date_of a) (safe_name_of a)
    (printed w [header a]) = (Raise e, w') ->
  download_activity a f w
  = guarded a w (Ok false, printed w' [ActivityError (exn_msg e)]).
Proof. intros Hrun. rewrite download_activity_run. now rewrite Hrun. Qed.

(** The first request fails: the failure is reported and nothing is
    written. *)
Lemma download_activity_request_fails (a : activity) (f : format)
    (w : world) (e : exn) :
  request_fails a f e ->
  download_activity a f w
  = guarded a w (Ok false, printed w [header a; ActivityError (exn_msg e)]).
Proof.
  intros Hfail.
  rewrite (download_activity_failed a f w (printed w [header a]) e).
  - now rewrite printed_printed.
  - destruct f; cbn [downloader request_fails] in *;
      unfold download_gpx, download_tcx, download_fit, download_json;
      apply bind_Raise; unfold call; now rewrite Hfail.
Qed.

(** A gpx download that succeeds writes the bytes of the client under the
    name of the activity. *)
Lemma download_activity_gpx (a : activity) (data : string) (l : bool)
    (files : gmap string string) (out : list line) :
  client_download_activity (activityId a) GPX = Ok data ->
  write_denied (artifact a ".gpx") = false ->
  download_activity a gpx (mkWorld (Dir l files) out)
  = guarded a (mkWorld (Dir l files) out)
      (Ok true,
       mkWorld (Dir l (<[artifact a ".gpx" := data]> files))
         (out ++ [header a; Saved (artifact a ".gpx")])).
Proof.
  intros Hdata Hw.
  erewrite download_activity_saved; cycle 1.
  { cbn [downloader]. unfold download_gpx.
    erewrite bind_Ok by (unfold call; rewrite Hdata; reflexivity).
    erewrite bind_Ok by (apply write_file_run; exact Hw).
    reflexivity. }
  unfold printed. cbn [outdir stdout]. now rewrite <- app_assoc.
Qed.

(** A tcx download that succeeds writes the decoded text. *)
Lemma download_activity_tcx (a : activity) (data text : string) (l : bool)
    (files : gmap string string) (out : list line) :
  client_download_activity (activityId a) TCX = Ok data ->
  utf8_decode data = Some text ->
  write_denied (artifact a ".tcx") = false ->
  download_activity a tcx (mkWorld (Dir l files) out)
  = guarded a (mkWorld (Dir l files) out)
      (Ok true,
       mkWorld (Dir l (<[artifact a ".tcx" := text]> files))
         (out ++ [header a; Saved (artifact a ".tcx")])).
Proof.
  intros Hdata Hdecode Hw.
  erewrite download_activity_saved; cycle 1.
  { cbn [downloader]. unfold download_tcx.
    erewrite bind_Ok by (unfold call; rewrite Hdata; reflexivity).
    erewrite bind_Ok by (rewrite Hdecode; reflexivity).
    erewrite bind_Ok by (apply write_file_run; exact Hw).
    reflexivity. }
  unfold printed. cbn [outdir stdout]. now rewrite <- app_assoc.
Qed.

(** X11.  When the first request of the downloader fails, whatever the
    format, [download_activity] reports the failure and returns [False], and
    the output directory is what it was: nothing was written.  This is the outcome on
    a record whose name and type are not [null]; on the others
    [download_activity] raises before any request ([guarded]). *)
Theorem failed_request_writes_nothing (a : activity) (f : format)
    (w : world) (e : exn) :
  request_fails a f e ->
  download_activity a f w
  = guarded a w
      (Ok false, printed w [header a; ActivityError (exn_msg e)]).
Proof. apply download_activity_request_fails. Qed.

(** X12.  A gpx download that succeeds writes the bytes of the client,
    as they are, under the name of the activity, and nothing else.  When
    the start time of the activity parses, the watermark of the gpx format
    is afterwards the later of the day of the activity and the watermark
    there was if the year has four digits; before the year 1000 the file
    carries no date and the watermark is what it was.  The download is the
    one of a record whose name and type are not [null] ([guarded]). *)
Theorem gpx_download_moves_watermark (a : activity) (data s : string)
    (t : datetime) (files : gmap string string) (out : list line) :
  client_download_activity (activityId a) GPX = Ok data ->
  write_denied (artifact a ".gpx") = false ->
  startTimeLocal a = Some (Text s) ->
  Strptime.date_time s = Some t ->
  download_activity a gpx (mkWorld (Dir true files) out)
  = guarded a (mkWorld (Dir true files) out)
      (Ok true,
       mkWorld (Dir true (<[artifact a ".gpx" := data]> files))
         (out ++ [header a; Saved (artifact a ".gpx")]))
  /\ get_last_activity_date
       (Dir true (<[artifact a ".gpx" := data]> files)) ".gpx"
     = if 1000 <=? year t then
         Some match get_last_activity_date (Dir true files) ".gpx" with
              | Some old =>
                  if datetime_gtb
                       (mkDatetime (year t) (month t) (day t) 0 0 0) old
                  then mkDatetime (year t) (month t) (day t) 0 0 0
                  else old
              | None => mkDatetime (year t) (month t) (day t) 0 0 0
              end
       else get_last_activity_date (Dir true files) ".gpx".
Proof.
  intros Hdata Hw Hs Ht. split; [now apply download_activity_gpx|].
  assert (Hdate : date_of a = get_date_string s)
    by (unfold date_of; now rewrite Hs).
  destruct (Z.leb_spec 1000 (year t)).
  - apply get_last_activity_date_insert.
    + apply endswith_file_name.
    + unfold artifact. rewrite Hdate.
      now apply decode_date_get_date_string.
  - apply get_last_activity_date_insert_undated.
    unfold artifact. rewrite Hdate.
    now apply decode_date_short_year with (t := t).
Qed.

(** X13.  Bytes that are not UTF-8 make the tcx download fail before
    anything is written: the failure is reported, the directory is what it
    was.  This is the outcome on
    a record whose name and type are not [null]; on the others
    [download_activity] raises before any request ([guarded]). *)
Theorem tcx_undecodable_writes_nothing (a : activity) (data : string)
    (w : world) :
  client_download_activity (activityId a) TCX = Ok data ->
  utf8_decode data = None ->
  exists msg,
    download_activity a tcx w
    = guarded a w (Ok false, printed w [header a; ActivityError msg]).
Proof.
  intros Hdata Hdecode. exists "invalid start byte".
  rewrite (download_activity_failed a tcx w (printed w [header a])
             (mkExn UnicodeDecodeError "invalid start byte")).
  - now rewrite printed_printed.
  - cbn [downloader]. unfold download_tcx.
    erewrite bind_Ok by (unfold call; rewrite Hdata; reflexivity).
    apply bind_Raise. now rewrite Hdecode.
Qed.

(** X14.  The json download writes two files, the details first.  When
    both requests succeed both files are there and the activity is saved
    under the name of the first; when the second request fails the activity
    is reported as failed, but the details file stays.  This is the outcome on
    a record whose name and type are not [null]; on the others
    [download_activity] raises before any request ([guarded]). *)
Theorem json_writes_details_first (a : activity) (details : json_doc)
    (text : string) (l : bool) (files : gmap string string)
    (out : list line) :
  get_activity_details (activityId a) = Ok details ->
  json_dumps details = Some text ->
  write_denied (artifact a ".json") = false ->
  (forall (full : json_doc) (text_full : string),
     get_activity (activityId a) = Ok full ->
     json_dumps full = Some text_full ->
     write_denied (artifact a "_full.json") = false ->
     download_activity a json (mkWorld (Dir l files) out)
     = guarded a (mkWorld (Dir l files) out)
         (Ok true,
          mkWorld
            (Dir l (<[artifact a "_full.json" := text_full]>
                      (<[artifact a ".json" := text]> files)))
            (out ++ [header a; Saved (artifact a ".json")])))
  /\ (forall e : exn,
        get_activity (activityId a) = Raise e ->
        download_activity a json (mkWorld (Dir l files) out)
        = guarded a (mkWorld (Dir l files) out)
            (Ok false,
             mkWorld (Dir l (<[artifact a ".json" := text]> files))
               (out ++ [header a; ActivityError (exn_msg e)]))).
Proof.
  intros Hdetails Hdumps Hw.
  assert (Hstart : forall k : M string,
            bind (call (get_activity_details (activityId a)))
              (fun details => bind (dumps details)
                 (fun text => bind (write_file (artifact a ".json") text)
                    (fun _ => k)))
              (mkWorld (Dir l files) (out ++ [header a]))
            = k (mkWorld (Dir l (<[artifact a ".json" := text]> files))
                   (out ++ [header a]))).
  { intros k.
    erewrite bind_Ok by (unfold call; rewrite Hdetails; reflexivity).
    erewrite bind_Ok by (unfold dumps; rewrite Hdumps; reflexivity).
    erewrite bind_Ok by (apply write_file_run; exact Hw).
    reflexivity. }
  split.
  - intros full text_full Hfull Hdumps_full Hw_full.
    erewrite download_activity_saved; cycle 1.
    { cbn [downloader]. unfold download_json, printed. cbn [outdir stdout].
      fold (artifact a ".json") (artifact a "_full.json").
      rewrite Hstart.
      erewrite bind_Ok by (unfold call; rewrite Hfull; reflexivity).
      erewrite bind_Ok by (unfold dumps; rewrite Hdumps_full; reflexivity).
      erewrite bind_Ok by (apply write_file_run; exact Hw_full).
      reflexivity. }
    unfold printed. cbn [outdir stdout]. now rewrite <- app_assoc.
  - intros e Hfull.
    erewrite download_activity_failed; cycle 1.
    { cbn [downloader]. unfold download_json, printed. cbn [outdir stdout].
      fold (artifact a ".json") (artifact a "_full.json").
      rewrite Hstart.
      apply bind_Raise. unfold call. rewrite Hfull. reflexivity. }
    unfold printed. cbn [outdir stdout]. now rewrite <- app_assoc.
Qed.

End DownloadRuns.

(* ================================================================== *)
(** * A download touches the files of its activity only *)
(* ================================================================== *)

Lemma keeps_others_refl (names : list string) (w : world) :
  keeps_others names w w.
Proof. now intros n _. Qed.

Lemma keeps_others_trans (names : list string) (w1 w2 w3 : world) :
  keeps_others names w1 w2 -> keeps_others names w2 w3 ->
  keeps_others names w1 w3.
Proof. intros H12 H23 n Hn. now rewrite H23, H12. Qed.

Lemma keeps_others_printed (names : list string) (w : world)
    (lines : list line) :
  keeps_others names w (printed w lines).
Proof. now intros n _. Qed.

Lemma keeps_others_bind {A B} (names : list string) (m : M A)
    (k : A -> M B) (w : world) :
  keeps_others names w (snd (m w)) ->
  (forall a w1, m w = (Ok a, w1) -> keeps_others names w1 (snd (k a w1))) ->
  keeps_others names w (snd (bind m k w)).
Proof.
  intros Hm Hk. unfold bind.
  destruct (m w) as [[a|e] w1] eqn:Hrun; cbn [snd] in *; [|exact Hm].
  eapply keeps_others_trans; [exact Hm|]. now apply Hk.
Qed.

Lemma keeps_others_try_except {A} (names : list string) (m : M A)
    (h : exn -> M A) (w : world) :
  keeps_others names w (snd (m w)) ->
  (forall e w1, m w = (Raise e, w1) -> keeps_others names w1 (snd (h e w1))) ->
  keeps_others names w (snd (try_except m h w)).
Proof.
  intros Hm Hh. unfold try_except.
  destruct (m w) as [[a|e] w1] eqn:Hrun; cbn [snd] in *; [exact Hm|].
  eapply keeps_others_trans; [exact Hm|]. now apply Hh.
Qed.

Lemma keeps_others_call {A} (names : list string) (r : result A) (w : world) :
  keeps_others names w (snd (call r w)).
Proof. apply keeps_others_refl. Qed.

Section FrameFacts.
Context `{Platform}.

Lemma keeps_others_write_file (names : list string) (name data : string)
    (w : world) :
  In name names -> keeps_others names w (snd (write_file name data w)).
Proof.
  intros Hin n Hn. unfold write_file.
  destruct w as [[|l files] out]; cbn [outdir stdout]; [reflexivity|].
  destruct (write_denied name); cbn [snd outdir files_of]; [reflexivity|].
  apply lookup_insert_ne. congruence.
Qed.

Lemma keeps_others_rename (names : list string) (src dst : string)
    (w : world) :
  In src names -> In dst names ->
  keeps_others names w (snd (rename src dst w)).
Proof.
  intros Hsrc Hdst n Hn. unfold rename.
  destruct w as [[|l files] out]; cbn [outdir stdout files_of].
  - now destruct (∅ !! src).
  - destruct (files !! src); [|reflexivity].
    destruct (write_denied dst); cbn [snd outdir files_of]; [reflexivity|].
    rewrite lookup_insert_ne by congruence.
    apply lookup_delete_ne. congruence.
Qed.

Lemma keeps_others_unlink (names : list string) (name : string) (w : world) :
  In name names -> keeps_others names w (snd (unlink name w)).
Proof.
  intros Hin n Hn. unfold unlink.
  destruct w as [[|l files] out]; cbn [outdir stdout files_of].
  - now destruct (∅ !! name).
  - destruct (files !! name); [|reflexivity].
    cbn [snd outdir files_of]. apply lookup_delete_ne. congruence.
Qed.

Lemma zip_open_inv (name : string) (w w' : world)
    (members : list (string * string)) :
  zip_open name w = (Ok members, w') ->
  w' = w
  /\ exists data, files_of (outdir w) !! name = Some data
                  /\ zip_members data = Some members.
Proof.
  unfold zip_open. destruct (files_of (outdir w) !! name) as [data|];
    [|discriminate].
  destruct (zip_members data) as [ms|] eqn:Hms; [|discriminate].
  intros [= <- <-]. eauto.
Qed.

Lemma zip_open_same (name : string) (w : world) :
  snd (zip_open name w) = w.
Proof.
  unfold zip_open. destruct (files_of (outdir w) !! name) as [data|];
    [|reflexivity].
  now destruct (zip_members data).
Qed.

Lemma write_file_inv (name data : string) (w w' : world) :
  write_file name data w = (Ok tt, w') ->
  files_of (outdir w') !! name = Some data.
Proof.
  unfold write_file. destruct w as [[|l files] out]; cbn [outdir stdout];
    [discriminate|].
  destruct (write_denied name); [discriminate|].
  intros [= <-]. apply lookup_insert_eq.
Qed.

End FrameFacts.

Section DownloadFrame.
Context `{Client}.

Lemma keeps_others_downloader (a : activity) (f : format) (w : world) :
  keeps_others (may_touch a f) w
    (snd (downloader f (activityId a) (date_of a) (safe_name_of a) w)).
Proof.
  destruct f; cbn [downloader may_touch].
  - unfold download_gpx. fold (artifact a ".gpx").
    apply keeps_others_bind; [apply keeps_others_call|]. intros data w1 _.
    apply keeps_others_bind; [|intros; apply keeps_others_refl].
    apply keeps_others_write_file. now left.
  - unfold download_tcx. fold (artifact a ".tcx").
    apply keeps_others_bind; [apply keeps_others_call|]. intros data w1 _.
    apply keeps_others_bind.
    { destruct (utf8_decode data); apply keeps_others_refl. }
    intros text w2 _.
    apply keeps_others_bind; [|intros; apply keeps_others_refl].
    apply keeps_others_write_file. now left.
  - unfold download_fit. fold (artifact a ".zip") (artifact a ".fit").
    set (names := artifact a ".zip" :: artifact a ".fit" :: _).
    assert (Hzip : In (artifact a ".zip") names) by now left.
    assert (Hfit : In (artifact a ".fit") names) by (right; now left).
    unfold bind at 1, call.
    destruct (client_download_activity (activityId a) ORIGINAL)
      as [data|e] eqn:Hdata; [|apply keeps_others_refl].
    apply keeps_others_bind; [now apply keeps_others_write_file|].
    intros [] w1 Hwrite%write_file_inv.
    apply keeps_others_bind; [|intros; apply keeps_others_refl].
    apply keeps_others_try_except.
    + unfold extract_first.
      apply keeps_others_bind;
        [rewrite zip_open_same; apply keeps_others_refl|].
      intros members w2 (-> & data' & Hfile & Hmembers)%zip_open_inv.
      assert (data' = data) by congruence. subst data'.
      apply keeps_others_bind;
        [|intros; now apply keeps_others_unlink].
      destruct members as [|[member content] rest];
        [apply keeps_others_refl|].
      assert (Hmember : In member names).
      { unfold names. rewrite Hmembers. right. right. now left. }
      apply keeps_others_bind;
        [now apply keeps_others_write_file|].
      intros. now apply keeps_others_rename.
    + intros e w2 _. destruct (exn_kind e); try apply keeps_others_refl.
      now apply keeps_others_rename.
  - unfold download_json.
    fold (artifact a ".json") (artifact a "_full.json").
    apply keeps_others_bind; [apply keeps_others_call|]. intros details w1 _.
    apply keeps_others_bind.
    { unfold dumps. destruct (json_dumps details); apply keeps_others_refl. }
    intros text w2 _.
    apply keeps_others_bind;
      [apply keeps_others_write_file; now left|].
    intros _ w3 _.
    apply keeps_others_bind; [apply keeps_others_call|]. intros full w4 _.
    apply keeps_others_bind.
    { unfold dumps. destruct (json_dumps full); apply keeps_others_refl. }
    intros text' w5 _.
    apply keeps_others_bind; [|intros; apply keeps_others_refl].
    apply keeps_others_write_file. right. now left.
Qed.

(** X15.  Whatever the format and however the download ends, a file whose
    name is not one of the names of the activity (nor, for the fit format,
    the name of the first member of the archive) is after
    [download_activity] what it was before: there or not, with the same
    content. *)
Theorem download_touches_own_files (a : activity) (f : format) (w : world)
    (n : string) :
  ~ In n (may_touch a f) ->
  files_of (outdir (snd (download_activity a f w))) !! n
  = files_of (outdir w) !! n.
Proof.
  intros Hn. rewrite download_activity_run. unfold guarded.
  destruct (well_formed a); [|reflexivity].
  pose proof (keeps_others_downloader a f (printed w [header a]) n Hn) as Hk.
  destruct (downloader _ _ _ _ _) as [[filename|e] w']; exact Hk.
Qed.

End DownloadFrame.

Section FitRemnant.
Context `{Client}.

(** X16.  Only [BadZipFile] is caught around the extraction.  When the
    first member of the archive cannot be written, the error goes up to
    [download_activity], which reports the failure: the archive stays in the
    directory under its [.zip] name, and no [.fit] file is written.  This is the outcome on
    a record whose name and type are not [null]; on the others
    [download_activity] raises before any request ([guarded]). *)
Theorem fit_failed_extraction_leaves_archive (a : activity)
    (data member content : string) (rest : list (string * string))
    (l : bool) (files : gmap string string) (out : list line) :
  client_download_activity (activityId a) ORIGINAL = Ok data ->
  zip_members data = Some ((member, content) :: rest) ->
  write_denied (artifact a ".zip") = false ->
  write_denied member = true ->
  exists msg,
    download_activity a fit (mkWorld (Dir l files) out)
    = guarded a (mkWorld (Dir l files) out)
        (Ok false,
         mkWorld (Dir l (<[artifact a ".zip" := data]> files))
           (out ++ [header a; ActivityError msg])).
Proof.
  intros Hdata Hzip Hwz Hwm. exists "Permission denied".
  erewrite download_activity_failed; cycle 1.
  { cbn [downloader]. unfold download_fit, printed. cbn [outdir stdout].
    fold (artifact a ".zip") (artifact a ".fit").
    erewrite bind_Ok by (unfold call; rewrite Hdata; reflexivity).
    erewrite bind_Ok by (apply write_file_run; exact Hwz).
    apply bind_Raise.
    erewrite try_except_Raise; cycle 1.
    { unfold extract_first.
      erewrite bind_Ok
        by (erewrite zip_open_run by apply lookup_insert_eq;
            rewrite Hzip; reflexivity).
      apply bind_Raise. apply bind_Raise.
      unfold write_file. cbn [outdir stdout]. rewrite Hwm. reflexivity. }
    reflexivity. }
  unfold printed. cbn [outdir stdout exn_msg]. now rewrite <- app_assoc.
Qed.

End FitRemnant.

Lemma failed_request_writes_nothing_witness :
  @request_fails _ three_runs run_15 fit
    (mkExn GarminConnectConnectionError "timed out")
  /\ @download_activity _ three_runs run_15 fit (start two_fit_files)
     = (Ok false,
        printed (start two_fit_files)
          [header run_15; ActivityError "timed out"]).
Proof.
  split; [reflexivity|].
  exact (@failed_request_writes_nothing _ three_runs run_15 fit
           (start two_fit_files)
           (mkExn GarminConnectConnectionError "timed out") eq_refl).
Defined.

Lemma gpx_download_moves_watermark_witness :
  Strptime.date_time "2024-03-14 07:30:00"
  = Some (mkDatetime 2024 3 14 7 30 0)
  /\ @download_activity _ three_runs run_14 gpx (mkWorld (Dir true ∅) [])
     = (Ok true,
        mkWorld (Dir true (<[artifact run_14 ".gpx" := demo_zip "fit data"]> ∅))
          ([] ++ [header run_14; Saved (artifact run_14 ".gpx")])).
Proof.
  split; [reflexivity|].
  exact (proj1 (@gpx_download_moves_watermark _ three_runs run_14
                  (demo_zip "fit data") "2024-03-14 07:30:00"
                  (mkDatetime 2024 3 14 7 30 0) ∅ []
                  eq_refl eq_refl eq_refl eq_refl)).
Defined.

Lemma tcx_undecodable_writes_nothing_witness :
  @utf8_decode demo_platform not_utf8 = None
  /\ exists msg,
       @download_activity _ garbled run_14 tcx (start two_fit_files)
       = (Ok false,
          printed (start two_fit_files) [header run_14; ActivityError msg]).
Proof.
  split; [reflexivity|].
  exact (@tcx_undecodable_writes_nothing _ garbled run_14 not_utf8
           (start two_fit_files) eq_refl eq_refl).
Defined.

Lemma json_writes_details_first_witness :
  @get_activity _ half_json 101
  = Raise (mkExn GarminConnectConnectionError "Connection reset")
  /\ @download_activity _ half_json run_14 json (mkWorld (Dir true ∅) [])
     = (Ok false,
        mkWorld (Dir true (<[artifact run_14 ".json" := "{}"]> ∅))
          ([] ++ [header run_14; ActivityError "Connection reset"])).
Proof.
  split; [reflexivity|].
  exact (proj2 (@json_writes_details_first _ half_json run_14
                  ("{}" : @json_doc demo_platform) "{}" true ∅ []
                  eq_refl eq_refl eq_refl)
           (mkExn GarminConnectConnectionError "Connection reset") eq_refl).
Defined.

Lemma download_touches_own_files_witness :
  ~ In "2024-01-01_x_1.fit" (@may_touch _ three_runs run_14 fit)
  /\ files_of (outdir (snd (@download_activity _ three_runs run_14 fit
                              (start two_fit_files))))
     !! "2024-01-01_x_1.fit"
     = files_of (outdir (start two_fit_files)) !! "2024-01-01_x_1.fit".
Proof.
  assert (Hn : ~ In "2024-01-01_x_1.fit" (@may_touch _ three_runs run_14 fit)).
  { vm_compute. intros [Heq|[Heq|[Heq|[]]]]; discriminate Heq. }
  split; [exact Hn|].
  exact (@download_touches_own_files _ three_runs run_14 fit
           (start two_fit_files) "2024-01-01_x_1.fit" Hn).
Defined.

Lemma fit_failed_extraction_leaves_archive_witness :
  @write_denied strict_platform "12345_ACTIVITY.fit" = true
  /\ exists msg,
       @download_activity _ strict_client run_14 fit (mkWorld (Dir true ∅) [])
       = (Ok false,
          mkWorld
            (Dir true (<[artifact run_14 ".zip" := demo_zip "fit data"]> ∅))
            ([] ++ [header run_14; ActivityError msg])).
Proof.
  split; [reflexivity|].
  exact (@fit_failed_extraction_leaves_archive _ strict_client run_14
           (demo_zip "fit data") "12345_ACTIVITY.fit" "fit data" [] true ∅ []
           eq_refl eq_refl eq_refl eq_refl).
Defined.

(* ================================================================== *)
(** * How a run ends *)
(* ================================================================== *)

Lemma returns_zero_bind {A} (m : M A) (k : A -> M Z) :
  (forall a, returns_zero (k a)) -> returns_zero (bind m k).
Proof.
  intros Hk w. unfold bind. destruct (m w) as [[a|e] w']; [apply Hk|exact I].
Qed.

Lemma returns_zero_ret : returns_zero (ret 0).
Proof. now intros w. Qed.

Section RunEnds.
Context `{Client}.

Lemma export_returns_zero (args : arguments) (last_date : option datetime) :
  returns_zero (export args last_date).
Proof.
  unfold export.
  apply returns_zero_bind. intros _.
  apply returns_zero_bind. intros _.
  apply returns_zero_bind. intros [|a activities].
  - apply returns_zero_bind. intros _. apply returns_zero_ret.
  - apply returns_zero_bind. intros _.
    apply returns_zero_bind. intros kept.
    destruct last_date as [last_date|], kept as [|b kept];
      repeat (apply returns_zero_bind; intros ?); apply returns_zero_ret.
Qed.

(** [main] with credentials missing. *)
Lemma main_refuses (args : arguments) (w : world) :
  credentials_ok args = false ->
  main args w
  = (Ok 1,
     printed w [if missing (username args) then UsernameRequired
                else PasswordRequired;
                TokenstoreNotFound]).
Proof.
  unfold credentials_ok, main. intros Hcred.
  destruct (missing (username args)) eqn:Huser;
    destruct tokenstore_exists eqn:Hstore;
    destruct (missing (password args)) eqn:Hpass;
    try discriminate Hcred; cbn [negb andb];
    unfold bind, print, ret, printed; cbn [outdir stdout];
    now rewrite <- app_assoc.
Qed.

(** X17.  Without a user name, or with a user name but neither a
    password nor a token store, [main] returns 1 at once, after two lines
    that say what is missing: the output directory is not created and
    nothing is requested from the client. *)
Theorem main_without_credentials (args : arguments) (w : world) :
  credentials_ok args = false ->
  main args w
  = (Ok 1,
     printed w [if missing (username args) then UsernameRequired
                else PasswordRequired;
                TokenstoreNotFound]).
Proof.
  unfold credentials_ok, main. intros Hcred.
  destruct (missing (username args)) eqn:Huser;
    destruct tokenstore_exists eqn:Hstore;
    destruct (missing (password args)) eqn:Hpass;
    try discriminate Hcred; cbn [negb andb];
    unfold bind, print, ret, printed; cbn [outdir stdout];
    now rewrite <- app_assoc.
Qed.

(** X18.  [main] never lets an exception of the [try] block through: it
    always returns a status, and the status is 0 or 1. *)
Theorem main_returns_status (args : arguments) (w : world) :
  exists (status : Z) (w' : world),
    main args w = (Ok status, w') /\ (status = 0 \/ status = 1).
Proof.
  destruct (credentials_ok args) eqn:Hcred.
  - rewrite (main_run args w Hcred). unfold try_except.
    set (w0 := mkWorld _ _).
    pose proof (export_returns_zero args (watermark args (outdir w)) w0)
      as Hzero.
    destruct (export args (watermark args (outdir w)) w0) as [[status|e] w'].
    + exists status, w'. auto.
    + rewrite report_run. eauto.
  - rewrite (main_refuses args w Hcred). eauto.
Qed.

(** The incremental filter leaves nothing: [export] says so and
    returns 0. *)
Lemma export_nothing_new (args : arguments) (last_date : datetime)
    (w : world) (activities : list activity) :
  login_outcome = Ok tt ->
  get_activities 0 (count args) = Ok activities ->
  activities <> [] ->
  Forall well_timed activities ->
  List.filter (started_after last_date) activities = [] ->
  export args (Some last_date) w
  = (Ok 0,
     printed w [Connecting; Authenticated; Fetching (count args);
                Found (length activities); FilteredOut (length activities);
                NoNewActivities]).
Proof.
  intros Hlogin Hacts Hne Hwt Hnone. unfold export.
  rewrite (export_fetch args (Some last_date) w _ Hlogin).
  erewrite bind_Ok by (unfold call; rewrite Hacts; reflexivity).
  destruct activities as [|a0 rest] eqn:Hlist; [contradiction|].
  rewrite <- Hlist in *. cbv beta iota.
  erewrite bind_Ok by apply print_run. rewrite printed_printed.
  erewrite bind_Ok; cycle 1.
  { erewrite bind_Ok
      by (unfold call; rewrite (filter_since_filter _ _ Hwt), Hnone;
          reflexivity).
    cbn [length]. rewrite Nat.sub_0_r.
    assert (Hpos : (0 <? length activities)%nat = true)
      by (rewrite Hlist; reflexivity).
    rewrite Hpos.
    erewrite bind_Ok by apply print_run. reflexivity. }
  cbv beta iota.
  erewrite bind_Ok by apply print_run.
  unfold ret. rewrite !printed_printed. reflexivity.
Qed.

(** X19.  An incremental run that finds a watermark and no activity
    started after it ends with status 0 and the line that says there is
    nothing new: no activity is dispatched, and the files of the output
    directory are what they were. *)
Theorem main_nothing_new (args : arguments) (w : world)
    (last_date : datetime) (activities : list activity) :
  credentials_ok args = true ->
  login_outcome = Ok tt ->
  get_activities 0 (count args) = Ok activities ->
  activities <> [] ->
  watermark args (outdir w) = Some last_date ->
  Forall well_timed activities ->
  List.filter (started_after last_date) activities = [] ->
  fst (main args w) = Ok 0
  /\ outdir (snd (main args w)) = outdir w
  /\ attempted (output_of w (snd (main args w))) = []
  /\ last (output_of w (snd (main args w))) = Some NoNewActivities.
Proof.
  intros Hcred Hlogin Hacts Hne Hwm Hwt Hnone.
  rewrite (main_run args w Hcred), Hwm.
  rewrite (try_except_Ok _ _ _ _ _
             (export_nothing_new args last_date _ activities
                Hlogin Hacts Hne Hwt Hnone)).
  cbn [fst snd]. unfold printed. cbn [outdir stdout].
  assert (Hdir : made (outdir w) = outdir w).
  { unfold watermark in Hwm. destruct (incremental args); [|discriminate].
    destruct (outdir w); [discriminate Hwm|reflexivity]. }
  rewrite (output_of_app w _
             (preamble args (outdir w)
              ++ [Connecting; Authenticated; Fetching (count args);
                  Found (length activities);
                  FilteredOut (length activities); NoNewActivities]))
    by (cbn [stdout]; now rewrite <- app_assoc).
  split; [reflexivity|]. split; [exact Hdir|]. split.
  - rewrite attempted_app. unfold preamble.
    destruct (incremental args); [destruct (watermark _ _)|]; reflexivity.
  - change [Connecting; Authenticated; Fetching (count args);
            Found (length activities); FilteredOut (length activities);
            NoNewActivities]
      with ([Connecting; Authenticated; Fetching (count args);
             Found (length activities); FilteredOut (length activities)]
            ++ [NoNewActivities])%list.
    rewrite app_assoc. apply last_snoc.
Qed.

(** A start time that does not parse makes [export] raise in the filter. *)
Lemma export_filter_raises (args : arguments) (last_date : datetime)
    (w : world) (activities : list activity) :
  login_outcome = Ok tt ->
  get_activities 0 (count args) = Ok activities ->
  Exists (fun a => start_of a = None) activities ->
  exists e,
    export args (Some last_date) w
    = (Raise e,
       printed w [Connecting; Authenticated; Fetching (count args);
                  Found (length activities)])
    /\ report_lines e = [UnexpectedError (exn_msg e)].
Proof.
  intros Hlogin Hacts Hbad.
  destruct (filter_since_raises last_date activities Hbad) as (e & He & Hkind).
  exists e. split;
    [|unfold report_lines; destruct Hkind as [-> | ->]; reflexivity].
  unfold export.
  rewrite (export_fetch args (Some last_date) w _ Hlogin).
  erewrite bind_Ok by (unfold call; rewrite Hacts; reflexivity).
  destruct activities as [|a0 rest] eqn:Hlist; [inversion Hbad|].
  rewrite <- Hlist in *. cbv beta iota.
  erewrite bind_Ok by apply print_run. rewrite printed_printed.
  apply bind_Raise. apply bind_Raise. unfold call. now rewrite He.
Qed.

(** X20.  An activity whose start time is there but is no string that
    parses ([null] included) is treated in two ways.  A run with a watermark
    stops in the filter: status 1, an unexpected error reported, no activity
    dispatched, the files of the directory as they were.  A run without a
    watermark does not parse start times outside [get_date_string]: it
    dispatches the activities listed, in order, up to the first record whose
    name or type is [null]; when there is no such record that is every
    activity, the one with the start time that does not parse included, and
    the status is 0. *)
Theorem main_unparseable_start_time (args : arguments) (w : world)
    (activities : list activity) :
  credentials_ok args = true ->
  login_outcome = Ok tt ->
  get_activities 0 (count args) = Ok activities ->
  Exists (fun a => start_of a = None) activities ->
  match watermark args (outdir w) with
  | Some _ =>
      fst (main args w) = Ok 1
      /\ outdir (snd (main args w)) = outdir w
      /\ attempted (output_of w (snd (main args w))) = []
      /\ exists msg,
           last (output_of w (snd (main args w)))
           = Some (UnexpectedError msg)
  | None =>
      fst (main args w)
      = Ok match malformed activities with
           | None => 0
           | Some _ => 1
           end
      /\ attempted (output_of w (snd (main args w)))
         = map header (ready activities)
      /\ (malformed activities = None -> ready activities = activities)
  end.
Proof.
  intros Hcred Hlogin Hacts Hbad.
  destruct (watermark args (outdir w)) as [last_date|] eqn:Hwm.
  - destruct (export_filter_raises args last_date
                (mkWorld (made (outdir w))
                   (stdout w ++ preamble args (outdir w)))
                activities Hlogin Hacts Hbad) as (e & Hrun & Hlines).
    rewrite (main_run args w Hcred), Hwm.
    rewrite (try_except_Raise _ _ _ _ _ Hrun), report_run.
    cbn [fst snd]. unfold printed. cbn [outdir stdout].
    assert (Hdir : made (outdir w) = outdir w).
    { unfold watermark in Hwm. destruct (incremental args); [|discriminate].
      destruct (outdir w); [discriminate Hwm|reflexivity]. }
    rewrite Hlines.
    rewrite (output_of_app w _
               (preamble args (outdir w)
                ++ [Connecting; Authenticated; Fetching (count args);
                    Found (length activities)]
                ++ [UnexpectedError (exn_msg e)]))
      by (cbn [stdout]; now rewrite <- !app_assoc).
    split; [reflexivity|]. split; [exact Hdir|]. split.
    + rewrite !attempted_app. unfold preamble.
      destruct (incremental args); [destruct (watermark _ _)|]; reflexivity.
    + exists (exn_msg e). rewrite !app_assoc. apply last_snoc.
  - destruct (main_downloads args w activities Hcred Hlogin Hacts)
      as (Hstatus & Hattempted & _).
    + rewrite Hwm. now intros [? ?].
    + rewrite Hwm. cbn [to_download]. intros ->. inversion Hbad.
    + rewrite Hwm in Hstatus, Hattempted. cbn [to_download] in *.
      split; [exact Hstatus|]. split; [exact Hattempted|].
      apply malformed_ready.
Qed.

(** X21.  A run that is asked for all files, or finds no file of the
    format with a date in its name, has no watermark: it dispatches the
    activities the client lists, in the order of the list, whatever else the
    directory holds, up to the first record whose name or type is [null],
    on which it ends with status 1.  When there is no such record every
    listed activity is dispatched, and the run ends with status 0 and the
    summary. *)
Theorem main_without_watermark_downloads_all (args : arguments) (w : world)
    (activities : list activity) :
  credentials_ok args = true ->
  login_outcome = Ok tt ->
  get_activities 0 (count args) = Ok activities ->
  activities <> [] ->
  all args = true
  \/ get_last_activity_date (made (outdir w)) (format_ext (arg_format args))
     = None ->
  fst (main args w)
  = Ok match malformed activities with
       | None => 0
       | Some _ => 1
       end
  /\ attempted (output_of w (snd (main args w)))
     = map header (ready activities)
  /\ (malformed activities = None ->
      ready activities = activities
      /\ last (output_of w (snd (main args w)))
         = Some (ExportComplete
                   (succeeded (output_of w (snd (main args w))))
                   (length activities))).
Proof.
  intros Hcred Hlogin Hacts Hne Hall.
  assert (Hwm : watermark args (outdir w) = None).
  { unfold watermark, incremental. destruct Hall as [->|Hnone];
      [reflexivity|]. now destruct (if all args then _ else _). }
  destruct (main_downloads args w activities Hcred Hlogin Hacts)
    as (Hstatus & Hattempted & _ & Hlast).
  - rewrite Hwm. now intros [? ?].
  - now rewrite Hwm.
  - rewrite Hwm in Hstatus, Hattempted, Hlast. cbn [to_download] in *.
    split; [exact Hstatus|]. split; [exact Hattempted|].
    intros Hnone. split; [now apply malformed_ready|].
    rewrite Hlast, Hnone. reflexivity.
Qed.

End RunEnds.

Lemma main_without_credentials_witness :
  @credentials_ok _ no_store (mkArguments None None 10 fit true false) = false
  /\ @main _ no_store (mkArguments None None 10 fit true false) (start NoDir)
     = (Ok 1, printed (start NoDir) [UsernameRequired; TokenstoreNotFound]).
Proof.
  split; [reflexivity|].
  exact (@main_without_credentials _ no_store
           (mkArguments None None 10 fit true false) (start NoDir) eq_refl).
Defined.

Lemma main_nothing_new_witness :
  watermark (demo_arguments fit false) two_fit_files
  = Some (mkDatetime 2024 3 15 0 0 0)
  /\ fst (@main _ old_runs (demo_arguments fit false) (start two_fit_files))
     = Ok 0
  /\ outdir (snd (@main _ old_runs (demo_arguments fit false)
                    (start two_fit_files)))
     = two_fit_files.
Proof.
  split; [vm_compute; reflexivity|].
  destruct (@main_nothing_new _ old_runs (demo_arguments fit false)
              (start two_fit_files) (mkDatetime 2024 3 15 0 0 0) [run_14])
    as (Hstatus & Hdir & _).
  - reflexivity.
  - reflexivity.
  - reflexivity.
  - discriminate.
  - vm_compute; reflexivity.
  - apply List.Forall_cons; [eexists; reflexivity|apply List.Forall_nil].
  - reflexivity.
  - split; [exact Hstatus|exact Hdir].
Defined.

Lemma main_unparseable_start_time_witness :
  Exists (fun a => start_of a = None) [run_16; mistimed]
  /\ fst (@main _ mistimed_runs (demo_arguments fit false)
            (start two_fit_files)) = Ok 1
  /\ fst (@main _ mistimed_runs (demo_arguments fit true)
            (start two_fit_files)) = Ok 0
  /\ attempted
       (output_of (start two_fit_files)
          (snd (@main _ mistimed_runs (demo_arguments fit true)
                  (start two_fit_files))))
     = [header run_16; header mistimed].
Proof.
  assert (Hbad : Exists (fun a => start_of a = None) [run_16; mistimed]).
  { apply Exists_cons_tl, Exists_cons_hd. reflexivity. }
  split; [exact Hbad|]. split.
  - pose proof (@main_unparseable_start_time _ mistimed_runs
                  (demo_arguments fit false) (start two_fit_files)
                  [run_16; mistimed] eq_refl eq_refl eq_refl Hbad) as Hrun.
    assert (Hwm : watermark (demo_arguments fit false)
                    (outdir (start two_fit_files))
                  = Some (mkDatetime 2024 3 15 0 0 0))
      by (vm_compute; reflexivity).
    rewrite Hwm in Hrun. exact (proj1 Hrun).
  - pose proof (@main_unparseable_start_time _ mistimed_runs
                  (demo_arguments fit true) (start two_fit_files)
                  [run_16; mistimed] eq_refl eq_refl eq_refl Hbad) as Hrun.
    split; [exact (proj1 Hrun)|exact (proj1 (proj2 Hrun))].
Defined.

Lemma main_without_watermark_downloads_all_witness :
  all (demo_arguments fit true) = true
  /\ fst (@main _ three_runs (demo_arguments fit true) (start two_fit_files))
     = Ok 0
  /\ attempted
       (output_of (start two_fit_files)
          (snd (@main _ three_runs (demo_arguments fit true)
                  (start two_fit_files))))
     = map header [run_16; run_15; run_14]
  /\ last (output_of (start two_fit_files)
             (snd (@main _ three_runs (demo_arguments fit true)
                     (start two_fit_files))))
     = Some (ExportComplete
               (succeeded
                  (output_of (start two_fit_files)
                     (snd (@main _ three_runs (demo_arguments fit true)
                             (start two_fit_files)))))
               3).
Proof.
  split; [reflexivity|].
  destruct (@main_without_watermark_downloads_all _ three_runs
              (demo_arguments fit true) (start two_fit_files)
              [run_16; run_15; run_14])
    as (Hstatus & Hattempted & Hlast).
  - reflexivity.
  - reflexivity.
  - reflexivity.
  - discriminate.
  - left. reflexivity.
  - split; [exact Hstatus|]. split; [exact Hattempted|].
    exact (proj2 (Hlast eq_refl)).
Defined.

(* ================================================================== *)
(** * The same day, again *)
(* ================================================================== *)

Lemma keeps_dir_ret {A} (a : A) : keeps_dir (ret a).
Proof. now intros w. Qed.

Lemma keeps_dir_raise {A} (e : exn) : keeps_dir (@raise A e).
Proof. now intros w. Qed.

Lemma keeps_dir_call {A} (r : result A) : keeps_dir (call r).
Proof. now intros w. Qed.

Lemma keeps_dir_print (l : line) : keeps_dir (print l).
Proof. now intros w. Qed.

Lemma keeps_dir_bind {A B} (m : M A) (k : A -> M B) :
  keeps_dir m -> (forall a, keeps_dir (k a)) -> keeps_dir (bind m k).
Proof.
  intros Hm Hk w Hw. unfold bind. specialize (Hm w Hw).
  destruct (m w) as [[a|e] w']; cbn [snd] in *; [|exact Hm].
  now apply Hk.
Qed.

Lemma keeps_dir_try_except {A} (m : M A) (h : exn -> M A) :
  keeps_dir m -> (forall e, keeps_dir (h e)) -> keeps_dir (try_except m h).
Proof.
  intros Hm Hh w Hw. unfold try_except. specialize (Hm w Hw).
  destruct (m w) as [[a|e] w']; cbn [snd] in *; [exact Hm|].
  now apply Hh.
Qed.

Lemma keeps_dir_write_file `{Platform} (name data : string) :
  keeps_dir (write_file name data).
Proof.
  intros w Hw. unfold write_file.
  destruct (outdir w) eqn:Hd; [contradiction|].
  destruct (write_denied name); cbn; [now rewrite Hd|discriminate].
Qed.

Lemma keeps_dir_rename `{Platform} (src dst : string) :
  keeps_dir (rename src dst).
Proof.
  intros w Hw. unfold rename.
  destruct (files_of (outdir w) !! src); [|exact Hw].
  destruct (outdir w) eqn:Hd; [contradiction|].
  destruct (write_denied dst); cbn; [now rewrite Hd|discriminate].
Qed.

Lemma keeps_dir_unlink (name : string) : keeps_dir (unlink name).
Proof.
  intros w Hw. unfold unlink.
  destruct (files_of (outdir w) !! name); [|exact Hw].
  destruct (outdir w) eqn:Hd; [contradiction|]. discriminate.
Qed.

Lemma keeps_dir_zip_open `{Platform} (name : string) :
  keeps_dir (zip_open name).
Proof.
  intros w Hw. unfold zip_open.
  destruct (files_of (outdir w) !! name) as [data|]; [|exact Hw].
  now destruct (zip_members data).
Qed.

Create HintDb keeps_dir discriminated.
#[export] Hint Resolve keeps_dir_ret keeps_dir_raise keeps_dir_call
  keeps_dir_print keeps_dir_write_file keeps_dir_rename keeps_dir_unlink
  keeps_dir_zip_open : keeps_dir.
#[export] Hint Extern 2 (keeps_dir (bind _ _)) =>
  apply keeps_dir_bind; [|intros ?] : keeps_dir.
#[export] Hint Extern 2 (keeps_dir (try_except _ _)) =>
  apply keeps_dir_try_except; [|intros ?] : keeps_dir.
#[export] Hint Extern 3 (keeps_dir (match ?x with _ => _ end)) =>
  destruct x : keeps_dir.

Section SameDay.
Context `{Client}.

Lemma keeps_dir_download_activity (a : activity) (f : format) :
  keeps_dir (download_activity a f).
Proof.
  unfold download_activity.
  destruct f; cbn [downloader];
    unfold download_gpx, download_tcx, download_fit, download_json,
      extract_first, dumps, os_error;
    auto 30 with keeps_dir.
Qed.

Lemma keeps_dir_download_each (activities : list activity) (f : format)
    (i total success_count : nat) :
  keeps_dir (download_each activities f i total success_count).
Proof.
  revert i success_count.
  induction activities as [|a activities IH]; intros i success_count;
    cbn [download_each]; [apply keeps_dir_ret|].
  apply keeps_dir_bind; [apply keeps_dir_print|]. intros _.
  apply keeps_dir_bind; [apply keeps_dir_download_activity|]. intros ok.
  apply IH.
Qed.

(** The details file of a json download, however the rest of it goes. *)
Lemma download_json_details (activity_id : Z) (date_str activity_name : string)
    (details : json_doc) (text : string) (l : bool)
    (files : gmap string string) (out : list line) :
  get_activity_details activity_id = Ok details ->
  json_dumps details = Some text ->
  write_denied (file_name date_str activity_name activity_id ".json") = false ->
  files_of (outdir (snd (download_json activity_id date_str activity_name
                           (mkWorld (Dir l files) out))))
  !! file_name date_str activity_name activity_id ".json" = Some text.
Proof.
  intros Hdetails Hdumps Hw. unfold download_json.
  erewrite bind_Ok by (unfold call; rewrite Hdetails; reflexivity).
  erewrite bind_Ok by (unfold dumps; rewrite Hdumps; reflexivity).
  erewrite bind_Ok by (apply write_file_run; exact Hw).
  unfold bind, call, dumps, write_file, ret, raise, os_error.
  cbn [outdir stdout].
  destruct (get_activity activity_id) as [full|e]; cbn [snd outdir files_of];
    [|apply lookup_insert_eq].
  destruct (json_dumps full) as [text_full|]; cbn [snd outdir files_of];
    [|apply lookup_insert_eq].
  destruct (write_denied
              (file_name date_str activity_name activity_id "_full.json"));
    cbn [snd outdir files_of]; [apply lookup_insert_eq|].
  rewrite lookup_insert_ne; [apply lookup_insert_eq|].
  intros Heq%file_name_suffix_inj. discriminate.
Qed.

(** A download that returns has fetched the activity. *)
Lemma download_activity_fetched (a : activity) (f : format) (w w1 : world)
    (ok : bool) :
  well_formed a = true ->
  outdir w <> NoDir ->
  download_activity a f w = (Ok ok, w1) ->
  fetched a f ok (outdir w) (outdir w1).
Proof.
  intros Hwf Hdir Hrun.
  destruct w as [[|l files] out]; [contradiction|]. cbn [outdir].
  assert (Hguard : forall (A : Type) (w0 : world) (x : result A * world),
            guarded a w0 x = x)
    by (intros; unfold guarded; now rewrite Hwf).
  split.
  - intros e Hfail.
    rewrite (download_activity_request_fails a f _ e Hfail), Hguard in Hrun.
    injection Hrun as <- <-. split; reflexivity.
  - destruct f.
    + intros data Hdata Hw.
      rewrite (download_activity_gpx a data l files out Hdata Hw), Hguard
        in Hrun.
      injection Hrun as <- <-. split; [reflexivity|apply lookup_insert_eq].
    + intros data text Hdata Hdecode Hw.
      rewrite (download_activity_tcx a data text l files out Hdata Hdecode Hw),
        Hguard in Hrun.
      injection Hrun as <- <-. split; [reflexivity|apply lookup_insert_eq].
    + intros data Hdata Hwz Hwfit.
      assert (Hne : artifact a ".fit" <> artifact a ".zip").
      { intros Heq. symmetry in Heq. now apply zip_is_not_fit in Heq. }
      destruct (zip_members data) as [[|[member content] rest]|] eqn:Hzip.
      * erewrite download_activity_saved, Hguard in Hrun
          by (cbn [downloader]; unfold printed; cbn [outdir stdout];
              exact (download_fit_empty _ _ _ _ _ _ _ Hdata Hzip Hwz)).
        now injection Hrun as <- <-.
      * intros Hwm Hmember.
        erewrite download_activity_saved, Hguard in Hrun
          by (cbn [downloader]; unfold printed; cbn [outdir stdout];
              exact (download_fit_archive _ _ _ _ _ _ _ _ _ _
                       Hdata Hzip Hwz Hwfit Hwm Hmember)).
        injection Hrun as <- <-. split; [reflexivity|].
        cbn [printed outdir files_of].
        rewrite lookup_delete_ne by (intros Heq; now apply Hne).
        apply lookup_insert_eq.
      * erewrite download_activity_saved, Hguard in Hrun
          by (cbn [downloader]; unfold printed; cbn [outdir stdout];
              exact (download_fit_plain _ _ _ _ _ _ _ Hdata Hzip Hwz Hwfit)).
        injection Hrun as <- <-. split; [reflexivity|].
        apply lookup_insert_eq.
    + intros details text Hdetails Hdumps Hw.
      rewrite (download_activity_well_formed _ _ _ Hwf) in Hrun.
      pose proof (download_json_details (activityId a) (date_of a)
                    (safe_name_of a) details text l files
                    (out ++ [header a]) Hdetails Hdumps Hw) as Hfile.
      cbn [downloader] in Hrun. unfold printed in Hrun.
      cbn [outdir stdout] in Hrun.
      destruct (download_json _ _ _ _) as [[filename|e] w2];
        injection Hrun as <- <-; exact Hfile.
Qed.

Lemma malformed_app (before rest : list activity) :
  malformed (before ++ rest) = None ->
  malformed before = None /\ malformed rest = None.
Proof.
  unfold malformed. induction before as [|b before IH]; [now split|].
  cbn [app List.find]. destruct (negb (well_formed b)); [discriminate|].
  exact IH.
Qed.

(** A run that has activities to download comes to its loop. *)
Lemma main_reaches_loop (args : arguments) (w : world)
    (activities : list activity) :
  credentials_ok args = true ->
  login_outcome = Ok tt ->
  get_activities 0 (count args) = Ok activities ->
  (is_Some (watermark args (outdir w)) -> Forall well_timed activities) ->
  to_download (watermark args (outdir w)) activities <> [] ->
  main args w
  = rest_of_run args (to_download (watermark args (outdir w)) activities)
      1 (length (to_download (watermark args (outdir w)) activities)) 0
      (before_loop args activities w).
Proof.
  intros Hcred Hlogin Hacts Hwt Htodo.
  rewrite (main_run args w Hcred).
  unfold rest_of_run, before_loop, try_except.
  now rewrite (export_reaches_loop args _ _ activities
                 Hlogin Hacts Hwt Htodo).
Qed.

(** The run, cut at one of the activities it downloads. *)
Lemma rest_of_run_split (args : arguments) (before after_it : list activity)
    (a : activity) (i total success_count : nat) (w : world) :
  malformed before = None ->
  well_formed a = true ->
  exists (n : nat) (w0 : world) (ok : bool) (w1 : world),
    download_each before (arg_format args) i total success_count w
    = (Ok n, w0)
    /\ download_activity a (arg_format args)
         (printed w0 [Progress (i + length before) total])
       = (Ok ok, w1)
    /\ rest_of_run args (before ++ a :: after_it) i total success_count w
       = rest_of_run args after_it (S (i + length before)) total
           (if ok then S n else n) w1.
Proof.
  intros Hbefore Hwf.
  destruct (download_each_run before (arg_format args) i total
              success_count w) as (w0 & new & Hloop & _).
  rewrite Hbefore in Hloop.
  destruct (download_activity_lines a (arg_format args)
              (printed w0 [Progress (i + length before) total]) Hwf)
    as (ok & w1 & outcome & Hrun & _).
  exists (success_count + succeeded new)%nat, w0, ok, w1.
  split; [exact Hloop|]. split; [exact Hrun|].
  unfold rest_of_run, try_except.
  unfold bind at 1 3. rewrite download_each_app.
  rewrite (bind_Ok _ _ _ _ _ Hloop). cbn [download_each].
  rewrite (bind_Ok _ _ _ _ _ (print_run _ _)).
  rewrite (bind_Ok _ _ _ _ _ Hrun). reflexivity.
Qed.


End SameDay.


(* ================================================================== *)
(** * Names that need no sanitizing *)
(* ================================================================== *)

Lemma clean_length (x : string) : String.length (clean x) = String.length x.
Proof.
  induction x as [|c x IH]; [reflexivity|].
  rewrite clean_cons. cbn [String.length]. now rewrite IH.
Qed.

Lemma take_length_min (n : nat) (s : string) :
  String.length (Str.take n s) = Nat.min n (String.length s).
Proof.
  revert s. induction n as [|n IH]; intros [|c s]; cbn [Str.take String.length];
    try reflexivity.
  rewrite IH. reflexivity.
Qed.

(** X22.  A name that is not empty keeps its length up to 50 characters:
    the result has the length of the name, or 50 when the name is longer.
    A name of at most 50 characters with no invalid character and no space
    comes back as it is. *)
Theorem sanitize_filename_keeps_safe_names (x : string) :
  x <> "" ->
  String.length (sanitize_filename x) = Nat.min 50 (String.length x)
  /\ (all_chars (fun c => negb (forbidden c)) x = true ->
      (String.length x <= 50)%nat ->
      sanitize_filename x = x).
Proof.
  intros Hne.
  assert (Htruthy : Str.truthy (clean x) = true).
  { destruct x as [|c x]; [contradiction|]. now rewrite clean_cons. }
  rewrite sanitize_filename_unfold, Htruthy. split.
  - now rewrite take_length_min, clean_length.
  - intros Hsafe Hlen. rewrite (clean_fixed _ Hsafe). now apply take_short.
Qed.

Lemma sanitize_filename_keeps_safe_names_witness :
  "Evening_Ride" <> ""
  /\ String.length (sanitize_filename "Evening_Ride")
     = Nat.min 50 (String.length "Evening_Ride")
  /\ sanitize_filename "Evening_Ride" = "Evening_Ride".
Proof.
  assert (Hne : "Evening_Ride" <> "") by discriminate.
  destruct (sanitize_filename_keeps_safe_names "Evening_Ride" Hne)
    as [Hlen Hsame].
  split; [exact Hne|]. split; [exact Hlen|].
  apply Hsame; [reflexivity|]. cbn. lia.
Defined.

(* ================================================================== *)
(** * Examples *)
(* ================================================================== *)

Example sanitize_filename_morning_run :
  sanitize_filename "Morning Run: 5k/fast?" = "Morning_Run-_5k-fast-".
Proof. reflexivity. Qed.

Example sanitize_filename_empty : sanitize_filename "" = "Unnamed".
Proof. reflexivity. Qed.

Example get_date_string_parses :
  get_date_string "2024-03-16 18:45:10" = "2024-03-16".
Proof. reflexivity. Qed.

Example get_date_string_unknown :
  get_date_string "unknown time" = "unknown_date".
Proof. reflexivity. Qed.

Example strptime_rejects_missing_day : Strptime.date "2024-02-30" = None.
Proof. reflexivity. Qed.

Example file_name_with_name :
  file_name "2024-03-16" "Evening_Ride" 103 ".fit"
  = "2024-03-16_Evening_Ride_103.fit".
Proof. reflexivity. Qed.

Example file_name_without_name :
  file_name "2024-03-16" "" 103 ".gpx" = "2024-03-16_103.gpx".
Proof. reflexivity. Qed.

Example decode_date_unknown :
  decode_date "unknown_date_Manual_Entry_104.fit" = None.
Proof. reflexivity. Qed.

(** A full export: the second download fails, the third still runs. *)
Example full_export_output :
  stdout (snd (@main _ three_runs (demo_arguments fit true) (start NoDir)))
  = [OutputDirectory; Connecting; Authenticated; Fetching 10; Found 3;
     Progress 1 3;
     ActivityHeader "Evening Ride" "cycling" "2024-03-16 18:45:10";
     Saved "2024-03-16_Evening_Ride_103.fit";
     Progress 2 3;
     ActivityHeader "Lunch Run" "running" "2024-03-15 12:05:00";
     ActivityError "timed out";
     Progress 3 3;
     ActivityHeader "Morning Run" "running" "2024-03-14 07:30:00";
     Saved "2024-03-14_Morning_Run_101.fit";
     ExportComplete 2 3].
Proof. vm_compute. reflexivity. Qed.

(** An incremental export over [two_fit_files]: the run of the 14th is
    filtered out, the run of the 15th, the day of the watermark, is not. *)
Example incremental_export_output :
  stdout (snd (@main _ three_runs (demo_arguments fit false)
                 (start two_fit_files)))
  = [OutputDirectory; LastActivityDateFound "2024-03-15"; OnlyAfterThisDate;
     Connecting; Authenticated; Fetching 10; Found 3; FilteredOut 1;
     Progress 1 2;
     ActivityHeader "Evening Ride" "cycling" "2024-03-16 18:45:10";
     Saved "2024-03-16_Evening_Ride_103.fit";
     Progress 2 2;
     ActivityHeader "Lunch Run" "running" "2024-03-15 12:05:00";
     ActivityError "timed out";
     ExportComplete 1 2].
Proof. vm_compute. reflexivity. Qed.

(** A start time that does not parse ends an incremental run in the last
    [except] clause of [main], before any download. *)
Example mistimed_activity_aborts :
  @main _ (demo_client (Ok tt) (Ok [run_16; mistimed]))
    (demo_arguments fit false) (start two_fit_files)
  = (Ok 1,
     mkWorld two_fit_files
       [OutputDirectory; LastActivityDateFound "2024-03-15";
        OnlyAfterThisDate; Connecting; Authenticated; Fetching 10; Found 2;
        UnexpectedError "time data does not match format"]).
Proof. vm_compute. reflexivity. Qed.

(** A record whose name is [null] ends the run in the last [except] clause
    of [main], after the downloads before it: no header is printed for it,
    and the activity after it is not reached. *)
Example null_name_aborts :
  @main _ (demo_client (Ok tt) (Ok [run_16; unnamed; run_14]))
    (demo_arguments fit true) (start (Dir true ∅))
  = (Ok 1,
     mkWorld (Dir true (<["2024-03-16_Evening_Ride_103.fit"
                          := "plain fit data"]> ∅))
       [OutputDirectory; Connecting; Authenticated; Fetching 10; Found 3;
        Progress 1 3;
        ActivityHeader "Evening Ride" "cycling" "2024-03-16 18:45:10";
        Saved "2024-03-16_Evening_Ride_103.fit";
        Progress 2 3;
        UnexpectedError "'NoneType' object has no attribute 'replace'"]).
Proof. vm_compute. reflexivity. Qed.

(** So does a record whose type is [null]. *)
Example null_type_aborts :
  @main _ (demo_client (Ok tt)
             (Ok [mkActivity 109 (Some (Text "Swim")) (Some NullType) None]))
    (demo_arguments fit true) (start (Dir true ∅))
  = (Ok 1,
     mkWorld (Dir true ∅)
       [OutputDirectory; Connecting; Authenticated; Fetching 10; Found 1;
        Progress 1 1;
        UnexpectedError "'NoneType' object has no attribute 'get'"]).
Proof. vm_compute. reflexivity. Qed.

(** A start time that is [null] is printed as [None] and filed under
    [unknown_date] when there is no watermark; with a watermark the filter
    raises [TypeError]. *)
Example null_start_time_downloads :
  @download_activity _ three_runs
    (mkActivity 110 (Some (Text "Yoga")) None (Some Null)) gpx
    (start (Dir true ∅))
  = (Ok true,
     mkWorld (Dir true (<["unknown_date_Yoga_110.gpx" := demo_zip "fit data"]> ∅))
       [ActivityHeader "Yoga" "unknown" "None";
        Saved "unknown_date_Yoga_110.gpx"]).
Proof. vm_compute. reflexivity. Qed.

Example null_start_time_filter :
  filter_since (mkDatetime 2024 3 15 0 0 0)
    [mkActivity 110 (Some (Text "Yoga")) None (Some Null)]
  = Raise (mkExn TypeError "strptime() argument 1 must be str, not None").
Proof. reflexivity. Qed.

(** The year is printed without padding. *)
Example strftime_date_short_year :
  strftime_date (mkDatetime 999 1 1 10 0 0) = "999-01-01"
  /\ get_date_string "0999-01-01 10:00:00" = "999-01-01"
  /\ Strptime.date "999-01-01" = None.
Proof. repeat split; reflexivity. Qed.

(** An empty name is refused by the C library, a null character before
    that. *)
Example setenv_empty_name :
  setenv "" "secret" ∅
  = (Raise (mkExn OSError "[Errno 22] Invalid argument"), ∅).
Proof. reflexivity. Qed.

Example setenv_null_character :
  setenv "" (String NUL "") ∅
  = (Raise (mkExn ValueError "embedded null byte"), ∅).
Proof. reflexivity. Qed.
